(** * health-habits: the LINE webhook pipeline

    A shallow embedding of [app/api/line/webhook/route.ts],
    [lib/sheets.ts] and [app/api/line/reminder/route.ts]: intent
    classification, relative-date resolution, the retrying completion
    call, the sheet functions, the nutrient summary, the webhook request
    handler and the reminder, followed by the properties proved about
    them.

    Conventions of the embedding.
    - A JavaScript string is a Rocq [string] holding its UTF-8 encoding, so
      that the keyword literals of the source can be written as they are.
      [includes] on UTF-8 bytes agrees with [String.prototype.includes] on
      well-formed text because UTF-8 is self-synchronising.
    - Strings are compared the way JavaScript compares them, by the
      UTF-16 code units of the text ([codeUnits]).
    - Time values, retry counts and delays are integers.  The numbers the
      summary computes with are IEEE 754 binary64 values, [number], with
      the arithmetic of the Standard Library's [SpecFloat] at precision 53
      and [emax] 1024; the sampling temperature, which is only passed on,
      is the decimal fraction the source writes.
    - What the source takes from the JavaScript host and cannot be written
      down here in full (Unicode case mapping, [JSON.parse], the local time
      zone, the implementation-defined part of [Date.parse]) is the
      interface [Host]. *)

From Stdlib Require Import String Ascii List ZArith QArith Bool Lia DecimalString Sorted
  SpecFloat.
Import ListNotations.
Open Scope string_scope.
Open Scope Z_scope.

(* ================================================================== *)
(** * Part I: the model                                                *)
(* ================================================================== *)

(** ** Strings *)

(** [s.startsWith(p)] *)
Fixpoint startsWith (p s : string) : bool :=
  match p, s with
  | EmptyString, _ => true
  | String a p', String b s' => Ascii.eqb a b && startsWith p' s'
  | String _ _, EmptyString => false
  end.

(** [s.includes(kw)] *)
Fixpoint includes (s kw : string) : bool :=
  startsWith kw s ||
  match s with
  | EmptyString => false
  | String _ s' => includes s' kw
  end.

(** Lower-casing of the ASCII letters, every other byte unchanged. *)
Definition asciiLower (c : ascii) : ascii :=
  let n := nat_of_ascii c in
  if ((65 <=? n) && (n <=? 90))%nat then ascii_of_nat (n + 32) else c.

Fixpoint asciiToLowerCase (s : string) : string :=
  match s with
  | EmptyString => EmptyString
  | String c s' => String (asciiLower c) (asciiToLowerCase s')
  end.

(** The string of the bytes [l]. *)
Fixpoint bytes (l : list nat) : string :=
  match l with
  | [] => EmptyString
  | n :: l' => String (ascii_of_nat n) (bytes l')
  end.

(** Line feed. *)
Definition nl : string := bytes [10%nat].

Fixpoint strRev (acc s : string) : string :=
  match s with
  | EmptyString => acc
  | String c s' => strRev (String c acc) s'
  end.

(** [s] without the prefix [p], when it starts with [p]. *)
Fixpoint dropPrefix (p s : string) : option string :=
  match p, s with
  | EmptyString, _ => Some s
  | String a p', String b s' => if Ascii.eqb a b then dropPrefix p' s' else None
  | String _ _, EmptyString => None
  end.

(** The UTF-8 encodings of the code points ECMAScript counts as white
    space or line terminator: U+0009 to U+000D, U+0020, U+00A0, U+1680,
    U+2000 to U+200A, U+2028, U+2029, U+202F, U+205F, U+3000, U+FEFF. *)
Definition whiteSpace : list string :=
  map bytes
    [ [9]; [10]; [11]; [12]; [13]; [32]; [194; 160]; [225; 154; 128];
      [226; 128; 128]; [226; 128; 129]; [226; 128; 130]; [226; 128; 131];
      [226; 128; 132]; [226; 128; 133]; [226; 128; 134]; [226; 128; 135];
      [226; 128; 136]; [226; 128; 137]; [226; 128; 138];
      [226; 128; 168]; [226; 128; 169]; [226; 128; 175]; [226; 129; 159];
      [227; 128; 128]; [239; 187; 191] ]%nat.

(** [s] without one leading string of [ws], when it starts with one. *)
Fixpoint dropOne (ws : list string) (s : string) : option string :=
  match ws with
  | [] => None
  | w :: ws' =>
      match dropPrefix w s with
      | Some r => Some r
      | None => dropOne ws' s
      end
  end.

Fixpoint dropAll (fuel : nat) (ws : list string) (s : string) : string :=
  match fuel with
  | O => s
  | S fuel' =>
      match dropOne ws s with
      | Some r => dropAll fuel' ws r
      | None => s
      end
  end.

(** [s.trimStart()]; every white-space encoding is non-empty, so
    [length s] steps suffice. *)
Definition trimStart (s : string) : string := dropAll (String.length s) whiteSpace s.

(** [s.trimEnd()], on the reversed string. *)
Definition trimEnd (s : string) : string :=
  strRev "" (dropAll (String.length s) (map (strRev "") whiteSpace) (strRev "" s)).

(** [s.trim()] *)
Definition trim (s : string) : string := trimEnd (trimStart s).

(** ** The order of strings

    [<=], [>=] and [sort()] compare strings by their UTF-16 code units.
    [codeUnits s] is the text that the bytes [s] encode, as code units: a
    code point below U+10000 is one unit, a higher one a surrogate pair;
    the three bytes of a lone surrogate (as [slice] can leave one) are
    that surrogate; a byte that starts no sequence is read as U+FFFD. *)

Definition byteOf (c : ascii) : Z := Z.of_N (N_of_ascii c).

(** A continuation byte, [10xxxxxx]. *)
Definition isCont (c : ascii) : bool := (128 <=? byteOf c) && (byteOf c <? 192).

Definition contBits (c : ascii) : Z := byteOf c - 128.

Fixpoint codeUnits (s : string) : list Z :=
  match s with
  | EmptyString => []
  | String b0 r =>
      let n0 := byteOf b0 in
      if n0 <? 128 then n0 :: codeUnits r
      else
        match r with
        | String b1 r1 =>
            if (192 <=? n0) && (n0 <? 224) && isCont b1 then
              ((n0 - 192) * 64 + contBits b1) :: codeUnits r1
            else
              match r1 with
              | String b2 r2 =>
                  if (224 <=? n0) && (n0 <? 240) && isCont b1 && isCont b2 then
                    ((n0 - 224) * 4096 + contBits b1 * 64 + contBits b2)
                    :: codeUnits r2
                  else
                    match r2 with
                    | String b3 r3 =>
                        if (240 <=? n0) && (n0 <? 248)
                           && isCont b1 && isCont b2 && isCont b3 then
                          let cp := (n0 - 240) * 262144 + contBits b1 * 4096
                                    + contBits b2 * 64 + contBits b3 in
                          (55296 + (cp - 65536) / 1024)
                          :: (56320 + (cp - 65536) mod 1024) :: codeUnits r3
                        else 65533 :: codeUnits r
                    | EmptyString => 65533 :: codeUnits r
                    end
              | EmptyString => 65533 :: codeUnits r
              end
        | EmptyString => [65533]
        end
  end.

(** The lexicographic order of lists of code units. *)
Fixpoint unitsLeb (a b : list Z) : bool :=
  match a, b with
  | [], _ => true
  | _ :: _, [] => false
  | x :: a', y :: b' =>
      if x <? y then true else if x =? y then unitsLeb a' b' else false
  end.

(** [a <= b] on strings *)
Definition strLeb (a b : string) : bool := unitsLeb (codeUnits a) (codeUnits b).

Definition strLe (a b : string) : Prop := strLeb a b = true.

(** ** Numbers

    A JavaScript number is an IEEE 754 binary64 value: a signed zero, a
    signed infinity, NaN, or [(-1)^s * m * 2^e].  [+], [-] and [/] are the
    operations of [SpecFloat], which round to nearest, ties to even. *)

Definition prec : Z := 53.

Definition emax : Z := 1024.

Definition number : Type := spec_float.

Definition NaN : number := S754_nan.

Definition PInf : number := S754_infinity false.

Definition NInf : number := S754_infinity true.

(** The number nearest to the integer [n]. *)
Definition ofZ (n : Z) : number := binary_normalize prec emax n 0 false.

Definition nadd : number -> number -> number := SFadd prec emax.

Definition nsub : number -> number -> number := SFsub prec emax.

Definition ndiv : number -> number -> number := SFdiv prec emax.

(** The number nearest to [(-1)^negative * m * 10^e], for [0 <= m]: the
    rounding of a decimal literal. *)
Definition roundDecimal (negative : bool) (m e : Z) : number :=
  if m =? 0 then S754_zero negative
  else if 0 <=? e then binary_round prec emax negative (Z.to_pos (m * 10 ^ e)) 0
  else SFdiv prec emax (S754_finite negative (Z.to_pos m) 0)
                       (S754_finite false (Z.to_pos (10 ^ (- e))) 0).

(** The representation of the integer [n], [0 < n < 2^53], with sign
    [s]: 53 bits of mantissa. *)
Definition canon (s : bool) (n : Z) : number :=
  S754_finite s (Z.to_pos (n * 2 ^ (53 - Zdigits2 n))) (Zdigits2 n - 53).

(** ** JavaScript values that arrive through [JSON.parse] *)

#[warnings="-register-all"]
Inductive value : Type :=
| VUndefined
| VNull
| VBool (b : bool)
| VNum (n : number)
| VStr (s : string)
| VArr (l : list value)
| VObj (fields : list (string * value)).

(** *** [Number.prototype.toFixed(1)] *)

Definition decimal (n : Z) : string := NilZero.string_of_uint (N.to_uint (Z.to_N n)).

(** The integer nearest to [10 * m * 2^e], the larger one of two. *)
Definition tenths (m : positive) (e : Z) : Z :=
  if 0 <=? e then 10 * Z.pos m * 2 ^ e
  else (20 * Z.pos m + 2 ^ (- e)) / (2 * 2 ^ (- e)).

(** [10^21 <= m * 2^e] *)
Definition atLeast1e21 (m : positive) (e : Z) : bool :=
  if 0 <=? e then 10 ^ 21 <=? Z.pos m * 2 ^ e
  else 10 ^ 21 * 2 ^ (- e) <=? Z.pos m.

(** [c] without its trailing zeros. *)
Fixpoint stripZeros (fuel : nat) (c : Z) : Z :=
  match fuel with
  | O => c
  | S fuel' =>
      if (c mod 10 =? 0) && negb (c =? 0) then stripZeros fuel' (c / 10) else c
  end.

Definition digitsOf (v : Z) : Z := Z.of_nat (String.length (decimal v)).

(** Of the two decimal integers [s * scale] and [(s + 1) * scale] around
    [v], one that denotes the number [x]: the nearer to [v] when both do,
    the one with the even digits when they are equally near. *)
Definition nearestOf (x : number) (v scale s : Z) : option Z :=
  let c1 := s * scale in
  let c2 := (s + 1) * scale in
  match SFeqb (ofZ c1) x, SFeqb (ofZ c2) x with
  | true, true =>
      if c2 - v <? v - c1 then Some c2
      else if v - c1 <? c2 - v then Some c1
      else Some (if Z.even s then c1 else c2)
  | true, false => Some c1
  | false, true => Some c2
  | false, false => None
  end.

(** The decimal integer with the fewest significant digits, from [k] on,
    that denotes [x], whose value [v] has [nd] digits; 17 digits always
    suffice for a binary64 value. *)
Fixpoint shortest (fuel : nat) (x : number) (v nd k : Z) : Z :=
  match fuel with
  | O => v
  | S fuel' =>
      let scale := 10 ^ (nd - k) in
      match nearestOf x v scale (v / scale) with
      | Some c => c
      | None => shortest fuel' x v nd (k + 1)
      end
  end.

(** [Number::toString] of the positive number [x] whose value is the
    integer [v], [10^21 <= v]: the exponent form [d.ddde+n]. *)
Definition exponentForm (x : number) (v : Z) : string :=
  let c := shortest 17 x v (digitsOf v) 1 in
  let n := digitsOf c in
  match decimal (stripZeros (Z.to_nat n) c) with
  | String d EmptyString => String d "" ++ "e+" ++ decimal (n - 1)
  | String d rest => String d ("." ++ rest) ++ "e+" ++ decimal (n - 1)
  | EmptyString => ""
  end.

(** [x.toFixed(1)]: the nearest tenth below [10^21], the exponent form
    from there on. *)
Definition toFixed1 (x : number) : string :=
  match x with
  | S754_nan => "NaN"
  | S754_infinity false => "Infinity"
  | S754_infinity true => "-Infinity"
  | S754_zero _ => "0.0"
  | S754_finite s m e =>
      (if s then "-" else "") ++
      if atLeast1e21 m e then exponentForm (S754_finite false m e) (Z.pos m * 2 ^ e)
      else let n := tenths m e in decimal (n / 10) ++ "." ++ decimal (n mod 10)
  end.

(** *** [Number(string)] *)

Definition isDigit (c : ascii) : bool :=
  let n := nat_of_ascii c in ((48 <=? n) && (n <=? 57))%nat.

Definition digitVal (c : ascii) : Z := Z.of_nat (nat_of_ascii c) - 48.

(** Value of a hexadecimal digit, [None] for another character. *)
Definition hexVal (c : ascii) : option Z :=
  let n := nat_of_ascii c in
  if ((48 <=? n) && (n <=? 57))%nat then Some (Z.of_nat n - 48)
  else if ((65 <=? n) && (n <=? 70))%nat then Some (Z.of_nat n - 55)
  else if ((97 <=? n) && (n <=? 102))%nat then Some (Z.of_nat n - 87)
  else None.

(** The leading decimal digits of [s]: their value continuing [acc],
    their number, and the rest of [s]. *)
Fixpoint takeDigits (acc : Z) (count : nat) (s : string) : Z * nat * string :=
  match s with
  | String c s' =>
      if isDigit c then takeDigits (10 * acc + digitVal c) (S count) s'
      else (acc, count, s)
  | EmptyString => (acc, count, s)
  end.

(** A string of digits of base [base] only: its value continuing [acc]. *)
Fixpoint radixDigits (base : Z) (acc : Z) (s : string) : option Z :=
  match s with
  | EmptyString => Some acc
  | String c s' =>
      match hexVal c with
      | Some v => if v <? base then radixDigits base (base * acc + v) s' else None
      | None => None
      end
  end.

(** The digits after [0x], [0o] or [0b]: at least one. *)
Definition radixLiteral (base : Z) (s : string) : number :=
  match s with
  | EmptyString => NaN
  | _ => match radixDigits base 0 s with Some v => ofZ v | None => NaN end
  end.

(** The optional exponent part, which must end the string. *)
Definition exponentPart (s : string) : option Z :=
  match s with
  | EmptyString => Some 0
  | _ =>
      match dropOne ["e"; "E"] s with
      | None => None
      | Some s' =>
          let '(sign, digits) :=
            match dropPrefix "+" s' with
            | Some r => (1, r)
            | None =>
                match dropPrefix "-" s' with
                | Some r => (-1, r)
                | None => (1, s')
                end
            end in
          match takeDigits 0 0 digits with
          | (_, O, _) => None
          | (e, S _, EmptyString) => Some (sign * e)
          | (_, S _, String _ _) => None
          end
      end
  end.

(** An unsigned decimal literal: digits, an optional fraction, an
    optional exponent, with at least one digit before the exponent.  The
    result [(m, e)] stands for [m * 10^e]. *)
Definition unsignedDecimal (s : string) : option (Z * Z) :=
  let '(ip, ni, r1) := takeDigits 0 0 s in
  let '(m, nf, r2) :=
    match dropPrefix "." r1 with
    | Some r => takeDigits ip 0 r
    | None => (ip, O, r1)
    end in
  match (ni + nf)%nat with
  | O => None
  | S _ =>
      match exponentPart r2 with
      | Some e => Some (m, e - Z.of_nat nf)
      | None => None
      end
  end.

(** A literal with a radix prefix. *)
Definition nonDecimal (t : string) : option number :=
  match dropOne ["0x"; "0X"] t with
  | Some r => Some (radixLiteral 16 r)
  | None =>
      match dropOne ["0o"; "0O"] t with
      | Some r => Some (radixLiteral 8 r)
      | None =>
          match dropOne ["0b"; "0B"] t with
          | Some r => Some (radixLiteral 2 r)
          | None => None
          end
      end
  end.

(** [Number(s)] for a string [s] (StringToNumber): white space trimmed,
    the empty text is 0, a text that is no numeric literal is NaN. *)
Definition Number (s : string) : number :=
  let t := trim s in
  match t with
  | EmptyString => ofZ 0
  | _ =>
      match nonDecimal t with
      | Some x => x
      | None =>
          let '(negative, u) :=
            match dropPrefix "-" t with
            | Some r => (true, r)
            | None =>
                match dropPrefix "+" t with
                | Some r => (false, r)
                | None => (false, t)
                end
            end in
          if String.eqb u "Infinity" then (if negative then NInf else PInf)
          else match unsignedDecimal u with
               | Some (m, e) => roundDecimal negative m e
               | None => NaN
               end
      end
  end.

(** *** The grammar of numeric literals

    StringNumericLiteral of ECMAScript, between the white space: what
    [Number] reads as a number. *)

Definition allOf (p : ascii -> bool) (s : string) : bool :=
  forallb p (list_ascii_of_string s).

Definition DecimalDigits (s : string) : Prop := s <> "" /\ allOf isDigit s = true.

Definition optionally (P : string -> Prop) (s : string) : Prop := s = "" \/ P s.

Definition ExponentPart (s : string) : Prop :=
  exists indicator sign digits,
    s = indicator ++ sign ++ digits /\
    (indicator = "e" \/ indicator = "E") /\
    (sign = "" \/ sign = "+" \/ sign = "-") /\
    DecimalDigits digits.

Definition StrUnsignedDecimalLiteral (s : string) : Prop :=
  s = "Infinity" \/
  (exists a b x, s = a ++ "." ++ b ++ x /\ DecimalDigits a /\
                 optionally DecimalDigits b /\ optionally ExponentPart x) \/
  (exists b x, s = "." ++ b ++ x /\ DecimalDigits b /\ optionally ExponentPart x) \/
  (exists a x, s = a ++ x /\ DecimalDigits a /\ optionally ExponentPart x).

Definition StrDecimalLiteral (s : string) : Prop :=
  exists sign u,
    s = sign ++ u /\ (sign = "" \/ sign = "+" \/ sign = "-") /\
    StrUnsignedDecimalLiteral u.

Definition digitOfBase (base : Z) (c : ascii) : bool :=
  match hexVal c with
  | Some v => v <? base
  | None => false
  end.

Definition NonDecimalIntegerLiteral (s : string) : Prop :=
  exists prefix digits base,
    s = prefix ++ digits /\ digits <> "" /\ allOf (digitOfBase base) digits = true /\
    ((base = 16 /\ (prefix = "0x" \/ prefix = "0X")) \/
     (base = 8 /\ (prefix = "0o" \/ prefix = "0O")) \/
     (base = 2 /\ (prefix = "0b" \/ prefix = "0B"))).

Definition StrNumericLiteral (s : string) : Prop :=
  StrDecimalLiteral s \/ NonDecimalIntegerLiteral s.

(** ** The host interface *)

Class Host : Type := {
  (** [String.prototype.toLowerCase] *)
  toLowerCase : string -> string;
  (** [JSON.parse]; [None] when it throws a [SyntaxError] *)
  JSON_parse : string -> option value;
  (** offset of local time from UTC in milliseconds; a zone without
      daylight saving *)
  LocalTZA : Z;
  (** [Date.parse] on a string that is not of the form [YYYY-MM-DD] *)
  Date_parse_other : string -> number
}.

(** ** Intent classification *)

Inductive Category : Type := meal | exercise | meditation | journal.

Inductive MealType : Type := Breakfast | Lunch | Dinner | Snack.

(** The string [detectMealType] returns for each meal type. *)
Definition mealTypeLabel (m : MealType) : string :=
  match m with
  | Breakfast => "朝食"
  | Lunch => "昼食"
  | Dinner => "夕食"
  | Snack => "間食"
  end.

Section Classifier.
Context `{Host}.

(** [detectMealType]; [None] is the source's [null]. *)
Definition detectMealType (userText : string) : option MealType :=
  let text := toLowerCase userText in
  if includes text "朝" || includes text "breakfast" then Some Breakfast
  else if includes text "昼" || includes text "ランチ" || includes text "lunch" then Some Lunch
  else if includes text "夜" || includes text "夕" || includes text "dinner" then Some Dinner
  else if includes text "間食" || includes text "おやつ" || includes text "snack" then Some Snack
  else None.

(** [detectLogCategory].  Every string [detectMealType] returns is
    non-empty, so its result is truthy exactly when it is not [null]. *)
Definition detectLogCategory (userText : string) : option Category :=
  let text := toLowerCase userText in
  if (match detectMealType userText with Some _ => true | None => false end)
  then Some meal
  else if includes text "運動" || includes text "走" || includes text "筋トレ"
          || includes text "workout" || includes text "run"
  then Some exercise
  else if includes text "瞑想" || includes text "meditation" || includes text "座禅"
  then Some meditation
  else if includes text "日記" || includes text "ジャーナル" || includes text "思った"
          || includes text "感じた"
  then Some journal
  else None.

End Classifier.

(** *** The precedence table of the specification *)

(** The keyword table in the order the specification gives:
    Meal, Exercise, Meditation, Journal. *)
Definition mealKeywords : list string :=
  ["朝"; "breakfast"; "昼"; "ランチ"; "lunch"; "夜"; "夕"; "dinner";
   "間食"; "おやつ"; "snack"].

Definition exerciseKeywords : list string :=
  ["運動"; "走"; "筋トレ"; "workout"; "run"].

Definition categoryTable : list (Category * list string) :=
  [ (meal, mealKeywords);
    (exercise, exerciseKeywords);
    (meditation, ["瞑想"; "meditation"; "座禅"]);
    (journal, ["日記"; "ジャーナル"; "思った"; "感じた"]) ].

Definition includesAny (text : string) (kws : list string) : bool :=
  existsb (includes text) kws.

(** The first category of the table one of whose keywords occurs. *)
Fixpoint firstCategory (table : list (Category * list string)) (text : string)
  : option Category :=
  match table with
  | [] => None
  | (c, kws) :: rest =>
      if includesAny text kws then Some c else firstCategory rest text
  end.

(** The meal types in the order [detectMealType] tests them, each with
    its keywords. *)
Definition mealTypeTable : list (MealType * list string) :=
  [ (Breakfast, ["朝"; "breakfast"]);
    (Lunch, ["昼"; "ランチ"; "lunch"]);
    (Dinner, ["夜"; "夕"; "dinner"]);
    (Snack, ["間食"; "おやつ"; "snack"]) ].

Fixpoint firstMealType (table : list (MealType * list string)) (text : string)
  : option MealType :=
  match table with
  | [] => None
  | (m, kws) :: rest =>
      if includesAny text kws then Some m else firstMealType rest text
  end.

(** ** Dates

    The time value of a [Date] is an integer number of milliseconds since
    the epoch; the functions below carry the names ECMAScript gives them.
    [TimeClip] (the bound of 8.64e15 ms) is outside the model. *)

Definition msPerDay : Z := 86400000.

Definition Day (t : Z) : Z := t / msPerDay.

Definition TimeWithinDay (t : Z) : Z := t mod msPerDay.

(** Year (counted from the last 1 March of a year divisible by 400, with
    January and February already moved to the next year), month (1..12)
    and day of the month of the day [doe] of a 400-year era. *)
Definition civilOfDoe (doe : Z) : Z * Z * Z :=
  let yoe := (doe - doe / 1460 + doe / 36524 - doe / 146096) / 365 in
  let doy := doe - (365 * yoe + yoe / 4 - yoe / 100) in
  let mp := (5 * doy + 2) / 153 in
  let d := doy - (153 * mp + 2) / 5 + 1 in
  let m := if mp <? 10 then mp + 3 else mp - 9 in
  (if m <=? 2 then yoe + 1 else yoe, m, d).

(** Proleptic Gregorian (year, month 1..12, day) of a day number. *)
Definition civilFromDays (z : Z) : Z * Z * Z :=
  let z' := z + 719468 in
  let '(y, m, d) := civilOfDoe (z' mod 146097) in
  (y + 400 * (z' / 146097), m, d).

(** Number, within its era, of the day [d] of month [m] (1..12) of the
    year [yoe] of the era (a year that starts on 1 March); [d] may lie
    outside the month, as in [MakeDay]. *)
Definition dayOfEra (yoe m d : Z) : Z :=
  let mp := if m <=? 2 then m + 9 else m - 3 in
  let doy := (153 * mp + 2) / 5 + d - 1 in
  yoe * 365 + yoe / 4 - yoe / 100 + doy.

(** Day number of (year, month 1..12, day). *)
Definition daysFromCivil (y m d : Z) : Z :=
  let y' := if m <=? 2 then y - 1 else y in
  146097 * (y' / 400) + dayOfEra (y' mod 400) m d - 719468.

Definition YearFromTime (t : Z) : Z := fst (fst (civilFromDays (Day t))).

(** 0-based, as [getMonth] *)
Definition MonthFromTime (t : Z) : Z := snd (fst (civilFromDays (Day t))) - 1.

Definition DateFromTime (t : Z) : Z := snd (civilFromDays (Day t)).

(** 0 is Sunday *)
Definition WeekDay (t : Z) : Z := (Day t + 4) mod 7.

(** [month] is 0-based and may lie outside 0..11 *)
Definition MakeDay (year month date : Z) : Z :=
  daysFromCivil (year + month / 12) (month mod 12 + 1) 1 + date - 1.

Definition MakeDate (day time : Z) : Z := day * msPerDay + time.

Definition digitChar (n : Z) : ascii := ascii_of_nat (48 + Z.to_nat (n mod 10)).

Definition pad2 (n : Z) : string :=
  String (digitChar (n / 10)) (String (digitChar n) "").

Definition pad4 (n : Z) : string :=
  String (digitChar (n / 1000)) (String (digitChar (n / 100)) (pad2 n)).

(** The year of [toISOString]: four digits, or a sign and six digits for
    a year outside 0..9999. *)
Definition isoYear (y : Z) : string :=
  if (0 <=? y) && (y <=? 9999) then pad4 y
  else (if y <? 0 then "-" else "+") ++ pad2 (Z.abs y / 10000) ++ pad4 (Z.abs y).

Definition isoDateOfDay (day : Z) : string :=
  let '(y, m, d) := civilFromDays day in
  isoYear y ++ "-" ++ pad2 m ++ "-" ++ pad2 d.

(** [t.toISOString().split("T")[0]]: the UTC calendar date of [t] *)
Definition isoDate (t : Z) : string := isoDateOfDay (Day t).

(** The [{ start, end }] of [detectDateRange]. *)
Record DateRange : Type := { range_start : string; range_end : string }.

Section Dates.
Context `{Host}.

Definition LocalTime (t : Z) : Z := t + LocalTZA.

Definition UTC (t : Z) : Z := t - LocalTZA.

Definition getFullYear (t : Z) : Z := YearFromTime (LocalTime t).
Definition getMonth (t : Z) : Z := MonthFromTime (LocalTime t).
Definition getDate (t : Z) : Z := DateFromTime (LocalTime t).
Definition getDay (t : Z) : Z := WeekDay (LocalTime t).

(** [d.setDate(date)]: the time value [d] has afterwards *)
Definition setDate (t date : Z) : Z :=
  let lt := LocalTime t in
  UTC (MakeDate (MakeDay (YearFromTime lt) (MonthFromTime lt) date)
                (TimeWithinDay lt)).

(** [new Date(year, month, date)]: local midnight; a year 0..99 stands
    for 1900 + year *)
Definition newDateYMD (year month date : Z) : Z :=
  let yr := if (0 <=? year) && (year <=? 99) then 1900 + year else year in
  UTC (MakeDate (MakeDay yr month date) 0).

(** [t.toTimeString().slice(0, 5)]: local HH:MM *)
Definition timeHHMM (t : Z) : string :=
  let ms := TimeWithinDay (LocalTime t) in
  pad2 (ms / 3600000) ++ ":" ++ pad2 (ms / 60000 mod 60).

(** [detectMealDate] *)
Definition detectMealDate (userText : string) (now : Z) : string :=
  let text := toLowerCase userText in
  if includes text "今日" || includes text "today" then isoDate now
  else if includes text "昨日" || includes text "yesterday" then
    let y := setDate now (getDate now - 1) in
    isoDate y
  else if includes text "一昨日" then
    let d := setDate now (getDate now - 2) in
    isoDate d
  else isoDate now.

(** [detectDateRange]; [now] is the value of its [new Date()]. *)
Definition detectDateRange (now : Z) (userText : string) : option DateRange :=
  let today := isoDate now in
  if includes userText "これまで" || includes userText "全期間" then
    Some {| range_start := "ALL"; range_end := "ALL" |}
  else if includes userText "先週" then
    let end_ := setDate now (getDate now - 1) in
    let start := setDate end_ (getDate end_ - 6) in
    Some {| range_start := isoDate start; range_end := isoDate end_ |}
  else if includes userText "今週" then
    let day := if getDay now =? 0 then 7 else getDay now in
    let start := setDate now (getDate now - (day - 1)) in
    Some {| range_start := isoDate start; range_end := today |}
  else if includes userText "今月" then
    let start := newDateYMD (getFullYear now) (getMonth now) 1 in
    Some {| range_start := isoDate start; range_end := today |}
  else None.

End Dates.

(** *** The dates the specification names *)

(** Monday of the ISO week of day number [d] (day 0 is a Thursday). *)
Definition mondayOfWeek (d : Z) : Z := d - (d + 3) mod 7.

(** ISO weekday of a day number: Monday 1 .. Sunday 7. *)
Definition isoWeekday (d : Z) : Z := (d + 3) mod 7 + 1.

(** Day number of the first day of the month that holds day [d]. *)
Definition firstOfMonth (d : Z) : Z := d - (snd (civilFromDays d) - 1).

(** ** Effects

    What a piece of the handler does to the outside world is the list of
    its [effect]s in the order they happen; what the outside world answers
    is an argument of the function.  [M A] pairs the effects with the way
    the computation ends: it returns a value or throws. *)

(** A thrown value: [undefined], or an object with the optional numeric
    fields [status] and [response.status] that [callOpenAIWithRetry]
    reads. *)
Inductive exn : Type :=
| ThrownUndefined
| ThrownError (name : string) (status : option Z) (response_status : option Z).

Inductive role : Type := system | user | assistant.

Record message : Type := { msg_role : role; msg_content : string }.

Inductive logLevel : Type := console_log | console_warn | console_error.

(** A cell written to a sheet: a string or a number. *)
Inductive cell : Type :=
| CStr (s : string)
| CNum (n : Z)
| CNull.

Inductive effect : Type :=
| Console (level : logLevel) (tag : string)
| ChatCompletionsCreate (messages : list message) (temperature : Q) (max_tokens : Z)
| SetTimeout (delayMs : Z)
| GetAuthClient
| SheetsGet (range : string)
| SheetsAppend (range : string) (row : list cell)
| LineReply (replyToken : value) (text : string)
| LinePush (to : string) (text : string).

Inductive outcome (A : Type) : Type :=
| Returned (a : A)
| Threw (e : exn).
Arguments Returned {A} a.
Arguments Threw {A} e.

Definition M (A : Type) : Type := list effect * outcome A.

Definition ret {A : Type} (a : A) : M A := ([], Returned a).

Definition throw {A : Type} (e : exn) : M A := ([], Threw e).

Definition emit (eff : effect) : M unit := ([eff], Returned tt).

Definition bind {A B : Type} (m : M A) (f : A -> M B) : M B :=
  match m with
  | (t, Returned a) => let '(t', o) := f a in ((t ++ t')%list, o)
  | (t, Threw e) => (t, Threw e)
  end.

(** [try { m } catch (e) { handler e }] *)
Definition tryCatch {A : Type} (m : M A) (handler : exn -> M A) : M A :=
  match m with
  | (t, Returned a) => (t, Returned a)
  | (t, Threw e) => let '(t', o) := handler e in ((t ++ t')%list, o)
  end.

Declare Scope effect_scope.
Delimit Scope effect_scope with effect.
Notation "x <- m ;; k" := (bind m (fun x => k))
  (at level 61, m at next level, right associativity) : effect_scope.
Notation "m ;; k" := (bind m (fun _ => k))
  (at level 61, right associativity) : effect_scope.
Notation "' pat <- m ;; k" := (bind m (fun x => let 'pat := x in k))
  (at level 61, pat pattern, m at next level, right associativity) : effect_scope.
Open Scope effect_scope.

(** ** The completion call with retry *)

(** What [callOpenAIWithRetry] reads of the response:
    [choices?.[0]?.message?.content], [None] when it is nullish. *)
Record completion : Type := { choice_content : option string }.

(** [e?.status || e?.response?.status]; a status of 0 is falsy. *)
Definition statusOf (e : exn) : option Z :=
  match e with
  | ThrownUndefined => None
  | ThrownError _ status response_status =>
      match status with
      | Some n => if n =? 0 then response_status else Some n
      | None => response_status
      end
  end.

(** [status === 429 || status >= 500]; both are false of [undefined]. *)
Definition isRetryable (status : option Z) : bool :=
  match status with
  | Some n => (n =? 429) || (500 <=? n)
  | None => false
  end.

Record RetryOptions : Type := {
  maxRetries : Z;
  temperature : Q;
  max_tokens : Z
}.

(** The defaults of the destructured second parameter. *)
Definition defaultOptions : RetryOptions :=
  {| maxRetries := 2; temperature := 6 # 10; max_tokens := 250 |}.

(** [Math.min(500 * Math.pow(2, attempt), 2500)] *)
Definition delayMs (attempt : Z) : Z := Z.min (500 * 2 ^ attempt) 2500.

(** The [while] loop of [callOpenAIWithRetry].  [create k] is what the
    [k]-th call of [client.chat.completions.create] does: it returns a
    completion or throws.  [fuel] bounds the number of iterations; at
    [Z.to_nat (maxRetries + 1)] it is never exhausted
    ([retryLoop_fuel]). *)
Fixpoint retryLoop (fuel : nat) (create : nat -> completion + exn)
    (messages : list message) (opts : RetryOptions)
    (attempt : Z) (lastErr : exn) : M completion :=
  match fuel with
  | O => throw lastErr
  | S fuel' =>
      if attempt <=? maxRetries opts then
        emit (ChatCompletionsCreate messages (temperature opts) (max_tokens opts)) ;;
        match create (Z.to_nat attempt) with
        | inl resp => ret resp
        | inr e =>
            let status := statusOf e in
            emit (Console console_error "[OPENAI][ERROR]") ;;
            if negb (isRetryable status) || (attempt =? maxRetries opts) then throw e
            else
              emit (SetTimeout (delayMs attempt)) ;;
              retryLoop fuel' create messages opts (attempt + 1) e
        end
      else throw lastErr
  end.

Definition callOpenAIWithRetry (create : nat -> completion + exn)
    (messages : list message) (opts : RetryOptions) : M completion :=
  retryLoop (Z.to_nat (maxRetries opts + 1)) create messages opts 0 ThrownUndefined.

(** The effects of [k] attempts that fail and are retried, the first of
    them being attempt number [a]. *)
Definition retriedTrace (messages : list message) (opts : RetryOptions)
    (a : Z) (k : nat) : list effect :=
  flat_map (fun i =>
    [ ChatCompletionsCreate messages (temperature opts) (max_tokens opts);
      Console console_error "[OPENAI][ERROR]";
      SetTimeout (delayMs (a + Z.of_nat i)) ]) (seq 0 k).

(** The delays and the number of completion calls in a list of effects. *)
Fixpoint delaysOf (t : list effect) : list Z :=
  match t with
  | [] => []
  | SetTimeout d :: t' => d :: delaysOf t'
  | _ :: t' => delaysOf t'
  end.

Fixpoint callsOf (t : list effect) : nat :=
  match t with
  | [] => O
  | ChatCompletionsCreate _ _ _ :: t' => S (callsOf t')
  | _ :: t' => callsOf t'
  end.

(** The delays before attempts [1 .. k]: [delayMs 0, ..., delayMs (k-1)]. *)
Definition backoffDelays (k : nat) : list Z :=
  map (fun i => delayMs (Z.of_nat i)) (seq 0 k).

(** A completion service that fails [k] times with [e] and then
    answers [r]. *)
Definition failsThenSucceeds (k : nat) (e : exn) (r : completion)
  : nat -> completion + exn :=
  fun i => if (i <? k)%nat then inr e else inl r.

Definition rateLimited : exn := ThrownError "RateLimitError" (Some 429) None.

Definition unauthorized : exn := ThrownError "AuthenticationError" (Some 401) None.

(** ** The sheets ([lib/sheets.ts]) *)

(** A row as [values.get] returns it: its cells as strings, trailing
    empty cells left out. *)
Definition row : Type := list string.

(** What the Google client answers within one task: [getAuthClient]
    succeeds or throws, [values.get] returns the rows of a range (no rows
    when [res.data.values] is undefined) or throws, [values.append]
    succeeds or throws. *)
Record SheetsService : Type := {
  authClient : option exn;
  values_get : string -> list row + exn;
  values_append : string -> option exn
}.

Definition getAuthClient (g : SheetsService) : M unit :=
  emit GetAuthClient ;;
  match authClient g with
  | Some e => throw e
  | None => ret tt
  end.

Definition valuesGet (g : SheetsService) (range : string) : M (list row) :=
  emit (SheetsGet range) ;;
  match values_get g range with
  | inl rows => ret rows
  | inr e => throw e
  end.

Definition valuesAppend (g : SheetsService) (range : string) (r : list cell)
  : M unit :=
  emit (SheetsAppend range r) ;;
  match values_append g range with
  | Some e => throw e
  | None => ret tt
  end.

Definition appendMealLog (g : SheetsService) (r : list cell) : M unit :=
  getAuthClient g ;; valuesAppend g "Meal Log!A2" r.

Definition appendExerciseLog (g : SheetsService) (r : list cell) : M unit :=
  getAuthClient g ;; valuesAppend g "Exercise Log!A2" r.

Definition appendMeditationLog (g : SheetsService) (r : list cell) : M unit :=
  getAuthClient g ;; valuesAppend g "Meditation Log!A2" r.

Definition appendJournalLog (g : SheetsService) (r : list cell) : M unit :=
  getAuthClient g ;; valuesAppend g "Journal Log!A2" r.

(** [row[2] === date]; a missing cell is [undefined]. *)
Definition getMealLogsByDate (g : SheetsService) (date : string) : M (list row) :=
  getAuthClient g ;;
  rows <- valuesGet g "Meal Log!A2:N" ;;
  ret (filter (fun r => match nth_error r 2 with
                        | Some c => String.eqb c date
                        | None => false
                        end) rows).

(** [row[2] >= start && row[2] <= end]; both are false of [undefined]. *)
Definition inRange (start end_ : string) (r : row) : bool :=
  match nth_error r 2 with
  | Some c => strLeb start c && strLeb c end_
  | None => false
  end.

Definition getMealLogsByRange (g : SheetsService) (start end_ : string)
  : M (list row) :=
  getAuthClient g ;;
  rows <- valuesGet g "Meal Log!A2:N" ;;
  if String.eqb start "ALL" && String.eqb end_ "ALL" then ret rows
  else ret (filter (inRange start end_) rows).

(** [Array.prototype.sort()] on strings: ascending by code units. *)
Fixpoint insertSorted (x : string) (l : list string) : list string :=
  match l with
  | [] => [x]
  | y :: l' => if strLeb x y then x :: l else y :: insertSorted x l'
  end.

Definition sortStrings (l : list string) : list string :=
  fold_right insertSorted [] l.

(** [(res.data.values || []).map((r) => r[0]).filter(Boolean)] *)
Definition firstCells (rows : list row) : list string :=
  flat_map (fun r => match r with
                     | c :: _ => if String.eqb c "" then [] else [c]
                     | [] => []
                     end) rows.

Definition getMealLogDateRange (g : SheetsService) : M (option DateRange) :=
  getAuthClient g ;;
  values <- valuesGet g "Meal Log!C2:C" ;;
  let rows := firstCells values in
  match rows with
  | [] => ret None
  | _ :: _ =>
      let sorted := sortStrings rows in
      ret (Some {| range_start := hd "" sorted; range_end := last sorted "" |})
  end.

(** ** The nutrient summary *)

Record Totals : Type := {
  kcal : number; protein : number; fat : number; carbs : number;
  vitaminB6 : number; vitaminD : number; magnesium : number;
  iron : number; zinc : number
}.

Definition zeroTotals : Totals :=
  {| kcal := ofZ 0; protein := ofZ 0; fat := ofZ 0; carbs := ofZ 0;
     vitaminB6 := ofZ 0; vitaminD := ofZ 0; magnesium := ofZ 0;
     iron := ofZ 0; zinc := ofZ 0 |}.

(** [Number(row[i] || 0)]: a missing or empty cell counts 0. *)
Definition cellNumber (r : row) (i : nat) : number :=
  match nth_error r i with
  | None => ofZ 0
  | Some c => if String.eqb c "" then ofZ 0 else Number c
  end.

(** One turn of [for (const row of logs)]. *)
Definition addRow (totals : Totals) (r : row) : Totals :=
  {| kcal := nadd (kcal totals) (cellNumber r 5);
     protein := nadd (protein totals) (cellNumber r 6);
     fat := nadd (fat totals) (cellNumber r 7);
     carbs := nadd (carbs totals) (cellNumber r 8);
     vitaminB6 := nadd (vitaminB6 totals) (cellNumber r 9);
     vitaminD := nadd (vitaminD totals) (cellNumber r 10);
     magnesium := nadd (magnesium totals) (cellNumber r 11);
     iron := nadd (iron totals) (cellNumber r 12);
     zinc := nadd (zinc totals) (cellNumber r 13) |}.

Definition sumRows (logs : list row) : Totals := fold_left addRow logs zeroTotals.

(** A string of the form [YYYY-MM-DD]: the time value of its UTC
    midnight, [NaN] when month or day is out of bounds. *)
Definition parseIsoDate (s : string) : option number :=
  match s with
  | String y1 (String y2 (String y3 (String y4 (String "-"
      (String m1 (String m2 (String "-" (String d1 (String d2 EmptyString))))))))) =>
      if forallb isDigit [y1; y2; y3; y4; m1; m2; d1; d2] then
        let y := 1000 * digitVal y1 + 100 * digitVal y2 + 10 * digitVal y3 + digitVal y4 in
        let m := 10 * digitVal m1 + digitVal m2 in
        let d := 10 * digitVal d1 + digitVal d2 in
        if (1 <=? m) && (m <=? 12) && (1 <=? d) && (d <=? 31)
        then Some (ofZ (MakeDate (MakeDay y (m - 1) d) 0))
        else Some NaN
      else None
  | _ => None
  end.

Section Summary.
Context `{Host}.

(** [new Date(s).getTime()] *)
Definition Date_parse (s : string) : number :=
  match parseIsoDate s with
  | Some t => t
  | None => Date_parse_other s
  end.

(** [(new Date(end).getTime() - new Date(start).getTime())
     / (1000*60*60*24) + 1] *)
Definition daysOfRange (start end_ : string) : number :=
  nadd (ndiv (nsub (Date_parse end_) (Date_parse start)) (ofZ msPerDay)) (ofZ 1).

End Summary.

(** The [fmt] of the summary. *)
Definition fmt (days : number) (label : string) (total : number) (unit : string)
  : string :=
  label ++ ": " ++ toFixed1 total ++ " " ++ unit ++ "（平均 " ++
  toFixed1 (ndiv total days) ++ " " ++ unit ++ "/日）".

Definition summaryText (start end_ : string) (totals : Totals) (days : number)
  : string :=
  start ++ " 〜 " ++ end_ ++ " のサマリー" ++ nl ++
  fmt days "カロリー" (kcal totals) "kcal" ++ nl ++
  fmt days "タンパク質" (protein totals) "g" ++ nl ++
  fmt days "脂質" (fat totals) "g" ++ nl ++
  fmt days "炭水化物" (carbs totals) "g" ++ nl ++
  fmt days "ビタミンB6" (vitaminB6 totals) "mg" ++ nl ++
  fmt days "ビタミンD" (vitaminD totals) "μg" ++ nl ++
  fmt days "マグネシウム" (magnesium totals) "mg" ++ nl ++
  fmt days "鉄" (iron totals) "mg" ++ nl ++
  fmt days "亜鉛" (zinc totals) "mg".

(** *** The summary as the specification describes it

    The sum of each nutrient column over the rows, a missing or empty
    cell counting 0 and every other cell what [Number] reads; one line per
    nutrient with the total and the average per day, the total divided by
    the day count, each to one decimal place. *)

(** The nine nutrient fields: label, column of the meal log, unit. *)
Definition nutrientColumns : list (string * nat * string) :=
  [ ("カロリー", 5%nat, "kcal"); ("タンパク質", 6%nat, "g"); ("脂質", 7%nat, "g");
    ("炭水化物", 8%nat, "g"); ("ビタミンB6", 9%nat, "mg"); ("ビタミンD", 10%nat, "μg");
    ("マグネシウム", 11%nat, "mg"); ("鉄", 12%nat, "mg"); ("亜鉛", 13%nat, "mg") ].

Definition cellValue (r : row) (i : nat) : number :=
  match nth_error r i with
  | None | Some EmptyString => ofZ 0
  | Some c => Number c
  end.

Definition columnTotal (i : nat) (logs : list row) : number :=
  fold_left nadd (map (fun r => cellValue r i) logs) (ofZ 0).

Definition reportLine (logs : list row) (days : number)
    (field : string * nat * string) : string :=
  let '(label, i, unit) := field in
  label ++ ": " ++ toFixed1 (columnTotal i logs) ++ " " ++ unit ++ "（平均 " ++
  toFixed1 (ndiv (columnTotal i logs) days) ++ " " ++ unit ++ "/日）".

Definition reportText (start end_ : string) (logs : list row) (days : number)
  : string :=
  start ++ " 〜 " ++ end_ ++ " のサマリー" ++ nl ++
  String.concat nl (map (reportLine logs days) nutrientColumns).

(** ** The nutrient report of the completion service *)

Definition isNumeric (c : ascii) : bool := isDigit c || Ascii.eqb c ".".

(** The longest prefix of [s] made of digits and dots. *)
Fixpoint takeNumeric (s : string) : string :=
  match s with
  | String c s' => if isNumeric c then String c (takeNumeric s') else ""
  | EmptyString => ""
  end.

(** A match of [/label[:：]\s*([\d.]+)/] at the start of [s]: its group.
    White space and the characters of the group are disjoint, so the
    greedy [\s*] never has to give back. *)
Definition fieldAt (label s : string) : option string :=
  match dropPrefix label s with
  | None => None
  | Some r =>
      match dropOne [":"; "："] r with
      | None => None
      | Some r2 =>
          match takeNumeric (dropAll (String.length r2) whiteSpace r2) with
          | EmptyString => None
          | v => Some v
          end
      end
  end.

(** [text.match(/label[:：]\s*([\d.]+)/)?.[1]]: the leftmost match *)
Fixpoint matchField (label s : string) : option string :=
  match fieldAt label s with
  | Some v => Some v
  | None =>
      match s with
      | EmptyString => None
      | String _ s' => matchField label s'
      end
  end.

(** [(text.match(...)?.[1] || "") || 0], as it is written to the row *)
Definition nutrientCell (label text : string) : cell :=
  match matchField label text with
  | Some v => CStr v
  | None => CNum 0
  end.

Definition nutrientLabels : list string :=
  ["カロリー"; "タンパク質"; "脂質"; "炭水化物"; "ビタミンB6"; "ビタミンD";
   "マグネシウム"; "鉄"; "亜鉛"].

(** A run of white space: white-space characters one after the other. *)
Definition whiteSpaceRun (s : string) : Prop :=
  exists ws, Forall (fun w => In w whiteSpace) ws /\ s = String.concat "" ws.

(** [s] starts with a digit or a dot. *)
Definition startsNumeric (s : string) : bool :=
  match s with
  | String c _ => isNumeric c
  | EmptyString => false
  end.

(** [label] occurs in [s] at the end of [s] only. *)
Fixpoint occursOnlyAtEnd (label s : string) : bool :=
  (negb (startsWith label s) || String.eqb s label) &&
  match s with
  | EmptyString => true
  | String _ s' => occursOnlyAtEnd label s'
  end.

(** ** [String.prototype.slice(0, n)], counted in UTF-16 code units *)

Fixpoint takeBytes (n : nat) (s : string) : string * string :=
  match n, s with
  | S n', String c s' => let '(a, b) := takeBytes n' s' in (String c a, b)
  | _, _ => ("", s)
  end.

(** The high surrogate of the code point a four-byte sequence encodes,
    as three bytes (the generalised UTF-8 of a lone surrogate). *)
Definition highSurrogate (ch : string) : string :=
  match ch with
  | String b0 (String b1 (String b2 (String b3 EmptyString))) =>
      let v c := Z.of_nat (nat_of_ascii c) in
      let cp := Z.lor (Z.shiftl (Z.land (v b0) 7) 18)
                 (Z.lor (Z.shiftl (Z.land (v b1) 63) 12)
                   (Z.lor (Z.shiftl (Z.land (v b2) 63) 6) (Z.land (v b3) 63))) in
      let hi := 55296 + Z.shiftr (cp - 65536) 10 in
      bytes [ Z.to_nat (Z.lor 224 (Z.shiftr hi 12));
              Z.to_nat (Z.lor 128 (Z.land (Z.shiftr hi 6) 63));
              Z.to_nat (Z.lor 128 (Z.land hi 63)) ]
  | _ => ch
  end.

Fixpoint sliceUnits (fuel units : nat) (s : string) : string :=
  match fuel, units, s with
  | S fuel', S units', String c _ =>
      let b := nat_of_ascii c in
      let len := if (b <? 192)%nat then 1%nat else if (b <? 224)%nat then 2%nat
                 else if (b <? 240)%nat then 3%nat else 4%nat in
      let '(ch, rest) := takeBytes len s in
      if (len =? 4)%nat then
        match units' with
        | O => highSurrogate ch
        | S units'' => ch ++ sliceUnits fuel' units'' rest
        end
      else ch ++ sliceUnits fuel' units' rest
  | _, _, _ => ""
  end.

(** [s.slice(0, n)] *)
Definition slice0 (n : nat) (s : string) : string := sliceUnits (String.length s) n s.

(** ** The event handler *)

(** What the world answers to one event's task. *)
Record Env : Type := {
  (** the value of the [k]-th [new Date()] *)
  clock : nat -> Z;
  (** what the [k]-th [client.chat.completions.create] does *)
  create : nat -> completion + exn;
  sheets : SheetsService
}.

Definition typeError : exn := ThrownError "TypeError" None None.

(** The value of the key in an object built by [JSON.parse], which holds
    each key once; [undefined] when it is absent. *)
Fixpoint lookupField (fields : list (string * value)) (key : string) : value :=
  match fields with
  | [] => VUndefined
  | (k, v) :: rest => if String.eqb k key then v else lookupField rest key
  end.

(** [v.key] for a key no prototype defines: a [TypeError] on [null] and
    [undefined]. *)
Definition prop (v : value) (key : string) : M value :=
  match v with
  | VUndefined | VNull => throw typeError
  | VObj fields => ret (lookupField fields key)
  | _ => ret VUndefined
  end.

(** [v?.key] *)
Definition optProp (v : value) (key : string) : value :=
  match v with
  | VObj fields => lookupField fields key
  | _ => VUndefined
  end.

(** [v === s] for a string [s] *)
Definition isStr (v : value) (s : string) : bool :=
  match v with
  | VStr t => String.eqb t s
  | _ => false
  end.

(** [replyToLine]: the request to the reply endpoint.  Whatever [fetch]
    does, the function catches it and returns.  The one effect
    [LineReply] stands for the request together with its abort timer and
    the line the function logs about its outcome. *)
Definition replyToLine (replyToken : value) (replyText : string) : M unit :=
  emit (LineReply replyToken replyText).

Definition summaryOptions : RetryOptions :=
  {| maxRetries := 1; temperature := 6 # 10; max_tokens := 300 |}.

Definition nutritionOptions : RetryOptions :=
  {| maxRetries := 1; temperature := 6 # 10; max_tokens := 250 |}.

Definition chatOptions : RetryOptions :=
  {| maxRetries := 2; temperature := 6 # 10; max_tokens := 300 |}.

Definition contentOr (c : completion) (default : string) : string :=
  match choice_content c with
  | Some s => s
  | None => default
  end.

Definition nutritionPrompt : string :=
  "あなたは管理栄養士です。ユーザーが食べた食事を入力したら、USDAのデータベースを参照し、以下の形式でおおよその栄養素を数値で出力してください。"
  ++ nl ++ nl ++
  "カロリー: xxx kcal" ++ nl ++ "タンパク質: xx g" ++ nl ++ "脂質: xx g" ++ nl ++
  "炭水化物: xx g" ++ nl ++ "ビタミンB6: xx mg" ++ nl ++ "ビタミンD: xx μg" ++ nl ++
  "マグネシウム: xx mg" ++ nl ++ "鉄: xx mg" ++ nl ++ "亜鉛: xx mg".

Section Handler.
Context `{Host}.

(** The summary branch, [range && category === "meal"]: the rows and the
    dates to show.  For the range ALL/ALL the dates are those
    [getMealLogDateRange] finds, when it finds any. *)
Definition fetchSummaryLogs (env : Env) (range : DateRange)
  : M (list row * string * string) :=
  let start := range_start range in
  let end_ := range_end range in
  if String.eqb start "ALL" && String.eqb end_ "ALL" then
    logs <- getMealLogsByRange (sheets env) "ALL" "ALL" ;;
    actualRange <- getMealLogDateRange (sheets env) ;;
    match actualRange with
    | Some r => ret (logs, range_start r, range_end r)
    | None => ret (logs, start, end_)
    end
  else
    logs <- getMealLogsByRange (sheets env) start end_ ;;
    ret (logs, start, end_).

Definition feedbackPrompt : string :=
  "あなたは管理栄養士です。以下の集計結果を参考に、栄養バランスについて短くフィードバックしてください。".

(** The end of the summary branch: the feedback of the completion
    service on the summary [text], and the reply with both. *)
Definition sendSummary (env : Env) (replyToken : value) (text : string) : M unit :=
  feedback <- callOpenAIWithRetry (create env)
    [ {| msg_role := system; msg_content := feedbackPrompt |};
      {| msg_role := user; msg_content := text |} ]
    summaryOptions ;;
  let feedbackText := contentOr feedback "" in
  replyToLine replyToken
    (text ++ nl ++ nl ++ "💡 フィードバック:" ++ nl ++ feedbackText).

(** The summary branch from [if (logs.length === 0)] on. *)
Definition replySummary (env : Env) (replyToken : value) (logs : list row)
    (start end_ : string) : M unit :=
  match logs with
  | [] => replyToLine replyToken "その期間の記録はありません📭"
  | _ :: _ =>
      let totals := sumRows logs in
      let days := daysOfRange start end_ in
      sendSummary env replyToken (summaryText start end_ totals days)
  end.

Definition handleSummary (env : Env) (replyToken : value) (range : DateRange)
  : M unit :=
  '(logs, start, end_) <- fetchSummaryLogs env range ;;
  replySummary env replyToken logs start end_.

(** The meal-log branch. *)
Definition handleMeal (env : Env) (replyToken : value) (userText : string)
  : M unit :=
  let now := clock env 1 in
  let mealDate := detectMealDate userText now in
  nutritionRes <- callOpenAIWithRetry (create env)
    [ {| msg_role := system; msg_content := nutritionPrompt |};
      {| msg_role := user; msg_content := userText |} ]
    nutritionOptions ;;
  let nutritionText := contentOr nutritionRes "" in
  appendMealLog (sheets env)
    ([ CStr (isoDate now); CStr (timeHHMM now); CStr mealDate;
       match detectMealType userText with
       | Some m => CStr (mealTypeLabel m)
       | None => CNull
       end;
       CStr userText ] ++
     map (fun label => nutrientCell label nutritionText) nutrientLabels)%list ;;
  replyToLine replyToken ("記録しました📊" ++ nl ++ nutritionText).

(** The exercise, meditation and journal branches. *)
Definition handleSimple (env : Env) (replyToken : value) (userText : string)
    (append : SheetsService -> list cell -> M unit) (ack : string) : M unit :=
  let now := clock env 1 in
  append (sheets env) [CStr (isoDate now); CStr (timeHHMM now); CStr userText] ;;
  replyToLine replyToken (ack ++ nl ++ userText).

(** The plain conversation. *)
Definition handleChat (env : Env) (replyToken : value) (userText : string)
  : M unit :=
  replyText <-
    tryCatch
      (completion <- callOpenAIWithRetry (create env)
         [ {| msg_role := system;
              msg_content := "あなたは優しめの健康コーチです。栄養・運動・瞑想・ジャーナリングをサポートします。" |};
           {| msg_role := user; msg_content := userText |} ]
         chatOptions ;;
       ret (match choice_content completion with
            | Some s => slice0 1000 s
            | None => "すみません、もう一度お願いします。"
            end))
      (fun _ => ret "内部エラーが発生しました。時間をおいて再試行してください。") ;;
  replyToLine replyToken replyText.

(** The body of the [try] of one event's task. *)
Definition handleEvent (env : Env) (event : value) : M unit :=
  type <- prop event "type" ;;
  if negb (isStr type "message") then ret tt
  else if negb (isStr (optProp (optProp event "message") "type") "text") then ret tt
  else
    let message := optProp event "message" in
    let userId := optProp (optProp event "source") "userId" in
    emit (Console console_log "[LINE][USERID]") ;;
    userText <-
      match optProp message "text" with
      | VUndefined | VNull => ret ""
      | VStr s => ret (trim s)
      | _ => throw typeError
      end ;;
    if String.eqb userText "" then ret tt
    else
      let category := detectLogCategory userText in
      let range := detectDateRange (clock env 0) userText in
      let replyToken := optProp event "replyToken" in
      match category, range with
      | Some meal, Some r => handleSummary env replyToken r
      | Some meal, None => handleMeal env replyToken userText
      | Some exercise, _ =>
          handleSimple env replyToken userText appendExerciseLog "運動を記録しました💪"
      | Some meditation, _ =>
          handleSimple env replyToken userText appendMeditationLog "瞑想を記録しました🧘"
      | Some journal, _ =>
          handleSimple env replyToken userText appendJournalLog "ジャーナルを記録しました✍️"
      | None, _ => handleChat env replyToken userText
      end.

(** One event's task: the [try] with its [catch], which logs. *)
Definition eventTask (env : Env) (event : value) : M unit :=
  tryCatch (handleEvent env event)
           (fun inner => emit (Console console_error "[LINE][EVENT][ERR]")).

End Handler.

(** ** The signature: HMAC-SHA256 in base64

    [crypto.createHmac("sha256", key).update(data).digest("base64")] of
    Node.js, after FIPS 180-4, RFC 2104 and RFC 4648.  A word is an
    integer below [2^32], a byte an integer below 256. *)

Definition w32 (x : Z) : Z := Z.land x 4294967295.

Definition add32 (x y : Z) : Z := w32 (x + y).

Definition rotr (n x : Z) : Z := Z.lor (Z.shiftr x n) (w32 (Z.shiftl x (32 - n))).

Definition Ch (x y z : Z) : Z :=
  Z.lxor (Z.land x y) (Z.land (Z.lxor x 4294967295) z).

Definition Maj (x y z : Z) : Z :=
  Z.lxor (Z.lxor (Z.land x y) (Z.land x z)) (Z.land y z).

Definition bigSigma0 (x : Z) : Z := Z.lxor (Z.lxor (rotr 2 x) (rotr 13 x)) (rotr 22 x).

Definition bigSigma1 (x : Z) : Z := Z.lxor (Z.lxor (rotr 6 x) (rotr 11 x)) (rotr 25 x).

Definition smallSigma0 (x : Z) : Z := Z.lxor (Z.lxor (rotr 7 x) (rotr 18 x)) (Z.shiftr x 3).

Definition smallSigma1 (x : Z) : Z := Z.lxor (Z.lxor (rotr 17 x) (rotr 19 x)) (Z.shiftr x 10).

(** The round constants of FIPS 180-4, section 4.2.2, in decimal. *)
Definition K256 : list Z :=
  [
    1116352408; 1899447441; 3049323471; 3921009573;
    961987163; 1508970993; 2453635748; 2870763221;
    3624381080; 310598401; 607225278; 1426881987;
    1925078388; 2162078206; 2614888103; 3248222580;
    3835390401; 4022224774; 264347078; 604807628;
    770255983; 1249150122; 1555081692; 1996064986;
    2554220882; 2821834349; 2952996808; 3210313671;
    3336571891; 3584528711; 113926993; 338241895;
    666307205; 773529912; 1294757372; 1396182291;
    1695183700; 1986661051; 2177026350; 2456956037;
    2730485921; 2820302411; 3259730800; 3345764771;
    3516065817; 3600352804; 4094571909; 275423344;
    430227734; 506948616; 659060556; 883997877;
    958139571; 1322822218; 1537002063; 1747873779;
    1955562222; 2024104815; 2227730452; 2361852424;
    2428436474; 2756734187; 3204031479; 3329325298 ].

(** The eight working words. *)
Record shaState : Type :=
  { sa : Z; sb : Z; sc : Z; sd : Z; se : Z; sf : Z; sg : Z; sh : Z }.

Definition shaInit : shaState :=
  {| sa := 1779033703; sb := 3144134277; sc := 1013904242; sd := 2773480762;
     se := 1359893119; sf := 2600822924; sg := 528734635; sh := 1541459225 |}.

(** The message schedule, newest word first: [n] more words after the
    ones of [rev_w]. *)
Fixpoint extendSchedule (n : nat) (rev_w : list Z) : list Z :=
  match n with
  | O => rev_w
  | S n' =>
      let w := add32 (add32 (smallSigma1 (nth 1 rev_w 0)) (nth 6 rev_w 0))
                     (add32 (smallSigma0 (nth 14 rev_w 0)) (nth 15 rev_w 0)) in
      extendSchedule n' (w :: rev_w)
  end.

Definition shaRound (s : shaState) (kw : Z * Z) : shaState :=
  let '(k, w) := kw in
  let t1 := add32 (add32 (add32 (sh s) (bigSigma1 (se s)))
                         (add32 (Ch (se s) (sf s) (sg s)) k)) w in
  let t2 := add32 (bigSigma0 (sa s)) (Maj (sa s) (sb s) (sc s)) in
  {| sa := add32 t1 t2; sb := sa s; sc := sb s; sd := sc s;
     se := add32 (sd s) t1; sf := se s; sg := sf s; sh := sg s |}.

(** The compression of one block of sixteen words. *)
Definition shaBlock (s : shaState) (block : list Z) : shaState :=
  let schedule := rev (extendSchedule 48 (rev block)) in
  let r := fold_left shaRound (combine K256 schedule) s in
  {| sa := add32 (sa s) (sa r); sb := add32 (sb s) (sb r);
     sc := add32 (sc s) (sc r); sd := add32 (sd s) (sd r);
     se := add32 (se s) (se r); sf := add32 (sf s) (sf r);
     sg := add32 (sg s) (sg r); sh := add32 (sh s) (sh r) |}.

(** Big-endian words of a list of bytes, four bytes each. *)
Fixpoint wordsOfBytes (l : list Z) : list Z :=
  match l with
  | b0 :: b1 :: b2 :: b3 :: l' =>
      (b0 * 16777216 + b1 * 65536 + b2 * 256 + b3) :: wordsOfBytes l'
  | _ => []
  end.

Definition bytesOfWord (x : Z) : list Z :=
  [ Z.shiftr x 24; Z.land (Z.shiftr x 16) 255; Z.land (Z.shiftr x 8) 255;
    Z.land x 255 ].

(** The padded message: a bit 1, zeros, and the bit length in 64 bits. *)
Definition shaPad (msg : list Z) : list Z :=
  let len := Z.of_nat (length msg) in
  let zeros := Z.to_nat ((55 - len) mod 64) in
  (msg ++ [128] ++ repeat 0 zeros ++
   bytesOfWord (Z.shiftr (8 * len) 32) ++ bytesOfWord (w32 (8 * len)))%list.

Fixpoint shaBlocks (fuel : nat) (s : shaState) (words : list Z) : shaState :=
  match fuel, words with
  | S fuel', _ :: _ => shaBlocks fuel' (shaBlock s (firstn 16 words)) (skipn 16 words)
  | _, _ => s
  end.

(** The 32 bytes of the SHA-256 digest. *)
Definition sha256 (msg : list Z) : list Z :=
  let words := wordsOfBytes (shaPad msg) in
  let s := shaBlocks (length words) shaInit words in
  (bytesOfWord (sa s) ++ bytesOfWord (sb s) ++ bytesOfWord (sc s) ++
   bytesOfWord (sd s) ++ bytesOfWord (se s) ++ bytesOfWord (sf s) ++
   bytesOfWord (sg s) ++ bytesOfWord (sh s))%list.

Definition hmacSha256 (key data : list Z) : list Z :=
  let key0 := if (64 <? length key)%nat then sha256 key else key in
  let block := (key0 ++ repeat 0 (64 - length key0))%list in
  let ipad := map (Z.lxor 54) block in
  let opad := map (Z.lxor 92) block in
  sha256 (opad ++ sha256 (ipad ++ data))%list.

Definition base64Char (n : Z) : ascii :=
  ascii_of_nat (Z.to_nat
    (if n <? 26 then 65 + n
     else if n <? 52 then 97 + (n - 26)
     else if n <? 62 then 48 + (n - 52)
     else if n =? 62 then 43 else 47)).

Fixpoint base64 (l : list Z) : string :=
  match l with
  | b0 :: b1 :: b2 :: l' =>
      String (base64Char (Z.shiftr b0 2))
        (String (base64Char (Z.lor (Z.shiftl (Z.land b0 3) 4) (Z.shiftr b1 4)))
          (String (base64Char (Z.lor (Z.shiftl (Z.land b1 15) 2) (Z.shiftr b2 6)))
            (String (base64Char (Z.land b2 63)) (base64 l'))))
  | [b0; b1] =>
      String (base64Char (Z.shiftr b0 2))
        (String (base64Char (Z.lor (Z.shiftl (Z.land b0 3) 4) (Z.shiftr b1 4)))
          (String (base64Char (Z.shiftl (Z.land b1 15) 2)) "="))
  | [b0] =>
      String (base64Char (Z.shiftr b0 2))
        (String (base64Char (Z.shiftl (Z.land b0 3) 4)) "==")
  | [] => ""
  end.

(** [Buffer.from(s, "utf8")] *)
Fixpoint bytesOfString (s : string) : list Z :=
  match s with
  | EmptyString => []
  | String c s' => Z.of_nat (nat_of_ascii c) :: bytesOfString s'
  end.

(** [crypto.createHmac("sha256", secret).update(Buffer.from(body, "utf8"))
      .digest("base64")] *)
Definition hmacBase64 (secret body : string) : string :=
  base64 (hmacSha256 (bytesOfString secret) (bytesOfString body)).

Definition hexByte (b : Z) : string :=
  let h n := ascii_of_nat (Z.to_nat (if n <? 10 then 48 + n else 87 + n)) in
  String (h (b / 16)) (String (h (b mod 16)) "").

Definition hex (l : list Z) : string := String.concat "" (map hexByte l).

(** ** The webhook: [POST] *)

Record Request : Type := {
  (** [req.headers.get("x-line-signature")] *)
  x_line_signature : option string;
  (** [await req.text()] *)
  bodyText : string
}.

Inductive responseBody : Type :=
| TextBody (text : string)
| JsonBody (json : value).

Record Response : Type := { status : Z; body : responseBody }.

(** What a request leaves behind: the response, the effects of the
    request handler itself, and the effects of the task of each event. *)
Record Handled : Type := {
  response : Response;
  requestEffects : list effect;
  taskEffects : list (list effect)
}.

(** [Promise.all] of tasks that have settled: rejected when one of them
    is. *)
Fixpoint promiseAll (tasks : list (M unit)) : outcome unit :=
  match tasks with
  | [] => Returned tt
  | (_, Threw e) :: _ => Threw e
  | (_, Returned _) :: rest => promiseAll rest
  end.

(** The tasks of the events; the [i]-th one gets its answers from
    [envs i]. *)
Fixpoint mapTasks (task : Env -> value -> M unit) (envs : nat -> Env)
    (i : nat) (events : list value) : list (M unit) :=
  match events with
  | [] => []
  | ev :: rest => task (envs i) ev :: mapTasks task envs (S i) rest
  end.

Definition okResponse : Response :=
  {| status := 200; body := JsonBody (VObj [("status", VStr "ok")]) |}.

Definition unauthorizedResponse : Response :=
  {| status := 401; body := TextBody "Signature validation failed" |}.

Definition errorResponse : Response :=
  {| status := 500; body := TextBody "Internal Server Error" |}.

(** The [events] of a parsed envelope: [json.events] when it is an array,
    no event otherwise. *)
Definition eventsOf (json : value) : list value :=
  match json with
  | VObj fields =>
      match lookupField fields "events" with
      | VArr l => l
      | _ => []
      end
  | _ => []
  end.

(** The effects of the tasks of [events], numbered from [i]. *)
Fixpoint effectsOfTasks `{Host} (envs : nat -> Env) (i : nat) (events : list value)
  : list (list effect) :=
  match events with
  | [] => []
  | ev :: rest => fst (eventTask (envs i) ev) :: effectsOfTasks envs (S i) rest
  end.

(** Whether an effect reaches the store, the completion service or the
    reply endpoint. *)
Definition isExternalCall (eff : effect) : bool :=
  match eff with
  | Console _ _ | SetTimeout _ => false
  | _ => true
  end.

Section Webhook.
Context `{Host}.

(** [!signature || hmac !== signature] *)
Definition signatureInvalid (secret signature bodyText : string) : bool :=
  String.eqb signature "" || negb (String.eqb (hmacBase64 secret bodyText) signature).

(** The [try] block of [POST].  [LINE_CHANNEL_SECRET] is [None] when the
    variable is not set: [createHmac] then throws. *)
Definition postTry (LINE_CHANNEL_SECRET : option string) (envs : nat -> Env)
    (req : Request) : M Response * list (M unit) :=
  match LINE_CHANNEL_SECRET with
  | None => (throw typeError, [])
  | Some channelSecret =>
      let signature := match x_line_signature req with
                       | Some s => s
                       | None => ""
                       end in
      if signatureInvalid channelSecret signature (bodyText req) then
        (emit (Console console_warn "[LINE] Invalid signature") ;;
         ret unauthorizedResponse, [])
      else
        match JSON_parse (bodyText req) with
        | None => (throw (ThrownError "SyntaxError" None None), [])
        | Some json =>
            match prop json "events" with
            | (_, Threw e) => (throw e, [])
            | (_, Returned v) =>
                let events := match v with VArr l => l | _ => [] end in
                let tasks := mapTasks eventTask envs 0 events in
                (match promiseAll tasks with
                 | Threw e => throw e
                 | Returned _ => ret okResponse
                 end, tasks)
            end
        end
  end.

(** [POST]: the [try] block and its [catch]. *)
Definition POST (LINE_CHANNEL_SECRET : option string) (envs : nat -> Env)
    (req : Request) : Handled :=
  let '(main, tasks) := postTry LINE_CHANNEL_SECRET envs req in
  let '(effects, result) :=
    tryCatch main (fun e => emit (Console console_error "[LINE][ERROR]") ;;
                            ret errorResponse) in
  {| response := match result with
                 | Returned r => r
                 | Threw _ => errorResponse
                 end;
     requestEffects := effects;
     taskEffects := map fst tasks |}.

End Webhook.

(** *** Checking one era of the calendar

    The Gregorian calendar repeats every 146097 days, so a property of
    [civilOfDoe] is settled by evaluating it on one era. *)

Fixpoint allFrom (n : nat) (z : Z) (f : Z -> bool) : bool :=
  match n with
  | O => true
  | S k => f z && allFrom k (z + 1) f
  end.

Definition civilEqb (a b : Z * Z * Z) : bool :=
  let '(y1, m1, d1) := a in
  let '(y2, m2, d2) := b in
  (y1 =? y2) && (m1 =? m2) && (d1 =? d2).

(** What is checked of day [doe] of the era: its civil date is in range,
    [dayOfEra] maps it back to [doe], and [d - 1] days earlier is the
    first of the same month. *)
Definition eraCheck (doe : Z) : bool :=
  let '(yy, m, d) := civilOfDoe doe in
  let y' := if m <=? 2 then yy - 1 else yy in
  (0 <=? y') && (y' <=? 399) && (1 <=? m) && (m <=? 12)
  && (1 <=? d) && (d <=? 31)
  && (dayOfEra y' m d =? doe)
  && (0 <=? doe - (d - 1))
  && civilEqb (civilOfDoe (doe - (d - 1))) (yy, m, 1).

(** The order of civil dates: by year, then month, then day. *)
Definition civilLtb (a b : Z * Z * Z) : bool :=
  let '(y1, m1, d1) := a in
  let '(y2, m2, d2) := b in
  (y1 <? y2) || ((y1 =? y2) && ((m1 <? m2) || ((m1 =? m2) && (d1 <? d2)))).

Definition civilLt (a b : Z * Z * Z) : Prop :=
  let '(y1, m1, d1) := a in
  let '(y2, m2, d2) := b in
  y1 < y2 \/ (y1 = y2 /\ (m1 < m2 \/ (m1 = m2 /\ d1 < d2))).

(** What is checked of two days of the era that follow each other: the
    civil date of the later one is the later one. *)
Definition eraStepCheck (doe : Z) : bool :=
  civilLtb (civilOfDoe doe) (civilOfDoe (doe + 1)).

(** ** A [JSON.parse] for closed examples

    A parser for the JSON grammar of ECMA-404 on UTF-8 text.  The
    properties below hold for every [JSON_parse] of a host; this one
    serves the examples. *)

Definition dquote : ascii := "034"%char.

Definition backslash : ascii := "092"%char.

Fixpoint skipJsonWs (s : string) : string :=
  match s with
  | String c s' =>
      let n := nat_of_ascii c in
      if ((n =? 32) || (n =? 9) || (n =? 10) || (n =? 13))%nat then skipJsonWs s'
      else s
  | EmptyString => s
  end.

(** UTF-8 (generalised to lone surrogates) of a code point. *)
Definition utf8 (cp : Z) : string :=
  let b n := Z.to_nat n in
  if cp <? 128 then bytes [b cp]
  else if cp <? 2048 then
    bytes [b (Z.lor 192 (Z.shiftr cp 6)); b (Z.lor 128 (Z.land cp 63))]
  else if cp <? 65536 then
    bytes [b (Z.lor 224 (Z.shiftr cp 12));
           b (Z.lor 128 (Z.land (Z.shiftr cp 6) 63));
           b (Z.lor 128 (Z.land cp 63))]
  else
    bytes [b (Z.lor 240 (Z.shiftr cp 18));
           b (Z.lor 128 (Z.land (Z.shiftr cp 12) 63));
           b (Z.lor 128 (Z.land (Z.shiftr cp 6) 63));
           b (Z.lor 128 (Z.land cp 63))].

(** Four hexadecimal digits: their value and the rest. *)
Definition hex4 (s : string) : option (Z * string) :=
  match s with
  | String a (String b (String c (String d rest))) =>
      match hexVal a, hexVal b, hexVal c, hexVal d with
      | Some x, Some y, Some z, Some w => Some (4096 * x + 256 * y + 16 * z + w, rest)
      | _, _, _, _ => None
      end
  | _ => None
  end.

(** The characters of a JSON string after its opening quote, up to the
    closing one. *)
Fixpoint parseJsonString (fuel : nat) (s : string) : option (string * string) :=
  match fuel, s with
  | S fuel', String c s' =>
      if Ascii.eqb c dquote then Some ("", s')
      else if Ascii.eqb c backslash then
        match s' with
        | String e r =>
            let simple (x : string) :=
              match parseJsonString fuel' r with
              | Some (t, rest) => Some (x ++ t, rest)
              | None => None
              end in
            if Ascii.eqb e dquote then simple (String dquote "")
            else if Ascii.eqb e backslash then simple (String backslash "")
            else if Ascii.eqb e "/" then simple "/"
            else if Ascii.eqb e "b" then simple (bytes [8%nat])
            else if Ascii.eqb e "f" then simple (bytes [12%nat])
            else if Ascii.eqb e "n" then simple (bytes [10%nat])
            else if Ascii.eqb e "r" then simple (bytes [13%nat])
            else if Ascii.eqb e "t" then simple (bytes [9%nat])
            else if Ascii.eqb e "u" then
              match hex4 r with
              | Some (hi, r1) =>
                  let pair :=
                    if (55296 <=? hi) && (hi <=? 56319) then
                      match r1 with
                      | String b1 (String u1 r2) =>
                          if Ascii.eqb b1 backslash && Ascii.eqb u1 "u" then
                            match hex4 r2 with
                            | Some (lo, r3) =>
                                if (56320 <=? lo) && (lo <=? 57343)
                                then Some (65536 + 1024 * (hi - 55296) + (lo - 56320), r3)
                                else None
                            | None => None
                            end
                          else None
                      | _ => None
                      end
                    else None in
                  let '(cp, rest0) := match pair with
                                      | Some p => p
                                      | None => (hi, r1)
                                      end in
                  match parseJsonString fuel' rest0 with
                  | Some (t, rest) => Some (utf8 cp ++ t, rest)
                  | None => None
                  end
              | None => None
              end
            else None
        | EmptyString => None
        end
      else if (nat_of_ascii c <? 32)%nat then None
      else
        match parseJsonString fuel' s' with
        | Some (t, rest) => Some (String c t, rest)
        | None => None
        end
  | _, _ => None
  end.

(** A JSON number at the start of [s]. *)
Definition parseJsonNumber (s : string) : option (number * string) :=
  let '(negative, u) := match s with
                        | String "-" r => (true, r)
                        | _ => (false, s)
                        end in
  let '(ip, ni, r1) := takeDigits 0 0 u in
  let leadingZero := match u with
                     | String "0" _ => (1 <? ni)%nat
                     | _ => false
                     end in
  match ni with
  | O => None
  | S _ =>
      if leadingZero then None
      else
        let frac :=
          match r1 with
          | String "." r =>
              match takeDigits ip 0 r with
              | (_, O, _) => None
              | (m, S k, r2) => Some (m, S k, r2)
              end
          | _ => Some (ip, O, r1)
          end in
        match frac with
        | None => None
        | Some (m, nf, r2) =>
            let expo :=
              match r2 with
              | String c r =>
                  if (Ascii.eqb c "e" || Ascii.eqb c "E")%char then
                    let '(sign, digits) :=
                      match r with
                      | String "+" d => (1, d)
                      | String "-" d => (-1, d)
                      | _ => (1, r)
                      end in
                    match takeDigits 0 0 digits with
                    | (_, O, _) => None
                    | (e, S _, r3) => Some (sign * e, r3)
                    end
                  else Some (0, r2)
              | EmptyString => Some (0, r2)
              end in
            match expo with
            | None => None
            | Some (e, rest) => Some (roundDecimal negative m (e - Z.of_nat nf), rest)
            end
        end
  end.

(** The member [k: v] added to an object: a key that occurs again keeps
    its place and takes the later value. *)
Fixpoint setField (k : string) (v : value) (fields : list (string * value))
  : list (string * value) :=
  match fields with
  | [] => [(k, v)]
  | (k', v') :: rest =>
      if String.eqb k' k then (k', v) :: rest else (k', v') :: setField k v rest
  end.

Fixpoint parseJsonValue (fuel : nat) (s : string) : option (value * string) :=
  match fuel with
  | O => None
  | S fuel' =>
      let parseElements :=
        fix elements (n : nat) (acc : list value) (s : string)
          : option (value * string) :=
          match n with
          | O => None
          | S n' =>
              match parseJsonValue fuel' s with
              | Some (v, r) =>
                  match skipJsonWs r with
                  | String "," r' => elements n' (v :: acc) r'
                  | String "]" r' => Some (VArr (rev (v :: acc)), r')
                  | _ => None
                  end
              | None => None
              end
          end in
      let parseMembers :=
        fix members (n : nat) (acc : list (string * value)) (s : string)
          : option (value * string) :=
          match n with
          | O => None
          | S n' =>
              match skipJsonWs s with
              | String q r0 =>
                  if Ascii.eqb q dquote then
                    match parseJsonString (String.length r0) r0 with
                    | Some (k, r1) =>
                        match skipJsonWs r1 with
                        | String ":" r2 =>
                            match parseJsonValue fuel' r2 with
                            | Some (v, r3) =>
                                match skipJsonWs r3 with
                                | String "," r' => members n' (setField k v acc) r'
                                | String "}" r' => Some (VObj (setField k v acc), r')
                                | _ => None
                                end
                            | None => None
                            end
                        | _ => None
                        end
                    | None => None
                    end
                  else None
              | EmptyString => None
              end
          end in
      match skipJsonWs s with
      | String "n" (String "u" (String "l" (String "l" r))) => Some (VNull, r)
      | String "t" (String "r" (String "u" (String "e" r))) => Some (VBool true, r)
      | String "f" (String "a" (String "l" (String "s" (String "e" r)))) =>
          Some (VBool false, r)
      | String "[" r =>
          match skipJsonWs r with
          | String "]" r' => Some (VArr [], r')
          | _ => parseElements (String.length r) [] r
          end
      | String "{" r =>
          match skipJsonWs r with
          | String "}" r' => Some (VObj [], r')
          | _ => parseMembers (String.length r) [] r
          end
      | String c r =>
          if Ascii.eqb c dquote then
            match parseJsonString (String.length r) r with
            | Some (t, rest) => Some (VStr t, rest)
            | None => None
            end
          else
            match parseJsonNumber (String c r) with
            | Some (n, rest) => Some (VNum n, rest)
            | None => None
            end
      | EmptyString => None
      end
  end.

(** Every value consumes a character, so [length s + 1] levels of
    nesting suffice. *)
Definition parseJson (s : string) : option value :=
  match parseJsonValue (S (String.length s)) s with
  | Some (v, rest) =>
      match skipJsonWs rest with
      | EmptyString => Some v
      | String _ _ => None
      end
  | None => None
  end.

(** A JSON string literal for [s], which holds none of the characters
    that need an escape. *)
Definition quoted (s : string) : string := String dquote s ++ String dquote "".

(** ** The reminder ([app/api/line/reminder/route.ts]) *)

(** [pushToLine]: the request to the push endpoint; what [fetch] throws
    is caught and logged. *)
Definition pushToLine (userId text : string) : M unit := emit (LinePush userId text).

Definition morningMessage : string :=
  "🌅 おはようございます！今日の体調をチェックして、朝食・瞑想・ジャーナルを記録しましょう。".

Definition nightMessage : string :=
  "🌙 1日お疲れさまでした！今日の食事・運動・瞑想・ジャーナルを振り返りましょう。".

Definition defaultMessage : string := "📌 リマインダー".

(** [GET] of the reminder route.  [USER_ID] is [process.env.LINE_USER_ID],
    [type] is [searchParams.get("type")]; both are [None] when absent. *)
Definition reminderGET (USER_ID : option string) (type : option string)
  : M Response :=
  match USER_ID with
  | None | Some EmptyString =>
      ret {| status := 400;
             body := JsonBody (VObj [("error", VStr "LINE_USER_ID not set")]) |}
  | Some userId =>
      let message :=
        match type with
        | Some t =>
            if String.eqb t "morning" then morningMessage
            else if String.eqb t "night" then nightMessage
            else defaultMessage
        | None => defaultMessage
        end in
      pushToLine userId message ;;
      ret {| status := 200;
             body := JsonBody (VObj [("ok", VBool true);
                                     ("type", match type with
                                              | Some t => VStr t
                                              | None => VNull
                                              end)]) |}
  end.

(** ** Reading a list of effects *)

(** The texts of the replies sent. *)
Fixpoint repliesOf (t : list effect) : list string :=
  match t with
  | [] => []
  | LineReply _ text :: t' => text :: repliesOf t'
  | _ :: t' => repliesOf t'
  end.

(** The rows appended, each with its range. *)
Fixpoint appendsOf (t : list effect) : list (string * list cell) :=
  match t with
  | [] => []
  | SheetsAppend range r :: t' => (range, r) :: appendsOf t'
  | _ :: t' => appendsOf t'
  end.

(** The prompts of the three uses of the completion service. *)
Definition feedbackMessages (text : string) : list message :=
  [ {| msg_role := system; msg_content := feedbackPrompt |};
    {| msg_role := user; msg_content := text |} ].

Definition nutritionMessages (userText : string) : list message :=
  [ {| msg_role := system; msg_content := nutritionPrompt |};
    {| msg_role := user; msg_content := userText |} ].

Definition chatMessages (userText : string) : list message :=
  [ {| msg_role := system;
       msg_content := "あなたは優しめの健康コーチです。栄養・運動・瞑想・ジャーナリングをサポートします。" |};
    {| msg_role := user; msg_content := userText |} ].

Definition isNumericString (v : string) : bool :=
  negb (String.eqb v "") && forallb isNumeric (list_ascii_of_string v).

(** A cell of the nutrient columns: a non-empty string of digits and
    dots, or the number 0. *)
Definition isNutrientCell (c : cell) : bool :=
  match c with
  | CStr v => isNumericString v
  | CNum n => n =? 0
  | CNull => false
  end.

(** The sheet and the acknowledgement of the three plain logs. *)
Definition sheetOf (c : Category) : string :=
  match c with
  | meal => "Meal Log!A2"
  | exercise => "Exercise Log!A2"
  | meditation => "Meditation Log!A2"
  | journal => "Journal Log!A2"
  end.

Definition ackOf (c : Category) : string :=
  match c with
  | meal => "記録しました📊"
  | exercise => "運動を記録しました💪"
  | meditation => "瞑想を記録しました🧘"
  | journal => "ジャーナルを記録しました✍️"
  end.

(** A world like [quietEnv] whose completion service always fails with
    [e]. *)
Definition failingEnv (e : exn) : Env :=
  {| clock := fun _ => 1710504000000;
     create := fun _ => inr e;
     sheets := {| authClient := None;
                  values_get := fun _ => inl [];
                  values_append := fun _ => None |} |}.

(** The fields of the text-message event [textEventJson text]. *)
Definition textEventFields (text : string) : list (string * value) :=
  [ ("type", VStr "message"); ("replyToken", VStr "token-1");
    ("source", VObj [("userId", VStr "U1")]);
    ("message", VObj [("type", VStr "text"); ("text", VStr text)]) ].

(** ** Closed examples of requests *)

(** A world in which every call succeeds: the clock shows noon UTC of
    2024-03-15, the completion service answers [answer], the sheet holds
    [rows]. *)
Definition quietEnv (answer : string) (rows : list row) : Env :=
  {| clock := fun _ => 1710504000000;
     create := fun _ => inl {| choice_content := Some answer |};
     sheets := {| authClient := None;
                  values_get := fun range =>
                    if String.eqb range "Meal Log!C2:C"
                    then inl (map (fun r => match nth_error r 2 with
                                            | Some c => [c]
                                            | None => []
                                            end) rows)
                    else inl rows;
                  values_append := fun _ => None |} |}.

(** Rows of the meal log: the date, and the kcal cell. *)
Definition mealRow (mealDate kcalCell : string) : row :=
  [mealDate; "12:00"; mealDate; "昼食"; "サラダ"; kcalCell].

Definition allRange : DateRange := {| range_start := "ALL"; range_end := "ALL" |}.

(** A text-message event as LINE sends it. *)
Definition textEventJson (text : string) : string :=
  "{" ++ quoted "type" ++ ":" ++ quoted "message" ++ "," ++
  quoted "replyToken" ++ ":" ++ quoted "token-1" ++ "," ++
  quoted "source" ++ ":{" ++ quoted "userId" ++ ":" ++ quoted "U1" ++ "}," ++
  quoted "message" ++ ":{" ++ quoted "type" ++ ":" ++ quoted "text" ++ "," ++
  quoted "text" ++ ":" ++ quoted text ++ "}}".

Definition envelopeJson (events : list string) : string :=
  "{" ++ quoted "events" ++ ":[" ++ String.concat "," events ++ "]}".

(** A request signed with [secret]. *)
Definition signedRequest (secret body : string) : Request :=
  {| x_line_signature := Some (hmacBase64 secret body); bodyText := body |}.

(** ** A host for closed examples: ASCII case mapping, [parseJson], UTC. *)
Definition JST : Z := 9 * 3600000.

Definition asciiHostJST : Host :=
  {| toLowerCase := asciiToLowerCase;
     JSON_parse := parseJson;
     LocalTZA := JST;
     Date_parse_other := fun _ => NaN |}.

Definition asciiHost : Host :=
  {| toLowerCase := asciiToLowerCase;
     JSON_parse := parseJson;
     LocalTZA := 0;
     Date_parse_other := fun _ => NaN |}.

(* ================================================================== *)
(** * Part II: properties                                              *)
(* ================================================================== *)

(** ** Strings *)

Lemma startsWith_app (p s : string) :
  startsWith p s = true <-> exists r, s = p ++ r.
Proof.
  revert s; induction p as [|a p IH]; intros s; simpl.
  - split; [intros _; now exists s | reflexivity].
  - destruct s as [|b s].
    + split; [discriminate | intros [r Hr]; discriminate].
    + rewrite andb_true_iff, Ascii.eqb_eq, IH. split.
      * intros [-> [r ->]]. now exists r.
      * intros [r Hr]. injection Hr as -> ->. split; [reflexivity | now exists r].
Qed.

Lemma includes_app (s kw : string) :
  includes s kw = true <-> exists a b, s = a ++ kw ++ b.
Proof.
  induction s as [|c s IH].
  - simpl. rewrite orb_false_r, startsWith_app. split.
    + intros [r Hr]. now exists "", r.
    + intros [a [b Hab]]. destruct a; [now exists b | discriminate].
  - cbn [includes]. rewrite orb_true_iff, startsWith_app, IH. split.
    + intros [[r Hr] | [a [b Hab]]].
      * now exists "", r.
      * exists (String c a), b. simpl. now rewrite Hab.
    + intros [a [b Hab]]. destruct a as [|c' a].
      * left. now exists b.
      * right. simpl in Hab. injection Hab as _ ->. now exists a, b.
Qed.

Lemma string_app_assoc (a b c : string) : (a ++ b) ++ c = a ++ b ++ c.
Proof. induction a as [|x a IH]; simpl; [reflexivity | now rewrite IH]. Qed.

(** A text that contains [u ++ kw] contains [kw]. *)
Lemma includes_suffix_of_kw (s u kw : string) :
  includes s (u ++ kw) = true -> includes s kw = true.
Proof.
  rewrite !includes_app. intros [a [b ->]].
  exists (a ++ u), b. now rewrite !string_app_assoc.
Qed.

Lemma dropPrefix_some (p s r : string) : dropPrefix p s = Some r -> s = p ++ r.
Proof.
  revert s; induction p as [|a p IH]; intros s; cbn [dropPrefix].
  - intros Hs. now injection Hs as ->.
  - destruct s as [|b s]; [discriminate |].
    destruct (Ascii.eqb_spec a b) as [-> | _]; [| discriminate].
    intros Hs. cbn [String.append]. now rewrite (IH _ Hs).
Qed.

Lemma dropOne_some (ws : list string) (s r : string) :
  dropOne ws s = Some r -> exists w, In w ws /\ s = w ++ r.
Proof.
  induction ws as [|w ws IH]; cbn [dropOne]; [discriminate |].
  destruct (dropPrefix w s) as [r'|] eqn:Hp.
  - intros Hr. injection Hr as ->. exists w. split; [now left |].
    now apply dropPrefix_some.
  - intros Hr. destruct (IH Hr) as [w' [Hin Hs]]. exists w'. split; [now right | exact Hs].
Qed.

(** ** Intent classification *)

Section ClassifierProps.
Context `{Host}.

Lemma detectMealType_None (t : string) :
  detectMealType t = None <-> includesAny (toLowerCase t) mealKeywords = false.
Proof.
  unfold detectMealType, includesAny, mealKeywords; cbn [existsb].
  repeat match goal with
  | |- context [includes ?a ?b] => destruct (includes a b); cbn [orb]
  end; split; congruence.
Qed.

Lemma detectLogCategory_meal (t : string) :
  detectLogCategory t = Some meal <-> detectMealType t <> None.
Proof.
  unfold detectLogCategory.
  destruct (detectMealType t) as [m|].
  - split; [discriminate | reflexivity].
  - split; [| congruence].
    repeat match goal with
    | |- context [includes ?a ?b] => destruct (includes a b); cbn [orb]
    end; discriminate.
Qed.

Lemma detectLogCategory_table (t : string) :
  detectLogCategory t = firstCategory categoryTable (toLowerCase t).
Proof.
  unfold detectLogCategory, categoryTable. cbn [firstCategory].
  destruct (detectMealType t) as [m|] eqn:Hm.
  - destruct (includesAny (toLowerCase t) mealKeywords) eqn:Hk; [reflexivity |].
    apply detectMealType_None in Hk. congruence.
  - apply detectMealType_None in Hm. rewrite Hm.
    unfold includesAny, exerciseKeywords; cbn [existsb].
    rewrite !orb_false_r, !orb_assoc. reflexivity.
Qed.

(** C9: one category per text, chosen by the fixed precedence
    Meal, Exercise, Meditation, Journal, None of the keyword table; in
    particular a text with both a meal keyword and an exercise keyword is
    classified as Meal. *)
Theorem C9_category_precedence (t : string) :
  detectLogCategory t = firstCategory categoryTable (toLowerCase t) /\
  (includesAny (toLowerCase t) mealKeywords = true ->
   includesAny (toLowerCase t) exerciseKeywords = true ->
   detectLogCategory t = Some meal).
Proof.
  split; [apply detectLogCategory_table |].
  intros Hm _. rewrite detectLogCategory_table.
  unfold categoryTable; cbn [firstCategory]. now rewrite Hm.
Qed.

(** C8 as amended: the meal type is unknown exactly when no meal keyword
    occurs, and a text is classified as Meal exactly when its meal type is
    known; no text is Meal with an unknown meal type. *)
Theorem C8_meal_iff_meal_type_known (t : string) :
  (detectMealType t = None <->
   includesAny (toLowerCase t) mealKeywords = false) /\
  (detectLogCategory t = Some meal <-> detectMealType t <> None) /\
  ~ (detectLogCategory t = Some meal /\ detectMealType t = None).
Proof.
  split; [apply detectMealType_None |].
  split; [apply detectLogCategory_meal |].
  intros [Hc Hn]. apply detectLogCategory_meal in Hc. contradiction.
Qed.

End ClassifierProps.

(** C8 as stated fails: no text is classified as Meal while its meal type
    is unknown. *)
Lemma C8_no_meal_with_unknown_type :
  ~ exists t : string,
      @detectLogCategory asciiHost t = Some meal /\
      @detectMealType asciiHost t = None.
Proof.
  intros [t [Hc Hn]].
  apply (@detectLogCategory_meal asciiHost) in Hc. contradiction.
Qed.

Lemma C9_category_precedence_witness :
  let t := "ランチの後に30分走った" in
  includesAny (@toLowerCase asciiHost t) mealKeywords = true /\
  includesAny (@toLowerCase asciiHost t) exerciseKeywords = true /\
  @detectLogCategory asciiHost t = Some meal.
Proof.
  split; [reflexivity |]. split; [reflexivity |].
  apply (@C9_category_precedence asciiHost); reflexivity.
Defined.

(** The examples of the specification. *)
Example classify_breakfast :
  @detectLogCategory asciiHost "今日の朝食は卵" = Some meal /\
  @detectMealType asciiHost "今日の朝食は卵" = Some Breakfast.
Proof. split; reflexivity. Qed.

Example classify_free_text_is_not_meal :
  @detectMealType asciiHost "サラダとチキンを食べた" = None /\
  @detectLogCategory asciiHost "サラダとチキンを食べた" = None.
Proof. split; reflexivity. Qed.

(** ** Dates *)

Example isoDate_epoch : isoDate 0 = "1970-01-01".
Proof. reflexivity. Qed.

Example isoDate_2024_03_15 : isoDate 1710504000000 = "2024-03-15".
Proof. reflexivity. Qed.

Example isoDate_leap_day : isoDateOfDay (daysFromCivil 2024 2 29) = "2024-02-29".
Proof. reflexivity. Qed.

Example isoDate_before_epoch : isoDate (-1) = "1969-12-31".
Proof. reflexivity. Qed.

Example weekday_2024_03_15 : WeekDay 1710504000000 = 5.
Proof. reflexivity. Qed.

Lemma allFrom_spec (n : nat) (f : Z -> bool) :
  forall z, allFrom n z f = true ->
  forall i, z <= i < z + Z.of_nat n -> f i = true.
Proof.
  induction n as [|n IH]; intros z Hall i Hi.
  - simpl in Hi. lia.
  - cbn [allFrom] in Hall. apply andb_true_iff in Hall as [Hz Hrest].
    destruct (Z.eq_dec i z) as [->|Hne]; [assumption |].
    apply (IH (z + 1) Hrest). lia.
Qed.

Lemma era_checked : allFrom (Z.to_nat 146097) 0 eraCheck = true.
Proof. vm_compute. reflexivity. Qed.

Lemma eraCheck_holds (doe : Z) : 0 <= doe < 146097 -> eraCheck doe = true.
Proof.
  intros Hd. apply (allFrom_spec _ _ _ era_checked). rewrite Z2Nat.id; lia.
Qed.

Lemma civilEqb_eq (a b : Z * Z * Z) : civilEqb a b = true -> a = b.
Proof.
  destruct a as [[y1 m1] d1], b as [[y2 m2] d2]. unfold civilEqb.
  rewrite !andb_true_iff, !Z.eqb_eq. intros [[-> ->] ->]. reflexivity.
Qed.

(** Splits an equation between triples without reducing its sides. *)
Ltac triple_eq H y m d :=
  let H1 := fresh in let H2 := fresh in let H3 := fresh in
  apply pair_equal_spec in H as [H1 H3];
  apply pair_equal_spec in H1 as [H1 H2];
  subst y m d.

(** The facts [eraCheck] establishes, as propositions. *)
Lemma civilOfDoe_facts (doe : Z) :
  0 <= doe < 146097 ->
  forall yy m d, civilOfDoe doe = (yy, m, d) ->
  let y' := if m <=? 2 then yy - 1 else yy in
  0 <= y' <= 399 /\ 1 <= m <= 12 /\ 1 <= d <= 31 /\
  dayOfEra y' m d = doe /\ 0 <= doe - (d - 1) /\
  civilOfDoe (doe - (d - 1)) = (yy, m, 1).
Proof.
  intros Hd yy m d Hc. pose proof (eraCheck_holds doe Hd) as Hk.
  unfold eraCheck in Hk. rewrite Hc in Hk. cbv zeta in Hk |- *.
  rewrite !andb_true_iff, !Z.leb_le, Z.eqb_eq in Hk.
  destruct Hk as [[[[[[[[? ?] ?] ?] ?] ?] ?] ?] Heq].
  apply civilEqb_eq in Heq. repeat split; assumption.
Qed.

Lemma era_split (z : Z) :
  let z' := z + 719468 in
  0 <= z' mod 146097 < 146097 /\ z' = 146097 * (z' / 146097) + z' mod 146097.
Proof.
  cbv zeta. split; [apply Z.mod_pos_bound; lia | apply Z.div_mod; lia].
Qed.

(** [daysFromCivil] inverts [civilFromDays]. *)
Lemma daysFromCivil_civilFromDays (z y m d : Z) :
  civilFromDays z = (y, m, d) -> daysFromCivil y m d = z.
Proof.
  unfold civilFromDays. destruct (era_split z) as [Hr Hz].
  destruct (civilOfDoe ((z + 719468) mod 146097)) as [[yy mm] dd] eqn:Hc.
  intros Heq. triple_eq Heq y m d.
  destruct (civilOfDoe_facts _ Hr _ _ _ Hc) as (Hy & Hm & Hdd & Hday & _).
  unfold daysFromCivil.
  set (era := (z + 719468) / 146097) in *.
  set (y0 := if mm <=? 2 then yy - 1 else yy) in *.
  replace (if mm <=? 2 then yy + 400 * era - 1 else yy + 400 * era)
    with (y0 + era * 400) by (subst y0; destruct (mm <=? 2); lia).
  rewrite Z.div_add by lia. rewrite Z.mod_add by lia.
  rewrite (Z.div_small y0 400) by lia. rewrite (Z.mod_small y0 400) by lia.
  rewrite Hday. lia.
Qed.

Lemma civilFromDays_range (z y m d : Z) :
  civilFromDays z = (y, m, d) -> 1 <= m <= 12 /\ 1 <= d <= 31.
Proof.
  unfold civilFromDays. destruct (era_split z) as [Hr _].
  destruct (civilOfDoe ((z + 719468) mod 146097)) as [[yy mm] dd] eqn:Hc.
  intros Heq. triple_eq Heq y m d.
  destruct (civilOfDoe_facts _ Hr _ _ _ Hc) as (_ & Hm & Hdd & _). lia.
Qed.

(** [d - 1] days before the day (y, m, d) lies the day (y, m, 1). *)
Lemma civilFromDays_firstOfMonth (z y m d : Z) :
  civilFromDays z = (y, m, d) -> civilFromDays (z - (d - 1)) = (y, m, 1).
Proof.
  unfold civilFromDays. destruct (era_split z) as [Hr Hz].
  destruct (civilOfDoe ((z + 719468) mod 146097)) as [[yy mm] dd] eqn:Hc.
  intros Heq. triple_eq Heq y m d.
  destruct (civilOfDoe_facts _ Hr _ _ _ Hc) as (_ & _ & Hdd & _ & Hlo & Hfirst).
  set (era := (z + 719468) / 146097) in *.
  set (doe := (z + 719468) mod 146097) in *.
  replace (z - (dd - 1) + 719468) with ((doe - (dd - 1)) + era * 146097) by lia.
  rewrite Z.mod_add by lia. rewrite Z.div_add by lia.
  rewrite (Z.mod_small (doe - (dd - 1)) 146097) by lia.
  rewrite (Z.div_small (doe - (dd - 1)) 146097) by lia.
  rewrite Hfirst. reflexivity.
Qed.

(** [MakeDay] with the year and month of a day and any date [k]. *)
Lemma MakeDay_sameMonth (z y m d k : Z) :
  civilFromDays z = (y, m, d) -> MakeDay y (m - 1) k = z - d + k.
Proof.
  intros Hc. pose proof (civilFromDays_range _ _ _ _ Hc) as [Hm _].
  pose proof (daysFromCivil_civilFromDays _ _ _ _ Hc) as Hz.
  unfold MakeDay. rewrite (Z.div_small (m - 1) 12) by lia.
  rewrite (Z.mod_small (m - 1) 12) by lia.
  replace (y + 0) with y by lia. replace (m - 1 + 1) with m by lia.
  unfold daysFromCivil in *. unfold dayOfEra in *. lia.
Qed.

Lemma Day_sub_days (t k : Z) : Day (t - k * msPerDay) = Day t - k.
Proof.
  unfold Day. replace (t - k * msPerDay) with (t + (- k) * msPerDay) by lia.
  rewrite Z.div_add by (unfold msPerDay; lia). lia.
Qed.

Lemma civilFromDays_eta (z : Z) :
  civilFromDays z =
  (fst (fst (civilFromDays z)), snd (fst (civilFromDays z)), snd (civilFromDays z)).
Proof. destruct (civilFromDays z) as [[y m] d]. reflexivity. Qed.

(** A day at or after the epoch lies in a year after 99. *)
Lemma YearFromTime_epoch (t : Z) : 0 <= t -> 1600 <= YearFromTime t.
Proof.
  intros Ht. unfold YearFromTime, civilFromDays.
  assert (Hd : 0 <= Day t) by (apply Z.div_pos; unfold msPerDay; lia).
  destruct (era_split (Day t)) as [Hr Hz].
  destruct (civilOfDoe ((Day t + 719468) mod 146097)) as [[yy mm] dd] eqn:Hc.
  destruct (civilOfDoe_facts _ Hr _ _ _ Hc) as (Hy & _).
  cbn [fst]. destruct (mm <=? 2); lia.
Qed.

Section DateProps.
Context `{Host}.

(** Setting the date to [getDate() - k] moves the time value back by
    exactly [k] days, in every time zone of fixed offset. *)
Lemma setDate_back (t k : Z) : setDate t (getDate t - k) = t - k * msPerDay.
Proof.
  unfold setDate, getDate, DateFromTime, YearFromTime, MonthFromTime.
  set (lt := LocalTime t).
  rewrite (MakeDay_sameMonth (Day lt) _ _ _ _ (civilFromDays_eta (Day lt))).
  unfold MakeDate, UTC, TimeWithinDay, Day. subst lt. unfold LocalTime.
  pose proof (Z.div_mod (t + LocalTZA) msPerDay) as Hdm.
  unfold msPerDay in *. lia.
Qed.

Lemma isoDate_setDate_back (t k : Z) :
  isoDate (setDate t (getDate t - k)) = isoDateOfDay (Day t - k).
Proof. unfold isoDate. now rewrite setDate_back, Day_sub_days. Qed.

(** [detectMealDate] never reaches its third branch: a text that
    contains 一昨日 contains 昨日, which is tested first. *)
Lemma detectMealDate_two_branches (text : string) (now : Z) :
  detectMealDate text now =
  if includes (toLowerCase text) "今日" || includes (toLowerCase text) "today"
  then isoDateOfDay (Day now)
  else if includes (toLowerCase text) "昨日" || includes (toLowerCase text) "yesterday"
  then isoDateOfDay (Day now - 1)
  else isoDateOfDay (Day now).
Proof.
  unfold detectMealDate. cbv zeta. rewrite isoDate_setDate_back.
  destruct (includes (toLowerCase text) "今日" || includes (toLowerCase text) "today");
    [reflexivity |].
  destruct (includes (toLowerCase text) "昨日") eqn:Hy; cbn [orb]; [reflexivity |].
  destruct (includes (toLowerCase text) "yesterday"); [reflexivity |].
  destruct (includes (toLowerCase text) "一昨日") eqn:Hd; [| reflexivity].
  apply (includes_suffix_of_kw _ "一" "昨日") in Hd. congruence.
Qed.

Lemma lastWeek_range (now : Z) :
  let end_ := setDate now (getDate now - 1) in
  let start := setDate end_ (getDate end_ - 6) in
  isoDate start = isoDateOfDay (Day now - 7) /\
  isoDate end_ = isoDateOfDay (Day now - 1).
Proof.
  cbv zeta. rewrite !isoDate_setDate_back, setDate_back, Day_sub_days.
  split; [f_equal; lia | reflexivity].
Qed.

Lemma thisWeek_start (now : Z) :
  LocalTZA = 0 ->
  let day := if getDay now =? 0 then 7 else getDay now in
  isoDate (setDate now (getDate now - (day - 1))) =
  isoDateOfDay (mondayOfWeek (Day now)).
Proof.
  intros Htz. cbv zeta. rewrite isoDate_setDate_back. f_equal.
  unfold mondayOfWeek, getDay, WeekDay, LocalTime. rewrite Htz, Z.add_0_r.
  destruct ((Day now + 4) mod 7 =? 0) eqn:Hw;
    [apply Z.eqb_eq in Hw | apply Z.eqb_neq in Hw];
    pose proof (Z.mod_pos_bound (Day now + 4) 7);
    pose proof (Z.mod_pos_bound (Day now + 3) 7);
    pose proof (Z.div_mod (Day now + 4) 7);
    pose proof (Z.div_mod (Day now + 3) 7); lia.
Qed.

Lemma thisMonth_start (now : Z) :
  LocalTZA = 0 -> 0 <= now ->
  isoDate (newDateYMD (getFullYear now) (getMonth now) 1) =
  isoDateOfDay (firstOfMonth (Day now)).
Proof.
  intros Htz Hnow.
  unfold newDateYMD, getFullYear, getMonth, LocalTime, UTC.
  rewrite Htz, Z.add_0_r, Z.sub_0_r.
  pose proof (YearFromTime_epoch now Hnow) as Hy.
  replace ((0 <=? YearFromTime now) && (YearFromTime now <=? 99)) with false
    by (symmetry; apply andb_false_iff; right; apply Z.leb_gt; lia).
  unfold YearFromTime, MonthFromTime.
  rewrite (MakeDay_sameMonth (Day now) _ _ _ _ (civilFromDays_eta (Day now))).
  unfold isoDate, MakeDate, firstOfMonth. f_equal.
  unfold Day at 1. rewrite Z.add_0_r, Z.div_mul by (unfold msPerDay; lia). lia.
Qed.

End DateProps.

Lemma mondayOfWeek_is_monday (d : Z) :
  isoWeekday (mondayOfWeek d) = 1 /\ d - 6 <= mondayOfWeek d <= d.
Proof.
  unfold isoWeekday, mondayOfWeek.
  pose proof (Z.mod_pos_bound (d + 3) 7).
  pose proof (Z.div_mod (d + 3) 7).
  replace (d - (d + 3) mod 7 + 3) with (0 + (d + 3) / 7 * 7) by lia.
  rewrite Z.mod_add by lia. rewrite Z.mod_0_l by lia. lia.
Qed.

Lemma firstOfMonth_is_first (d : Z) :
  civilFromDays (firstOfMonth d) =
  (fst (fst (civilFromDays d)), snd (fst (civilFromDays d)), 1) /\
  firstOfMonth d <= d.
Proof.
  unfold firstOfMonth. split.
  - apply civilFromDays_firstOfMonth, civilFromDays_eta.
  - destruct (civilFromDays_range d _ _ _ (civilFromDays_eta d)). lia.
Qed.

(** C6: [detectDateRange] reads weekday, year and month in local time
    and prints UTC dates.  Nine hours east of UTC, at 2024-03-17 03:00 UTC
    (noon local time), "this month" starts on 2024-02-29 although today is
    2024-03-17 in both zones and the first of the month is 2024-03-01; at
    2024-03-17 15:30 UTC (Monday 00:30 local time) "this week" starts on
    2024-03-17, which is Monday neither of the UTC week (2024-03-11) nor of
    the local week (2024-03-18).  On a UTC host the same calls give the
    dates of the claim. *)
Theorem C6_date_range_east_of_UTC :
  let noon := 1710644400000 in
  let late := 1710689400000 in
  (isoDate noon = "2024-03-17" /\ isoDate (@LocalTime asciiHostJST noon) = "2024-03-17") /\
  @detectDateRange asciiHostJST noon "今月のまとめ" =
    Some {| range_start := "2024-02-29"; range_end := "2024-03-17" |} /\
  isoDateOfDay (firstOfMonth (Day noon)) = "2024-03-01" /\
  @detectDateRange asciiHost noon "今月のまとめ" =
    Some {| range_start := "2024-03-01"; range_end := "2024-03-17" |} /\
  (isoDate late = "2024-03-17" /\ isoDate (@LocalTime asciiHostJST late) = "2024-03-18") /\
  @detectDateRange asciiHostJST late "今週のまとめ" =
    Some {| range_start := "2024-03-17"; range_end := "2024-03-17" |} /\
  isoDateOfDay (mondayOfWeek (Day late)) = "2024-03-11" /\
  isoDateOfDay (mondayOfWeek (Day (@LocalTime asciiHostJST late))) = "2024-03-18" /\
  @detectDateRange asciiHost late "今週のまとめ" =
    Some {| range_start := "2024-03-11"; range_end := "2024-03-17" |}.
Proof. vm_compute. repeat split. Qed.

Example detectDateRange_all :
  @detectDateRange asciiHost 1710504000000 "これまでの記録" =
  Some {| range_start := "ALL"; range_end := "ALL" |}.
Proof. vm_compute. reflexivity. Qed.

Example detectDateRange_this_week :
  @detectDateRange asciiHost 1710504000000 "今週の食事" =
  Some {| range_start := "2024-03-11"; range_end := "2024-03-15" |}.
Proof. vm_compute. reflexivity. Qed.

Example detectDateRange_this_month :
  @detectDateRange asciiHost 1710504000000 "今月の食事" =
  Some {| range_start := "2024-03-01"; range_end := "2024-03-15" |}.
Proof. vm_compute. reflexivity. Qed.

(** C7: at noon UTC of 2024-03-15 a message with 一昨日 gets the date of
    the day before, 2024-03-14, although the day before yesterday is
    2024-03-13: 一昨日 contains 昨日, which [detectMealDate] tests first. *)
Theorem C7_detectMealDate_day_before_yesterday :
  let now := 1710504000000 in
  let text := "一昨日の夕食はカレー" in
  @detectMealDate asciiHost text now = "2024-03-14" /\
  @detectMealDate asciiHost text now = isoDateOfDay (Day now - 1) /\
  isoDateOfDay (Day now - 2) = "2024-03-13" /\
  @detectMealDate asciiHost text now <> isoDateOfDay (Day now - 2).
Proof. vm_compute. repeat split; try reflexivity. discriminate. Qed.

Example detectMealDate_today :
  @detectMealDate asciiHost "今日の朝食は卵" 1710504000000 = "2024-03-15".
Proof. vm_compute. reflexivity. Qed.

Example detectMealDate_yesterday :
  @detectMealDate asciiHost "昨日の昼食はサラダ" 1710504000000 = "2024-03-14".
Proof. vm_compute. reflexivity. Qed.

Example detectMealDate_default :
  @detectMealDate asciiHost "朝食は卵" 1710504000000 = "2024-03-15".
Proof. vm_compute. reflexivity. Qed.

(** ** The completion call with retry *)

Section Retry.
Variable create : nat -> completion + exn.
Variable messages : list message.
Variable opts : RetryOptions.

Let createEffect : effect :=
  ChatCompletionsCreate messages (temperature opts) (max_tokens opts).

Let errorEffect : effect := Console console_error "[OPENAI][ERROR]".

Lemma retryLoop_success (fuel : nat) (a : Z) (lastErr : exn) (r : completion) :
  a <= maxRetries opts -> create (Z.to_nat a) = inl r ->
  retryLoop (S fuel) create messages opts a lastErr = ([createEffect], Returned r).
Proof.
  intros Ha Hc. cbn [retryLoop].
  apply Z.leb_le in Ha. rewrite Ha, Hc. reflexivity.
Qed.

Lemma retryLoop_give_up (fuel : nat) (a : Z) (lastErr e : exn) :
  a <= maxRetries opts -> create (Z.to_nat a) = inr e ->
  isRetryable (statusOf e) = false \/ a = maxRetries opts ->
  retryLoop (S fuel) create messages opts a lastErr =
  ([createEffect; errorEffect], Threw e).
Proof.
  intros Ha Hc Hstop. cbn [retryLoop].
  apply Z.leb_le in Ha. rewrite Ha, Hc.
  replace (negb (isRetryable (statusOf e)) || (a =? maxRetries opts)) with true.
  - reflexivity.
  - symmetry. apply orb_true_iff. destruct Hstop as [Hf | ->].
    + left. now rewrite Hf.
    + right. apply Z.eqb_refl.
Qed.

Lemma retryLoop_retry (fuel : nat) (a : Z) (lastErr e : exn) :
  a < maxRetries opts -> create (Z.to_nat a) = inr e ->
  isRetryable (statusOf e) = true ->
  retryLoop (S fuel) create messages opts a lastErr =
  let r := retryLoop fuel create messages opts (a + 1) e in
  ((retriedTrace messages opts a 1 ++ fst r)%list, snd r).
Proof.
  intros Ha Hc Hr. cbn [retryLoop].
  replace (a <=? maxRetries opts) with true by (symmetry; apply Z.leb_le; lia).
  rewrite Hc, Hr.
  replace (a =? maxRetries opts) with false by (symmetry; apply Z.eqb_neq; lia).
  cbn [negb orb]. unfold retriedTrace. cbn [seq flat_map app].
  replace (a + Z.of_nat 0) with a by lia.
  destruct (retryLoop fuel create messages opts (a + 1) e) as [t o].
  destruct o; reflexivity.
Qed.

Lemma retriedTrace_S (a : Z) (k : nat) :
  retriedTrace messages opts a (S k) =
  (retriedTrace messages opts a 1 ++ retriedTrace messages opts (a + 1) k)%list.
Proof.
  unfold retriedTrace. cbn [seq flat_map]. rewrite app_nil_r.
  rewrite <- seq_shift, flat_map_concat_map, map_map, <- flat_map_concat_map.
  cbn [app]. replace (a + Z.of_nat 0) with a by lia.
  do 3 f_equal. apply flat_map_ext. intros i.
  replace (a + 1 + Z.of_nat i) with (a + Z.of_nat (S i)) by lia. reflexivity.
Qed.

(** [k] attempts that fail with a retryable error, none of them the last
    one allowed, are each followed by their delay and the next attempt. *)
Lemma retryLoop_retries (k : nat) :
  forall (fuel : nat) (a : Z) (lastErr : exn),
  0 <= a -> a + Z.of_nat k <= maxRetries opts ->
  (forall i, (i < k)%nat ->
     exists e, create (Z.to_nat a + i) = inr e /\ isRetryable (statusOf e) = true) ->
  exists lastErr',
    retryLoop (k + S fuel) create messages opts a lastErr =
    let r := retryLoop (S fuel) create messages opts (a + Z.of_nat k) lastErr' in
    ((retriedTrace messages opts a k ++ fst r)%list, snd r).
Proof.
  induction k as [|k IH]; intros fuel a lastErr Ha Hk Hfail.
  - exists lastErr. replace (a + Z.of_nat 0) with a by lia.
    cbn [Nat.add retriedTrace]. unfold retriedTrace. cbn [seq flat_map app].
    now destruct (retryLoop (S fuel) create messages opts a lastErr).
  - destruct (Hfail O ltac:(lia)) as [e [He Hr]]. rewrite Nat.add_0_r in He.
    destruct (IH fuel (a + 1) e ltac:(lia) ltac:(lia)) as [lastErr' Hrec].
    { intros i Hi. destruct (Hfail (S i) ltac:(lia)) as [e' [He' Hr']].
      exists e'. split; [| assumption].
      replace (Z.to_nat (a + 1) + i)%nat with (Z.to_nat a + S i)%nat by lia.
      assumption. }
    exists lastErr'. cbn [Nat.add].
    rewrite (retryLoop_retry _ a lastErr e ltac:(lia) He Hr). cbv zeta.
    rewrite Hrec. cbv zeta. cbn [fst snd].
    replace (a + 1 + Z.of_nat k) with (a + Z.of_nat (S k)) by lia.
    rewrite (retriedTrace_S a k), <- app_assoc. reflexivity.
Qed.

Lemma retryLoop_S (fuel : nat) (a : Z) (lastErr : exn) :
  retryLoop (S fuel) create messages opts a lastErr =
  if a <=? maxRetries opts then
    emit createEffect ;;
    match create (Z.to_nat a) with
    | inl resp => ret resp
    | inr e =>
        emit errorEffect ;;
        if negb (isRetryable (statusOf e)) || (a =? maxRetries opts) then throw e
        else emit (SetTimeout (delayMs a)) ;;
             retryLoop fuel create messages opts (a + 1) e
    end
  else throw lastErr.
Proof. reflexivity. Qed.

(** The fuel of [callOpenAIWithRetry] is never exhausted: more fuel
    changes nothing. *)
Lemma retryLoop_fuel (fuel : nat) :
  forall (a : Z) (lastErr : exn),
  (Z.to_nat (maxRetries opts + 1 - a) <= fuel)%nat ->
  retryLoop (S fuel) create messages opts a lastErr =
  retryLoop fuel create messages opts a lastErr.
Proof.
  induction fuel as [|fuel IH]; intros a lastErr Hfuel.
  - cbn [retryLoop].
    replace (a <=? maxRetries opts) with false by (symmetry; apply Z.leb_gt; lia).
    reflexivity.
  - rewrite (retryLoop_S (S fuel)), (retryLoop_S fuel).
    destruct (a <=? maxRetries opts) eqn:Ha; [| reflexivity].
    apply Z.leb_le in Ha.
    destruct (create (Z.to_nat a)) as [r | e]; [reflexivity |].
    destruct (negb (isRetryable (statusOf e)) || (a =? maxRetries opts));
      [reflexivity |].
    rewrite (IH (a + 1) e) by lia. reflexivity.
Qed.

Lemma delaysOf_app (t1 t2 : list effect) :
  delaysOf (t1 ++ t2) = (delaysOf t1 ++ delaysOf t2)%list.
Proof.
  induction t1 as [|x t1 IH]; [reflexivity |].
  destruct x; cbn [app delaysOf]; rewrite IH; reflexivity.
Qed.

Lemma callsOf_app (t1 t2 : list effect) :
  callsOf (t1 ++ t2) = (callsOf t1 + callsOf t2)%nat.
Proof.
  induction t1 as [|x t1 IH]; [reflexivity |].
  destruct x; cbn [app callsOf]; rewrite IH; reflexivity.
Qed.

Lemma retriedTrace_delays (k : nat) :
  forall a, delaysOf (retriedTrace messages opts a k) =
            map (fun i => delayMs (a + Z.of_nat i)) (seq 0 k).
Proof.
  induction k as [|k IH]; intros a; [reflexivity |].
  rewrite retriedTrace_S, delaysOf_app, IH.
  cbn [seq map]. rewrite <- seq_shift, map_map.
  unfold retriedTrace at 1. cbn [seq flat_map app delaysOf].
  f_equal. apply map_ext. intros i. f_equal. lia.
Qed.

Lemma retriedTrace_calls (k : nat) :
  forall a, callsOf (retriedTrace messages opts a k) = k.
Proof.
  induction k as [|k IH]; intros a; [reflexivity |].
  rewrite retriedTrace_S, callsOf_app, IH. reflexivity.
Qed.

End Retry.

Lemma isRetryable_iff (e : exn) :
  isRetryable (statusOf e) = true <->
  exists s, statusOf e = Some s /\ (s = 429 \/ 500 <= s).
Proof.
  destruct (statusOf e) as [s|]; cbn [isRetryable].
  - rewrite orb_true_iff, Z.eqb_eq, Z.leb_le. split.
    + intros Hs. now exists s.
    + intros [s' [Heq Hs]]. injection Heq as ->. exact Hs.
  - split; [discriminate | intros [s [Heq _]]; discriminate].
Qed.

(** Among the HTTP status codes, 100 to 599, the retryable ones are 429
    and the class 5xx. *)
Lemma isRetryable_http (s : Z) :
  100 <= s <= 599 -> (isRetryable (Some s) = true <-> s = 429 \/ s / 100 = 5).
Proof.
  intros Hs. cbn [isRetryable]. rewrite orb_true_iff, Z.eqb_eq, Z.leb_le.
  pose proof (Z.div_mod s 100 ltac:(lia)). pose proof (Z.mod_pos_bound s 100 ltac:(lia)).
  split; intros [H1 | H2]; try (left; lia); right; lia.
Qed.

Lemma delayMs_values (i : Z) :
  0 <= i -> delayMs i = if i <? 3 then 500 * 2 ^ i else 2500.
Proof.
  intros Hi. unfold delayMs. destruct (i <? 3) eqn:H3.
  - apply Z.ltb_lt in H3.
    assert (Hc : i = 0 \/ i = 1 \/ i = 2) by lia.
    destruct Hc as [-> | [-> | ->]]; reflexivity.
  - apply Z.ltb_ge in H3. apply Z.min_r.
    assert (2 ^ 3 <= 2 ^ i) by (apply Z.pow_le_mono_r; lia).
    change (2 ^ 3) with 8 in *. lia.
Qed.

(** Where [callOpenAIWithRetry] ends when attempts [0 .. k-1] fail with a
    retryable error and attempt [k <= maxRetries] ends the loop. *)
Lemma callOpenAIWithRetry_run (create : nat -> completion + exn)
    (messages : list message) (opts : RetryOptions) (k : nat) :
  Z.of_nat k <= maxRetries opts ->
  (forall i, (i < k)%nat ->
     exists e, create i = inr e /\ isRetryable (statusOf e) = true) ->
  (forall r, create k = inl r ->
     callOpenAIWithRetry create messages opts =
     ((retriedTrace messages opts 0 k ++
       [ChatCompletionsCreate messages (temperature opts) (max_tokens opts)])%list,
      Returned r)) /\
  (forall e, create k = inr e ->
     isRetryable (statusOf e) = false \/ Z.of_nat k = maxRetries opts ->
     callOpenAIWithRetry create messages opts =
     ((retriedTrace messages opts 0 k ++
       [ChatCompletionsCreate messages (temperature opts) (max_tokens opts);
        Console console_error "[OPENAI][ERROR]"])%list,
      Threw e)).
Proof.
  intros Hk Hfail. unfold callOpenAIWithRetry.
  replace (Z.to_nat (maxRetries opts + 1))
    with (k + S (Z.to_nat (maxRetries opts) - k))%nat by lia.
  destruct (retryLoop_retries create messages opts k
              (Z.to_nat (maxRetries opts) - k) 0 ThrownUndefined
              ltac:(lia) ltac:(lia) Hfail) as [lastErr' Hrun].
  rewrite Hrun. cbv zeta. cbn [Z.add]. split.
  - intros r Hr.
    rewrite (retryLoop_success create messages opts _ _ lastErr' r Hk);
      [reflexivity | now rewrite Nat2Z.id].
  - intros e He Hstop.
    rewrite (retryLoop_give_up create messages opts _ _ lastErr' e Hk);
      [reflexivity | now rewrite Nat2Z.id | assumption].
Qed.

(** C1: a failure is retryable exactly when its status is 429 or at least
    500 (among the HTTP status codes: 429 or 5xx); a retryable failure is
    retried, up to [maxRetries] times, after [min(500 * 2^attempt, 2500)]
    ms; a failure that is not retryable, or the failure of the last
    attempt allowed, is thrown to the caller with no further delay. *)
Theorem C1_retry_policy (create : nat -> completion + exn)
    (messages : list message) (opts : RetryOptions) (k : nat) :
  Z.of_nat k <= maxRetries opts ->
  (forall i, (i < k)%nat ->
     exists e, create i = inr e /\ isRetryable (statusOf e) = true) ->
  let run := callOpenAIWithRetry create messages opts in
  (forall e, isRetryable (statusOf e) = true <->
             exists s, statusOf e = Some s /\ (s = 429 \/ 500 <= s)) /\
  (forall s, 100 <= s <= 599 ->
             (isRetryable (Some s) = true <-> s = 429 \/ s / 100 = 5)) /\
  (forall i, 0 <= i -> delayMs i = Z.min (500 * 2 ^ i) 2500) /\
  (forall r, create k = inl r ->
     snd run = Returned r /\
     delaysOf (fst run) = backoffDelays k /\ callsOf (fst run) = S k) /\
  (forall e, create k = inr e ->
     isRetryable (statusOf e) = false \/ Z.of_nat k = maxRetries opts ->
     snd run = Threw e /\
     delaysOf (fst run) = backoffDelays k /\ callsOf (fst run) = S k).
Proof.
  intros Hk Hfail run.
  destruct (callOpenAIWithRetry_run create messages opts k Hk Hfail) as [Hok Hko].
  split; [apply isRetryable_iff |]. split; [apply isRetryable_http |].
  split; [reflexivity |]. split.
  - intros r Hr. subst run. rewrite (Hok r Hr). cbn [fst snd].
    rewrite delaysOf_app, callsOf_app, retriedTrace_delays, retriedTrace_calls.
    cbn [delaysOf callsOf]. rewrite app_nil_r.
    repeat split. lia.
  - intros e He Hstop. subst run. rewrite (Hko e He Hstop). cbn [fst snd].
    rewrite delaysOf_app, callsOf_app, retriedTrace_delays, retriedTrace_calls.
    cbn [delaysOf callsOf]. rewrite app_nil_r.
    repeat split. lia.
Qed.

(** Two rate-limit failures, then success, with [maxRetries = 2]: the
    result is returned after delays of 500 and 1000 ms. *)
Lemma C1_retry_policy_witness :
  let create := failsThenSucceeds 2 rateLimited {| choice_content := Some "ok" |} in
  let run := callOpenAIWithRetry create [] defaultOptions in
  Z.of_nat 2 <= maxRetries defaultOptions /\
  (forall i, (i < 2)%nat ->
     exists e, create i = inr e /\ isRetryable (statusOf e) = true) /\
  snd run = Returned {| choice_content := Some "ok" |} /\
  delaysOf (fst run) = [500; 1000] /\ callsOf (fst run) = 3%nat.
Proof.
  intros create run.
  assert (Hk : Z.of_nat 2 <= maxRetries defaultOptions) by (cbn; lia).
  assert (Hfail : forall i, (i < 2)%nat ->
            exists e, create i = inr e /\ isRetryable (statusOf e) = true).
  { intros i Hi. exists rateLimited. split; [| reflexivity].
    destruct i as [|[|i]]; [reflexivity | reflexivity | lia]. }
  split; [exact Hk |]. split; [exact Hfail |].
  exact (proj1 (proj2 (proj2 (proj2
           (C1_retry_policy create [] defaultOptions 2 Hk Hfail))))
         {| choice_content := Some "ok" |} eq_refl).
Defined.

Example retry_fatal_immediately :
  callOpenAIWithRetry (fun _ => inr unauthorized) [] defaultOptions =
  ([ChatCompletionsCreate [] (6 # 10) 250; Console console_error "[OPENAI][ERROR]"],
   Threw unauthorized).
Proof. reflexivity. Qed.

Example retry_exhausted :
  let run := callOpenAIWithRetry (fun _ => inr rateLimited) [] defaultOptions in
  snd run = Threw rateLimited /\ delaysOf (fst run) = [500; 1000] /\
  callsOf (fst run) = 3%nat.
Proof. repeat split. Qed.

(** ** Strings and numbers of the host *)

Example trim_ideographic_space : trim (bytes [227; 128; 128; 32]%nat ++ "朝 食" ++ nl) = "朝 食".
Proof. vm_compute. reflexivity. Qed.

Example trim_blank : trim (" " ++ nl ++ bytes [227; 128; 128; 9]%nat) = "".
Proof. vm_compute. reflexivity. Qed.

Example Number_examples :
  Number "500" = ofZ 500 /\ Number " 12.5 " = ndiv (ofZ 25) (ofZ 2) /\
  Number "" = ofZ 0 /\ Number "abc" = NaN /\ Number "1.2.3" = NaN /\
  Number "1e3" = ofZ 1000 /\ Number "-.5" = ndiv (ofZ (-1)) (ofZ 2) /\
  Number "0x1F" = ofZ 31 /\ Number "-Infinity" = NInf /\ Number "." = NaN /\
  Number "1,200" = NaN /\ Number "-0" = S754_zero true /\ Number "5." = ofZ 5 /\
  Number "1e400" = PInf /\ Number "1e-400" = ofZ 0 /\ Number "-0x10" = NaN /\
  Number "0.35" = S754_finite false 6305039478318694 (-54) /\
  Number "9007199254740993" = ofZ 9007199254740992 /\
  nadd (Number "0.1") (Number "0.2") <> Number "0.3".
Proof. vm_compute. repeat split. discriminate. Qed.

(** 0.35 and 1.45 lie below the decimal they are written as, 0.25 is a
    tie; from 1e21 on the exponent form is used. *)
Example toFixed1_examples :
  toFixed1 (ofZ 1200) = "1200.0" /\ toFixed1 (Number "0.25") = "0.3" /\
  toFixed1 (Number "0.35") = "0.3" /\ toFixed1 (Number "1.45") = "1.4" /\
  toFixed1 (ndiv (Number "0.7") (ofZ 2)) = "0.3" /\
  toFixed1 (Number "-0.01") = "-0.0" /\ toFixed1 (Number "-0") = "0.0" /\
  toFixed1 (Number "19.99") = "20.0" /\
  toFixed1 NaN = "NaN" /\ toFixed1 (ndiv (ofZ 1200) (ofZ 7)) = "171.4" /\
  toFixed1 (ndiv (ofZ 1) (ofZ 0)) = "Infinity" /\
  toFixed1 (Number "999999999999999868928") = "999999999999999868928.0" /\
  toFixed1 (Number "1e21") = "1e+21" /\
  toFixed1 (Number "-123456789012345678901234") = "-1.2345678901234569e+23" /\
  toFixed1 (Number "1.7976931348623157e308") = "1.7976931348623157e+308".
Proof. vm_compute. repeat split. Qed.

(** ** The signature *)

Example sha256_abc :
  hex (sha256 (bytesOfString "abc")) =
  "ba7816bf8f01cfea414140de5dae2223b00361a396177a9cb410ff61f20015ad".
Proof. vm_compute. reflexivity. Qed.

Example sha256_empty :
  hex (sha256 []) =
  "e3b0c44298fc1c149afbf4c8996fb92427ae41e4649b934ca495991b7852b855".
Proof. vm_compute. reflexivity. Qed.

Example sha256_two_blocks :
  hex (sha256 (bytesOfString
    "abcdbcdecdefdefgefghfghighijhijkijkljklmklmnlmnomnopnopq")) =
  "248d6a61d20638b8e5c026930c3e6039a33ce45964ff2167f6ecedd419db06c1".
Proof. vm_compute. reflexivity. Qed.

Example hmac_quick_brown_fox :
  hex (hmacSha256 (bytesOfString "key")
         (bytesOfString "The quick brown fox jumps over the lazy dog")) =
  "f7bc83f430538424b13298e6aa6fb143ef4d59a14946175997479dbc2d1a3cd8".
Proof. vm_compute. reflexivity. Qed.

(** RFC 4231, test case 2. *)
Example hmac_rfc4231_2 :
  hex (hmacSha256 (bytesOfString "Jefe")
         (bytesOfString "what do ya want for nothing?")) =
  "5bdcc146bf60754e6a042426089575c75a003f089d2739839dec58b964ec3843".
Proof. vm_compute. reflexivity. Qed.

Example base64_rfc4648 :
  base64 (bytesOfString "foobar") = "Zm9vYmFy" /\
  base64 (bytesOfString "fooba") = "Zm9vYmE=" /\
  base64 (bytesOfString "foob") = "Zm9vYg==" /\
  base64 [] = "".
Proof. vm_compute. repeat split. Qed.

(** The digest is never the empty string: it is the base64 of 32 bytes. *)
Lemma hmacBase64_nonempty (secret body : string) : hmacBase64 secret body <> "".
Proof.
  unfold hmacBase64, hmacSha256.
  set (inner := (_ ++ sha256 _)%list). unfold sha256.
  set (st := shaBlocks _ _ _). cbn [bytesOfWord app base64]. discriminate.
Qed.

Lemma hmacBase64_length (secret body : string) :
  String.length (hmacBase64 secret body) = 44%nat.
Proof.
  unfold hmacBase64, hmacSha256.
  set (inner := (_ ++ sha256 _)%list). unfold sha256.
  set (st := shaBlocks _ _ _). cbn [bytesOfWord app base64 String.length].
  reflexivity.
Qed.

(** ** The webhook *)

Section WebhookProps.
Context `{Host}.

Lemma signatureInvalid_false (secret body : string) (header : option string) :
  signatureInvalid secret (match header with Some s => s | None => "" end) body = false
  <-> header = Some (hmacBase64 secret body).
Proof.
  unfold signatureInvalid. rewrite orb_false_iff, negb_false_iff, !String.eqb_eq.
  pose proof (hmacBase64_nonempty secret body) as Hne.
  destruct header as [sig|].
  - rewrite String.eqb_neq. split.
    + intros [_ Heq]. now rewrite Heq.
    + intros Heq. injection Heq as ->. split; [assumption | reflexivity].
  - rewrite String.eqb_refl. split; [intros [Hf _]; discriminate | discriminate].
Qed.

(** A task never rejects: what the handler throws is caught and logged. *)
Lemma eventTask_settles (env : Env) (event : value) :
  snd (eventTask env event) = Returned tt /\
  (forall a, snd (handleEvent env event) = Returned a ->
     fst (eventTask env event) = fst (handleEvent env event)) /\
  (forall e, snd (handleEvent env event) = Threw e ->
     fst (eventTask env event) =
     (fst (handleEvent env event) ++ [Console console_error "[LINE][EVENT][ERR]"])%list).
Proof.
  unfold eventTask, tryCatch.
  destruct (handleEvent env event) as [t [[] | e]]; cbn [fst snd emit].
  - split; [reflexivity |]. split; [reflexivity | discriminate].
  - split; [reflexivity |]. split; [discriminate | reflexivity].
Qed.

Lemma promiseAll_tasks (envs : nat -> Env) (events : list value) :
  forall i, promiseAll (mapTasks eventTask envs i events) = Returned tt.
Proof.
  induction events as [|ev rest IH]; intros i; [reflexivity |].
  cbn [mapTasks promiseAll].
  destruct (eventTask_settles (envs i) ev) as [Hs _].
  destruct (eventTask (envs i) ev) as [t o]. cbn [snd] in Hs. subst o. apply IH.
Qed.

Lemma mapTasks_effects (envs : nat -> Env) (events : list value) :
  forall i, map fst (mapTasks eventTask envs i events) = effectsOfTasks envs i events.
Proof.
  induction events as [|ev rest IH]; intros i; [reflexivity |].
  cbn [mapTasks map effectsOfTasks]. now rewrite IH.
Qed.

(** A request with the right signature and an envelope that parses. *)
Lemma POST_accepted (secret : string) (envs : nat -> Env) (req : Request)
    (json : value) :
  x_line_signature req = Some (hmacBase64 secret (bodyText req)) ->
  JSON_parse (bodyText req) = Some json ->
  POST (Some secret) envs req =
  match json with
  | VUndefined | VNull =>
      {| response := errorResponse;
         requestEffects := [Console console_error "[LINE][ERROR]"];
         taskEffects := [] |}
  | _ =>
      {| response := okResponse;
         requestEffects := [];
         taskEffects := effectsOfTasks envs 0 (eventsOf json) |}
  end.
Proof.
  intros Hsig Hjson. unfold POST, postTry.
  apply signatureInvalid_false in Hsig. rewrite Hsig, Hjson.
  destruct json; cbn [prop throw ret tryCatch]; try reflexivity.
  rewrite promiseAll_tasks. unfold ret, tryCatch. cbn [eventsOf].
  now rewrite mapTasks_effects.
Qed.

Lemma POST_rejected (secret : string) (envs : nat -> Env) (req : Request) :
  x_line_signature req <> Some (hmacBase64 secret (bodyText req)) ->
  POST (Some secret) envs req =
  {| response := unauthorizedResponse;
     requestEffects := [Console console_warn "[LINE] Invalid signature"];
     taskEffects := [] |}.
Proof.
  intros Hsig. unfold POST, postTry.
  destruct (signatureInvalid secret _ (bodyText req)) eqn:Hinv.
  - reflexivity.
  - apply signatureInvalid_false in Hinv. contradiction.
Qed.

Lemma POST_unparsable (secret : string) (envs : nat -> Env) (req : Request) :
  x_line_signature req = Some (hmacBase64 secret (bodyText req)) ->
  JSON_parse (bodyText req) = None ->
  POST (Some secret) envs req =
  {| response := errorResponse;
     requestEffects := [Console console_error "[LINE][ERROR]"];
     taskEffects := [] |}.
Proof.
  intros Hsig Hjson. unfold POST, postTry.
  apply signatureInvalid_false in Hsig. rewrite Hsig, Hjson. reflexivity.
Qed.

End WebhookProps.

Example parseJson_envelope :
  parseJson ("{" ++ quoted "events" ++ ": [ {" ++ quoted "type" ++ ":" ++
             quoted "message" ++ ", " ++ quoted "n" ++ ": -12.50e1} , null, true ] }") =
  Some (VObj [("events",
               VArr [VObj [("type", VStr "message"); ("n", VNum (ofZ (-125)))];
                     VNull; VBool true])]).
Proof. vm_compute. reflexivity. Qed.

Example parseJson_escapes :
  parseJson (String dquote (String backslash "u3042" ++ String backslash "n" ++
             String backslash "ud83d" ++ String backslash "udcca") ++ String dquote "") =
  Some (VStr ("あ" ++ nl ++ "📊")).
Proof. vm_compute. reflexivity. Qed.

Example parseJson_rejects :
  parseJson "{" = None /\ parseJson "[1,]" = None /\ parseJson "01" = None /\
  parseJson "" = None /\ parseJson "nul" = None /\ parseJson "[] x" = None.
Proof. vm_compute. repeat split. Qed.

Example parseJson_duplicate_key :
  parseJson ("{" ++ quoted "a" ++ ":1," ++ quoted "b" ++ ":2," ++ quoted "a" ++ ":3}") =
  Some (VObj [("a", VNum (ofZ 3)); ("b", VNum (ofZ 2))]).
Proof. vm_compute. reflexivity. Qed.

Section WebhookClaims.
Context `{Host}.

(** C3: the signature check accepts exactly when the header equals the
    base64 of HMAC-SHA256(body, secret); on a mismatch, an absent or empty
    header included, the answer is 401 and no event is handled. *)
Theorem C3_signature_check (secret : string) (envs : nat -> Env) (req : Request) :
  (signatureInvalid secret
     (match x_line_signature req with Some s => s | None => "" end)
     (bodyText req) = false
   <-> x_line_signature req = Some (hmacBase64 secret (bodyText req))) /\
  (x_line_signature req <> Some (hmacBase64 secret (bodyText req)) ->
   POST (Some secret) envs req =
   {| response := {| status := 401; body := TextBody "Signature validation failed" |};
      requestEffects := [Console console_warn "[LINE] Invalid signature"];
      taskEffects := [] |}).
Proof.
  split; [apply signatureInvalid_false | apply POST_rejected].
Qed.

(** C10: a text-message event whose text trims to the empty string is
    dropped after the log line of its user id: no reply, no append, no
    completion call. *)
Theorem C10_blank_text_ignored (env : Env) (fields : list (string * value))
    (s : string) :
  lookupField fields "type" = VStr "message" ->
  optProp (lookupField fields "message") "type" = VStr "text" ->
  optProp (lookupField fields "message") "text" = VStr s ->
  trim s = "" ->
  eventTask env (VObj fields) = ([Console console_log "[LINE][USERID]"], Returned tt) /\
  existsb isExternalCall (fst (eventTask env (VObj fields))) = false.
Proof.
  intros Htype Hmtype Htext Htrim.
  assert (Hrun : eventTask env (VObj fields) =
                 ([Console console_log "[LINE][USERID]"], Returned tt)).
  { unfold eventTask, handleEvent. cbn [prop optProp].
    unfold bind at 1. cbn [ret]. rewrite Htype. cbn [isStr String.eqb negb].
    change (optProp (VObj fields) "message") with (lookupField fields "message").
    rewrite Hmtype, Htext, Htrim. reflexivity. }
  split; [exact Hrun | now rewrite Hrun].
Qed.

(** C2: for a request with the right signature whose envelope parses to
    something other than null, every event has its task, a task never
    rejects (what its handler throws is caught and logged), and the answer
    is 200 with the body status ok; 500 is answered only when the secret is
    missing, the body does not parse or the envelope is null. *)
Theorem C2_event_isolation (secret : string) (envs : nat -> Env) (req : Request)
    (json : value) :
  x_line_signature req = Some (hmacBase64 secret (bodyText req)) ->
  JSON_parse (bodyText req) = Some json ->
  json <> VNull -> json <> VUndefined ->
  (POST (Some secret) envs req =
   {| response := {| status := 200; body := JsonBody (VObj [("status", VStr "ok")]) |};
      requestEffects := [];
      taskEffects := effectsOfTasks envs 0 (eventsOf json) |}) /\
  (forall env event,
     snd (eventTask env event) = Returned tt /\
     (forall e, snd (handleEvent env event) = Threw e ->
        fst (eventTask env event) =
        (fst (handleEvent env event) ++ [Console console_error "[LINE][EVENT][ERR]"])%list)) /\
  (forall secret' envs' req',
     status (response (POST secret' envs' req')) = 500 ->
     secret' = None \/
     exists s, secret' = Some s /\
       x_line_signature req' = Some (hmacBase64 s (bodyText req')) /\
       (JSON_parse (bodyText req') = None \/
        JSON_parse (bodyText req') = Some VNull \/
        JSON_parse (bodyText req') = Some VUndefined)).
Proof.
  intros Hsig Hjson Hnull Hundef. split; [| split].
  - rewrite (POST_accepted secret envs req json Hsig Hjson).
    destruct json; try reflexivity; contradiction.
  - intros env event. destruct (eventTask_settles env event) as (Hs & _ & Hthrow).
    split; assumption.
  - intros [s|] envs' req' H500; [right | now left].
    exists s. split; [reflexivity |].
    destruct (signatureInvalid s
                (match x_line_signature req' with Some x => x | None => "" end)
                (bodyText req')) eqn:Hinv.
    + exfalso. assert (Hne : x_line_signature req' <> Some (hmacBase64 s (bodyText req'))).
      { intros Heq. apply signatureInvalid_false in Heq. congruence. }
      rewrite (POST_rejected s envs' req' Hne) in H500. discriminate.
    + apply signatureInvalid_false in Hinv. split; [assumption |].
      destruct (JSON_parse (bodyText req')) as [j|] eqn:Hj; [| now left].
      right. rewrite (POST_accepted s envs' req' j Hinv Hj) in H500.
      destruct j; try discriminate; [now right | now left].
Qed.

End WebhookClaims.

Lemma C3_signature_check_witness :
  let req := {| x_line_signature := None; bodyText := envelopeJson [] |} in
  x_line_signature req <> Some (hmacBase64 "secret" (bodyText req)) /\
  status (response (@POST asciiHost (Some "secret") (fun _ => quietEnv "" []) req)) = 401 /\
  taskEffects (@POST asciiHost (Some "secret") (fun _ => quietEnv "" []) req) = [].
Proof.
  intros req.
  assert (Hne : x_line_signature req <> Some (hmacBase64 "secret" (bodyText req)))
    by discriminate.
  split; [exact Hne |].
  rewrite (proj2 (@C3_signature_check asciiHost "secret"
                    (fun _ => quietEnv "" []) req) Hne).
  split; reflexivity.
Defined.

Lemma C10_blank_text_ignored_witness :
  let blank := " " ++ bytes [227; 128; 128]%nat ++ " " in
  exists fields,
    parseJson (textEventJson blank) = Some (VObj fields) /\
    trim blank = "" /\
    @eventTask asciiHost (quietEnv "" []) (VObj fields) =
    ([Console console_log "[LINE][USERID]"], Returned tt).
Proof.
  intros blank.
  exists [("type", VStr "message"); ("replyToken", VStr "token-1");
          ("source", VObj [("userId", VStr "U1")]);
          ("message", VObj [("type", VStr "text"); ("text", VStr blank)])].
  split; [vm_compute; reflexivity |]. split; [vm_compute; reflexivity |].
  apply (@C10_blank_text_ignored asciiHost (quietEnv "" []) _ blank);
    vm_compute; reflexivity.
Defined.

(** A delivery of two events: the first is null, so its handler throws
    a TypeError, which is logged; the second, an exercise message, is
    logged to the sheet and answered. *)
Lemma C2_event_isolation_witness :
  let body := envelopeJson ["null"; textEventJson "30分走った"] in
  let req := signedRequest "secret" body in
  let envs := fun _ : nat => quietEnv "" [] in
  x_line_signature req = Some (hmacBase64 "secret" (bodyText req)) /\
  (exists json, parseJson body = Some json /\ json <> VNull /\ json <> VUndefined) /\
  response (@POST asciiHost (Some "secret") envs req) = okResponse /\
  taskEffects (@POST asciiHost (Some "secret") envs req) =
  [ [Console console_error "[LINE][EVENT][ERR]"];
    [ Console console_log "[LINE][USERID]";
      GetAuthClient;
      SheetsAppend "Exercise Log!A2"
        [CStr "2024-03-15"; CStr "12:00"; CStr "30分走った"];
      LineReply (VStr "token-1") ("運動を記録しました💪" ++ nl ++ "30分走った") ] ].
Proof.
  intros body req envs.
  assert (Hsig : x_line_signature req = Some (hmacBase64 "secret" (bodyText req)))
    by reflexivity.
  destruct (parseJson body) as [json|] eqn:Hjson; [| vm_compute in Hjson; discriminate].
  assert (Hnull : json <> VNull)
    by (intros ->; vm_compute in Hjson; discriminate).
  assert (Hundef : json <> VUndefined)
    by (intros ->; vm_compute in Hjson; discriminate).
  split; [exact Hsig |].
  split; [exists json; split; [reflexivity | split; assumption] |].
  rewrite (proj1 (@C2_event_isolation asciiHost "secret" envs req json
                    Hsig Hjson Hnull Hundef)).
  cbn [response taskEffects]. split; [reflexivity |].
  vm_compute in Hjson. injection Hjson as <-. vm_compute. reflexivity.
Defined.

(** ** The civil date grows with the day number *)

Lemma era_steps_checked : allFrom (Z.to_nat 146096) 0 eraStepCheck = true.
Proof. vm_compute. reflexivity. Qed.

Lemma civilLtb_lt (a b : Z * Z * Z) : civilLtb a b = true -> civilLt a b.
Proof.
  destruct a as [[y1 m1] d1], b as [[y2 m2] d2]. unfold civilLtb, civilLt.
  rewrite !orb_true_iff, !andb_true_iff, !orb_true_iff, !andb_true_iff,
    !Z.ltb_lt, !Z.eqb_eq. tauto.
Qed.

Lemma civilLt_trans (a b c : Z * Z * Z) : civilLt a b -> civilLt b c -> civilLt a c.
Proof.
  destruct a as [[y1 m1] d1], b as [[y2 m2] d2], c as [[y3 m3] d3].
  unfold civilLt. lia.
Qed.

(** The day after has the later civil date. *)
Lemma civilFromDays_step (d : Z) : civilLt (civilFromDays d) (civilFromDays (d + 1)).
Proof.
  unfold civilFromDays. destruct (era_split d) as [Hr Hz].
  set (era := (d + 719468) / 146097) in *.
  set (doe := (d + 719468) mod 146097) in *.
  destruct (Z.eq_dec doe 146096) as [Hlast | Hlast].
  - replace (d + 1 + 719468) with (0 + (era + 1) * 146097) by lia.
    rewrite Z.mod_add, Z.div_add by lia. rewrite Hlast.
    change (civilOfDoe 146096) with (400, 2, 29).
    change (civilOfDoe (0 mod 146097)) with (0, 3, 1).
    change (0 / 146097) with 0. unfold civilLt. lia.
  - replace (d + 1 + 719468) with ((doe + 1) + era * 146097) by lia.
    rewrite Z.mod_add, Z.div_add by lia.
    rewrite (Z.mod_small (doe + 1) 146097), (Z.div_small (doe + 1) 146097) by lia.
    assert (Hstep : eraStepCheck doe = true).
    { apply (allFrom_spec _ _ _ era_steps_checked). rewrite Z2Nat.id; lia. }
    apply civilLtb_lt in Hstep. unfold eraStepCheck in Hstep.
    destruct (civilOfDoe doe) as [[y1 m1] d1].
    destruct (civilOfDoe (doe + 1)) as [[y2 m2] d2].
    unfold civilLt in *. lia.
Qed.

Lemma civilFromDays_increasing (a b : Z) :
  a < b -> civilLt (civilFromDays a) (civilFromDays b).
Proof.
  intros Hab. replace b with (a + 1 + Z.of_nat (Z.to_nat (b - a - 1))) by lia.
  induction (Z.to_nat (b - a - 1)) as [|n IH].
  - replace (a + 1 + Z.of_nat 0) with (a + 1) by lia. apply civilFromDays_step.
  - replace (a + 1 + Z.of_nat (S n)) with (a + 1 + Z.of_nat n + 1) by lia.
    exact (civilLt_trans _ _ _ IH (civilFromDays_step _)).
Qed.

(** The days of the years 0 to 9999. *)
Lemma day_of_year_bounds (d : Z) :
  0 <= fst (fst (civilFromDays d)) <= 9999 -> -719528 <= d <= 2932896.
Proof.
  intros Hy.
  destruct (civilFromDays_range d _ _ _ (civilFromDays_eta d)) as [Hm Hd].
  split.
  - destruct (Z_lt_le_dec d (-719528)) as [Hlt | Hge]; [| exact Hge].
    pose proof (civilFromDays_increasing _ _ Hlt) as Hc.
    change (civilFromDays (-719528)) with (0, 1, 1) in Hc.
    destruct (civilFromDays d) as [[y m] dd]. cbn [fst snd] in *.
    unfold civilLt in Hc. lia.
  - destruct (Z_lt_le_dec 2932896 d) as [Hlt | Hge]; [| exact Hge].
    pose proof (civilFromDays_increasing _ _ Hlt) as Hc.
    change (civilFromDays 2932896) with (9999, 12, 31) in Hc.
    destruct (civilFromDays d) as [[y m] dd]. cbn [fst snd] in *.
    unfold civilLt in Hc. lia.
Qed.

(** ** Numbers

    Integers below [2^53] in absolute value are binary64 values, and their
    sums, differences and even quotients are computed without rounding. *)

Lemma digits2_pos_log2 (p : positive) :
  Z.pos (digits2_pos p) = Z.log2 (Z.pos p) + 1.
Proof.
  induction p as [p IH|p IH|]; [| | reflexivity];
    cbn [digits2_pos]; rewrite Pos2Z.inj_succ, IH;
    destruct p; cbn [Z.log2 Pos.size]; rewrite ?Pos2Z.inj_succ; lia.
Qed.

Lemma Zdigits2_log2 (n : Z) : 0 < n -> Zdigits2 n = Z.log2 n + 1.
Proof.
  destruct n as [|p|p]; try lia. intros _. apply digits2_pos_log2.
Qed.

Lemma Zdigits2_bounds (n : Z) :
  0 < n -> 2 ^ (Zdigits2 n - 1) <= n < 2 ^ Zdigits2 n.
Proof.
  intros Hn. rewrite (Zdigits2_log2 n Hn).
  replace (Z.log2 n + 1 - 1) with (Z.log2 n) by lia.
  apply (Z.log2_spec n Hn).
Qed.

Lemma Zdigits2_unique (n d : Z) :
  2 ^ (d - 1) <= n < 2 ^ d -> 1 <= d -> Zdigits2 n = d.
Proof.
  intros Hn Hd.
  assert (Hpos : 0 < n) by (pose proof (Z.pow_pos_nonneg 2 (d - 1)); lia).
  rewrite (Zdigits2_log2 n Hpos).
  rewrite (Z.log2_unique n (d - 1)); [lia | lia |].
  now replace (Z.succ (d - 1)) with d by lia.
Qed.

Lemma Zdigits2_pos (n : Z) : 0 < n -> 1 <= Zdigits2 n.
Proof.
  intros Hn. rewrite (Zdigits2_log2 n Hn). pose proof (Z.log2_nonneg n). lia.
Qed.

Lemma Zdigits2_shift (n k : Z) :
  0 < n -> 0 <= k -> Zdigits2 (n * 2 ^ k) = Zdigits2 n + k.
Proof.
  intros Hn Hk.
  assert (0 < 2 ^ k) by (apply Z.pow_pos_nonneg; lia).
  rewrite !Zdigits2_log2 by nia. rewrite Z.log2_mul_pow2 by lia. lia.
Qed.

Lemma Zdigits2_le (n d : Z) : 0 < n -> n < 2 ^ d -> 0 <= d -> Zdigits2 n <= d.
Proof.
  intros Hn Hlt Hd. rewrite (Zdigits2_log2 n Hn).
  assert (Z.log2 n < d) by (apply Z.log2_lt_pow2; lia). lia.
Qed.

Lemma Zdigits2_mul (a b : Z) :
  0 < a -> 0 < b -> Zdigits2 (a * b) <= Zdigits2 a + Zdigits2 b.
Proof.
  intros Ha Hb. rewrite !Zdigits2_log2 by nia.
  pose proof (Z.log2_mul_above a b ltac:(lia) ltac:(lia)). lia.
Qed.

Lemma Zdigits2_mul_below (a b : Z) :
  0 < a -> 0 < b -> Zdigits2 a + Zdigits2 b - 1 <= Zdigits2 (a * b).
Proof.
  intros Ha Hb. rewrite !Zdigits2_log2 by nia.
  pose proof (Z.log2_mul_below a b ltac:(lia) ltac:(lia)). lia.
Qed.

(** Shifting out zero bits loses nothing. *)
Lemma shr_1_double (z : Z) :
  0 <= z ->
  shr_1 {| shr_m := 2 * z; shr_r := false; shr_s := false |} =
  {| shr_m := z; shr_r := false; shr_s := false |}.
Proof. destruct z as [|p|p]; [reflexivity | reflexivity | lia]. Qed.

Lemma iter_pos_shr_exact (p : positive) :
  forall z, 0 <= z ->
  iter_pos shr_1 p {| shr_m := z * 2 ^ Z.pos p; shr_r := false; shr_s := false |} =
  {| shr_m := z; shr_r := false; shr_s := false |}.
Proof.
  induction p as [p IH|p IH|]; intros z Hz; cbn [iter_pos].
  - replace (z * 2 ^ Z.pos p~1) with (2 * (z * 2 ^ Z.pos p * 2 ^ Z.pos p)).
    + rewrite shr_1_double by (apply Z.mul_nonneg_nonneg; [apply Z.mul_nonneg_nonneg|]; try lia; apply Z.pow_nonneg; lia).
      rewrite IH by (apply Z.mul_nonneg_nonneg; try lia; apply Z.pow_nonneg; lia).
      now apply IH.
    + replace (Z.pos p~1) with (Z.pos p + Z.pos p + 1) by lia.
      rewrite !Z.pow_add_r, Z.pow_1_r by lia. ring.
  - replace (z * 2 ^ Z.pos p~0) with (z * 2 ^ Z.pos p * 2 ^ Z.pos p).
    + rewrite IH by (apply Z.mul_nonneg_nonneg; try lia; apply Z.pow_nonneg; lia).
      now apply IH.
    + replace (Z.pos p~0) with (Z.pos p + Z.pos p) by lia.
      rewrite Z.pow_add_r by lia. ring.
  - replace (z * 2 ^ 1) with (2 * z) by lia. now apply shr_1_double.
Qed.

Lemma fexp_small (d : Z) : -1020 <= d -> fexp prec emax d = d - 53.
Proof. unfold fexp, emin, prec, emax. lia. Qed.

(** Rounding a value that needs no rounding: [M * 2^e] with the low
    [t - e] bits of [M] zero, [t] the exponent of its format. *)
Lemma binary_round_aux_exact (s : bool) (M e t : Z) :
  0 < M -> t = fexp prec emax (Zdigits2 M + e) -> e <= t ->
  M mod 2 ^ (t - e) = 0 -> t <= emax - prec ->
  binary_round_aux prec emax s M e loc_Exact =
  S754_finite s (Z.to_pos (M / 2 ^ (t - e))) t.
Proof.
  intros HM Ht Het Hdiv Hmax.
  assert (Hpow : 0 < 2 ^ (t - e)) by (apply Z.pow_pos_nonneg; lia).
  set (M' := M / 2 ^ (t - e)).
  assert (HMM : M = M' * 2 ^ (t - e)).
  { subst M'. pose proof (Z.div_mod M (2 ^ (t - e)) ltac:(lia)). lia. }
  assert (HM' : 0 < M') by nia.
  assert (Hshift : shr_fexp prec emax M e loc_Exact =
                   ({| shr_m := M'; shr_r := false; shr_s := false |}, t)).
  { unfold shr_fexp. rewrite <- Ht. cbn [shr_record_of_loc]. unfold shr.
    destruct (t - e) as [|p|p] eqn:Hn; try lia.
    - f_equal; [| lia]. f_equal. rewrite HMM. cbn. lia.
    - f_equal; [| lia]. rewrite HMM. apply iter_pos_shr_exact. lia. }
  assert (Hstay : shr_fexp prec emax M' t loc_Exact =
                  ({| shr_m := M'; shr_r := false; shr_s := false |}, t)).
  { unfold shr_fexp.
    replace (Zdigits2 M' + t) with (Zdigits2 M + e)
      by (rewrite HMM, Zdigits2_shift by lia; lia).
    rewrite <- Ht, Z.sub_diag. reflexivity. }
  unfold binary_round_aux. rewrite Hshift. cbn [shr_m loc_of_shr_record round_nearest_even].
  rewrite Hstay. cbn [shr_m].
  destruct M' as [|p|p]; try lia.
  replace (t <=? emax - prec) with true by (symmetry; apply Z.leb_le; lia).
  reflexivity.
Qed.

Lemma iter_xO_pow (m d : positive) : Z.pos (Pos.iter xO m d) = Z.pos m * 2 ^ Z.pos d.
Proof.
  induction d as [|d IH] using Pos.peano_ind.
  - cbn [Pos.iter]. lia.
  - rewrite Pos.iter_succ, Pos2Z.inj_xO, IH, Pos2Z.inj_succ, Z.pow_succ_r by lia. ring.
Qed.

Lemma shl_align_value (mx : positive) (ex ez : Z) :
  ez <= ex ->
  shl_align mx ex ez = (Z.to_pos (Z.pos mx * 2 ^ (ex - ez)), ez).
Proof.
  intros Hle. unfold shl_align.
  destruct (ez - ex) as [|d|d] eqn:Hd; try lia.
  - replace (ex - ez) with 0 by lia. rewrite Z.pow_0_r, Z.mul_1_r. cbn [Z.to_pos].
    f_equal. lia.
  - replace (ex - ez) with (Z.pos d) by lia. now rewrite <- iter_xO_pow.
Qed.

(** An integer [n * 2^k] at exponent [-k] is rounded to the number of [n]. *)
Lemma binary_round_aux_int (s : bool) (n k : Z) :
  0 < n < 2 ^ 53 -> 0 <= k -> 53 <= Zdigits2 n + k ->
  binary_round_aux prec emax s (n * 2 ^ k) (- k) loc_Exact = canon s n.
Proof.
  intros Hn Hk Hwide.
  pose proof (Zdigits2_pos n ltac:(lia)) as Hd1.
  pose proof (Zdigits2_le n 53 ltac:(lia) ltac:(lia) ltac:(lia)) as Hd2.
  assert (Hpow : 0 < 2 ^ k) by (apply Z.pow_pos_nonneg; lia).
  rewrite (binary_round_aux_exact s (n * 2 ^ k) (- k) (Zdigits2 n - 53)).
  - unfold canon. f_equal. f_equal.
    replace (Zdigits2 n - 53 - - k) with (k - (53 - Zdigits2 n)) by lia.
    replace (2 ^ k) with (2 ^ (53 - Zdigits2 n) * 2 ^ (k - (53 - Zdigits2 n)))
      by (rewrite <- Z.pow_add_r by lia; f_equal; lia).
    rewrite Z.mul_assoc. apply Z.div_mul.
    apply Z.pow_nonzero; lia.
  - nia.
  - rewrite Zdigits2_shift by lia.
    replace (Zdigits2 n + k + - k) with (Zdigits2 n) by lia.
    symmetry. apply fexp_small. lia.
  - lia.
  - replace (Zdigits2 n - 53 - - k) with (k - (53 - Zdigits2 n)) by lia.
    replace (2 ^ k) with (2 ^ (53 - Zdigits2 n) * 2 ^ (k - (53 - Zdigits2 n)))
      by (rewrite <- Z.pow_add_r by lia; f_equal; lia).
    rewrite Z.mul_assoc. apply Z.mod_mul.
    apply Z.pow_nonzero; lia.
  - unfold emax, prec. lia.
Qed.

Lemma binary_round_int (s : bool) (m : positive) (n k : Z) :
  Z.pos m = n * 2 ^ k -> 0 < n < 2 ^ 53 -> 0 <= k ->
  binary_round prec emax s m (- k) = canon s n.
Proof.
  intros Hm Hn Hk. unfold binary_round.
  pose proof (Zdigits2_pos n ltac:(lia)) as Hd1.
  pose proof (Zdigits2_le n 53 ltac:(lia) ltac:(lia) ltac:(lia)) as Hd2.
  change (Z.pos (digits2_pos m)) with (Zdigits2 (Z.pos m)).
  rewrite Hm, Zdigits2_shift by lia.
  replace (Zdigits2 n + k + - k) with (Zdigits2 n) by lia.
  rewrite fexp_small by lia.
  destruct (Z_lt_le_dec (Zdigits2 n - 53) (- k)) as [Hlt | Hge].
  - rewrite shl_align_value by lia. rewrite Hm.
    replace (n * 2 ^ k * 2 ^ (- k - (Zdigits2 n - 53))) with (n * 2 ^ (53 - Zdigits2 n))
      by (rewrite <- Z.mul_assoc, <- Z.pow_add_r by lia; do 2 f_equal; lia).
    assert (Hpow : 0 < 2 ^ (53 - Zdigits2 n)) by (apply Z.pow_pos_nonneg; lia).
    rewrite Z2Pos.id by nia.
    replace (Zdigits2 n - 53) with (- (53 - Zdigits2 n)) at 1 by lia.
    apply binary_round_aux_int; lia.
  - unfold shl_align.
    destruct (Zdigits2 n - 53 - - k) as [|d|d] eqn:Hd; try lia.
    + rewrite Hm. apply binary_round_aux_int; lia.
    + rewrite Hm. apply binary_round_aux_int; lia.
Qed.

Lemma binary_normalize_int (n k : Z) :
  Z.abs n < 2 ^ 53 -> 0 <= k ->
  binary_normalize prec emax (n * 2 ^ k) (- k) false =
  match n with
  | Z0 => S754_zero false
  | Zpos _ => canon false n
  | Zneg _ => canon true (- n)
  end.
Proof.
  intros Hn Hk.
  assert (Hpow : 0 < 2 ^ k) by (apply Z.pow_pos_nonneg; lia).
  destruct n as [|p|p].
  - reflexivity.
  - destruct (Z.pos p * 2 ^ k) as [|m|m] eqn:Hm; try nia.
    cbn [binary_normalize]. apply binary_round_int; lia.
  - destruct (Z.neg p * 2 ^ k) as [|m|m] eqn:Hm; try nia.
    cbn [binary_normalize]. apply binary_round_int; lia.
Qed.

Lemma ofZ_canon (n : Z) :
  Z.abs n < 2 ^ 53 ->
  ofZ n = match n with
          | Z0 => S754_zero false
          | Zpos _ => canon false n
          | Zneg _ => canon true (- n)
          end.
Proof.
  intros Hn. unfold ofZ.
  pose proof (binary_normalize_int n 0 Hn ltac:(lia)) as Hk.
  rewrite Z.pow_0_r, Z.mul_1_r in Hk. exact Hk.
Qed.

Lemma binary_normalize_scaled (n k : Z) :
  Z.abs n < 2 ^ 53 -> 0 <= k ->
  binary_normalize prec emax (n * 2 ^ k) (- k) false = ofZ n.
Proof. intros Hn Hk. now rewrite binary_normalize_int, ofZ_canon. Qed.

Lemma canon_aligned (a ez : Z) :
  0 < a < 2 ^ 53 -> ez <= Zdigits2 a - 53 ->
  Z.pos (fst (shl_align (Z.to_pos (a * 2 ^ (53 - Zdigits2 a))) (Zdigits2 a - 53) ez)) =
  a * 2 ^ (- ez).
Proof.
  intros Ha Hez.
  pose proof (Zdigits2_pos a ltac:(lia)) as Hd1.
  pose proof (Zdigits2_le a 53 ltac:(lia) ltac:(lia) ltac:(lia)) as Hd2.
  assert (Hp1 : 0 < 2 ^ (53 - Zdigits2 a)) by (apply Z.pow_pos_nonneg; lia).
  assert (Hp2 : 0 < 2 ^ (Zdigits2 a - 53 - ez)) by (apply Z.pow_pos_nonneg; lia).
  rewrite shl_align_value by lia. cbn [fst].
  rewrite (Z2Pos.id (a * _)) by nia. rewrite Z2Pos.id by nia.
  rewrite <- Z.mul_assoc, <- Z.pow_add_r by lia. do 2 f_equal. lia.
Qed.

Lemma SFadd_canon (sa sb : bool) (a b : Z) :
  0 < a < 2 ^ 53 -> 0 < b < 2 ^ 53 ->
  Z.abs (cond_Zopp sa a + cond_Zopp sb b) < 2 ^ 53 ->
  SFadd prec emax (canon sa a) (canon sb b) = ofZ (cond_Zopp sa a + cond_Zopp sb b).
Proof.
  intros Ha Hb Hsum. unfold canon. cbn [SFadd].
  set (ez := Z.min (Zdigits2 a - 53) (Zdigits2 b - 53)).
  pose proof (Zdigits2_le a 53 ltac:(lia) ltac:(lia) ltac:(lia)).
  pose proof (Zdigits2_le b 53 ltac:(lia) ltac:(lia) ltac:(lia)).
  rewrite !canon_aligned by lia.
  replace (cond_Zopp sa (a * 2 ^ (- ez)) + cond_Zopp sb (b * 2 ^ (- ez)))
    with ((cond_Zopp sa a + cond_Zopp sb b) * 2 ^ (- ez))
    by (destruct sa, sb; cbn [cond_Zopp]; ring).
  replace ez with (- (- ez)) at 2 by lia.
  apply binary_normalize_scaled; lia.
Qed.

Lemma SFsub_canon (sa sb : bool) (a b : Z) :
  0 < a < 2 ^ 53 -> 0 < b < 2 ^ 53 ->
  Z.abs (cond_Zopp sa a - cond_Zopp sb b) < 2 ^ 53 ->
  SFsub prec emax (canon sa a) (canon sb b) = ofZ (cond_Zopp sa a - cond_Zopp sb b).
Proof.
  intros Ha Hb Hsum. unfold canon. cbn [SFsub].
  set (ez := Z.min (Zdigits2 a - 53) (Zdigits2 b - 53)).
  pose proof (Zdigits2_le a 53 ltac:(lia) ltac:(lia) ltac:(lia)).
  pose proof (Zdigits2_le b 53 ltac:(lia) ltac:(lia) ltac:(lia)).
  rewrite !canon_aligned by lia.
  replace (cond_Zopp sa (a * 2 ^ (- ez)) - cond_Zopp sb (b * 2 ^ (- ez)))
    with ((cond_Zopp sa a - cond_Zopp sb b) * 2 ^ (- ez))
    by (destruct sa, sb; cbn [cond_Zopp]; ring).
  replace ez with (- (- ez)) at 2 by lia.
  apply binary_normalize_scaled; lia.
Qed.

(** Sums and differences of integers are exact while they stay below
    [2^53]. *)
Lemma nadd_ofZ (a b : Z) :
  Z.abs a < 2 ^ 53 -> Z.abs b < 2 ^ 53 -> Z.abs (a + b) < 2 ^ 53 ->
  nadd (ofZ a) (ofZ b) = ofZ (a + b).
Proof.
  intros Ha Hb Hab. unfold nadd.
  rewrite (ofZ_canon a Ha), (ofZ_canon b Hb).
  destruct a as [|p|p], b as [|q|q]; try reflexivity.
  - rewrite Z.add_0_l. cbn [SFadd canon]. now rewrite (ofZ_canon (Z.pos q)).
  - rewrite Z.add_0_l. cbn [SFadd canon]. now rewrite (ofZ_canon (Z.neg q)).
  - rewrite Z.add_0_r. cbn [SFadd canon]. now rewrite (ofZ_canon (Z.pos p)).
  - apply (SFadd_canon false false); cbn [cond_Zopp]; lia.
  - apply (SFadd_canon false true (Z.pos p) (- Z.neg q)); cbn [cond_Zopp]; lia.
  - rewrite Z.add_0_r. cbn [SFadd canon]. now rewrite (ofZ_canon (Z.neg p)).
  - apply (SFadd_canon true false (- Z.neg p) (Z.pos q)); cbn [cond_Zopp]; lia.
  - replace (Z.neg p + Z.neg q) with (cond_Zopp true (- Z.neg p) + cond_Zopp true (- Z.neg q))
      by (cbn [cond_Zopp]; lia).
    apply (SFadd_canon true true); cbn [cond_Zopp]; lia.
Qed.

Lemma nsub_ofZ (a b : Z) :
  Z.abs a < 2 ^ 53 -> Z.abs b < 2 ^ 53 -> Z.abs (a - b) < 2 ^ 53 ->
  nsub (ofZ a) (ofZ b) = ofZ (a - b).
Proof.
  intros Ha Hb Hab. unfold nsub.
  rewrite (ofZ_canon a Ha), (ofZ_canon b Hb).
  destruct a as [|p|p], b as [|q|q]; try reflexivity.
  - change (0 - Z.pos q) with (Z.neg q). cbn [SFsub canon Z.opp negb].
    now rewrite (ofZ_canon (Z.neg q)).
  - change (0 - Z.neg q) with (Z.pos q). cbn [SFsub canon Z.opp negb].
    now rewrite (ofZ_canon (Z.pos q)).
  - rewrite Z.sub_0_r. cbn [SFsub canon]. now rewrite (ofZ_canon (Z.pos p)).
  - apply (SFsub_canon false false); cbn [cond_Zopp]; lia.
  - apply (SFsub_canon false true (Z.pos p) (- Z.neg q)); cbn [cond_Zopp]; lia.
  - rewrite Z.sub_0_r. cbn [SFsub canon]. now rewrite (ofZ_canon (Z.neg p)).
  - apply (SFsub_canon true false (- Z.neg p) (Z.pos q)); cbn [cond_Zopp]; lia.
  - replace (Z.neg p - Z.neg q) with (cond_Zopp true (- Z.neg p) - cond_Zopp true (- Z.neg q))
      by (cbn [cond_Zopp]; lia).
    apply (SFsub_canon true true); cbn [cond_Zopp]; lia.
Qed.

Lemma canon_digits (n : Z) :
  0 < n < 2 ^ 53 -> Zdigits2 (n * 2 ^ (53 - Zdigits2 n)) = 53.
Proof.
  intros Hn.
  pose proof (Zdigits2_le n 53 ltac:(lia) ltac:(lia) ltac:(lia)).
  rewrite Zdigits2_shift by lia. lia.
Qed.

(** A quotient of integers that comes out even is exact. *)
Lemma SFdiv_canon (s : bool) (q b : Z) :
  0 < q -> 0 < b -> q * b < 2 ^ 53 ->
  SFdiv prec emax (canon s (q * b)) (canon false b) = canon s q.
Proof.
  intros Hq Hb Hqb.
  assert (Hq53 : q < 2 ^ 53) by nia.
  assert (Hb53 : b < 2 ^ 53) by nia.
  pose proof (Zdigits2_pos q Hq) as Hdq.
  pose proof (Zdigits2_pos b Hb) as Hdb.
  pose proof (Zdigits2_le (q * b) 53 ltac:(nia) ltac:(lia) ltac:(lia)) as Hd1.
  pose proof (Zdigits2_le b 53 ltac:(lia) ltac:(lia) ltac:(lia)) as Hd2.
  pose proof (Zdigits2_le q 53 ltac:(lia) ltac:(lia) ltac:(lia)) as Hd3.
  pose proof (Zdigits2_mul q b Hq Hb) as Hmul.
  pose proof (Zdigits2_mul_below q b Hq Hb) as Hmulb.
  set (d1 := Zdigits2 (q * b)) in *. set (d2 := Zdigits2 b) in *.
  assert (Hp1 : 0 < 2 ^ (53 - d1)) by (apply Z.pow_pos_nonneg; lia).
  assert (Hp2 : 0 < 2 ^ (53 - d2)) by (apply Z.pow_pos_nonneg; lia).
  unfold canon at 1 2. fold d1 d2. cbn [SFdiv].
  assert (Hcore : SFdiv_core_binary prec emax
            (Z.pos (Z.to_pos (q * b * 2 ^ (53 - d1)))) (d1 - 53)
            (Z.pos (Z.to_pos (b * 2 ^ (53 - d2)))) (d2 - 53) =
          (q * 2 ^ (53 - d1 + d2), - (53 - d1 + d2), loc_Exact)).
  { unfold SFdiv_core_binary. rewrite !Z2Pos.id by nia.
    subst d1 d2. rewrite !canon_digits by nia.
    set (d1 := Zdigits2 (q * b)) in *. set (d2 := Zdigits2 b) in *.
    replace (53 + (d1 - 53) - (53 + (d2 - 53))) with (d1 - d2) by lia.
    rewrite fexp_small by lia.
    replace (Z.min (d1 - d2 - 53) (d1 - 53 - (d2 - 53))) with (d1 - d2 - 53) by lia.
    replace (d1 - 53 - (d2 - 53) - (d1 - d2 - 53)) with 53 by lia.
    cbv iota. rewrite Z.shiftl_mul_pow2 by lia.
    replace (q * b * 2 ^ (53 - d1) * 2 ^ 53)
      with (q * 2 ^ (53 - d1 + d2) * (b * 2 ^ (53 - d2))).
    - unfold Z.div_eucl at 1.
      pose proof (Z.div_eucl_eq (q * 2 ^ (53 - d1 + d2) * (b * 2 ^ (53 - d2)))
                    (b * 2 ^ (53 - d2)) ltac:(nia)) as Heq.
      pose proof (Z.mod_mul (q * 2 ^ (53 - d1 + d2)) (b * 2 ^ (53 - d2)) ltac:(nia)) as Hmod.
      pose proof (Z.div_mul (q * 2 ^ (53 - d1 + d2)) (b * 2 ^ (53 - d2)) ltac:(nia)) as Hdiv.
      unfold Z.modulo in Hmod. unfold Z.div in Hdiv.
      fold (Z.div_eucl (q * 2 ^ (53 - d1 + d2) * (b * 2 ^ (53 - d2))) (b * 2 ^ (53 - d2))).
      destruct (Z.div_eucl _ _) as [qq rr]. subst qq rr.
      replace (d1 - d2 - 53) with (- (53 - d1 + d2)) by lia.
      f_equal. unfold new_location. destruct (Z.even _); reflexivity.
    - replace (2 ^ (53 - d1 + d2)) with (2 ^ (53 - d1) * 2 ^ d2)
        by (rewrite <- Z.pow_add_r by lia; f_equal; lia).
      replace (2 ^ 53) with (2 ^ d2 * 2 ^ (53 - d2))
        by (rewrite <- Z.pow_add_r by lia; f_equal; lia).
      ring. }
  rewrite Hcore. rewrite xorb_false_r.
  apply binary_round_aux_int; lia.
Qed.

Lemma ndiv_ofZ (q b : Z) :
  0 < b < 2 ^ 53 -> Z.abs (q * b) < 2 ^ 53 -> ndiv (ofZ (q * b)) (ofZ b) = ofZ q.
Proof.
  intros Hb Hqb. unfold ndiv.
  assert (Hq : Z.abs q < 2 ^ 53) by nia.
  rewrite (ofZ_canon (q * b) Hqb), (ofZ_canon b ltac:(lia)), (ofZ_canon q Hq).
  destruct b as [|pb|pb]; try lia.
  destruct q as [|pq|pq].
  - reflexivity.
  - change (Z.pos pq * Z.pos pb) with (Z.pos (pq * pb)).
    cbv iota. rewrite Pos2Z.inj_mul. apply SFdiv_canon; lia.
  - change (Z.neg pq * Z.pos pb) with (Z.neg (pq * pb)).
    cbv iota. change (- Z.neg (pq * pb)) with (Z.pos (pq * pb)).
    rewrite Pos2Z.inj_mul. apply (SFdiv_canon true (Z.pos pq) (Z.pos pb)); lia.
Qed.

(** ** Numeric literals *)

Lemma takeDigits_spec (s : string) :
  forall acc cnt v n r, takeDigits acc cnt s = (v, n, r) ->
  exists ds, s = ds ++ r /\ allOf isDigit ds = true /\
             n = (cnt + String.length ds)%nat.
Proof.
  induction s as [|c s IH]; intros acc cnt v n r; cbn [takeDigits].
  - intros Ht. injection Ht as <- <- <-. exists "". repeat split. cbn. lia.
  - destruct (isDigit c) eqn:Hc.
    + intros Ht. destruct (IH _ _ _ _ _ Ht) as (ds & -> & Hall & ->).
      exists (String c ds). repeat split.
      * unfold allOf. cbn [list_ascii_of_string forallb]. now rewrite Hc.
      * cbn [String.length]. lia.
    + intros Ht. injection Ht as <- <- <-. exists "". repeat split. cbn. lia.
Qed.

Lemma takeDigits_digits (s : string) (v : Z) (n : nat) (r : string) :
  takeDigits 0 0 s = (v, S n, r) -> exists ds, s = ds ++ r /\ DecimalDigits ds.
Proof.
  intros Ht. destruct (takeDigits_spec _ _ _ _ _ _ Ht) as (ds & Hs & Hall & Hn).
  exists ds. split; [exact Hs |]. split; [| exact Hall].
  intros ->. discriminate.
Qed.

Lemma radixDigits_spec (base : Z) (s : string) :
  forall acc v, radixDigits base acc s = Some v -> allOf (digitOfBase base) s = true.
Proof.
  induction s as [|c s IH]; intros acc v; cbn [radixDigits]; [reflexivity |].
  unfold allOf. cbn [list_ascii_of_string forallb]. unfold digitOfBase at 1.
  destruct (hexVal c) as [d|]; [| discriminate].
  destruct (d <? base); [| discriminate].
  intros Hr. exact (IH _ _ Hr).
Qed.

Lemma exponentPart_spec (s : string) (e : Z) :
  exponentPart s = Some e -> optionally ExponentPart s.
Proof.
  unfold exponentPart. destruct s as [|c s]; [now left |].
  destruct (dropOne ["e"; "E"] (String c s)) as [s'|] eqn:Hind; [| discriminate].
  destruct (dropOne_some _ _ _ Hind) as (ind & Hin & Hs).
  assert (Hsign : exists sign digits,
            s' = sign ++ digits /\ (sign = "" \/ sign = "+" \/ sign = "-") /\
            match dropPrefix "+" s' with
            | Some r => (1, r)
            | None => match dropPrefix "-" s' with
                      | Some r => (-1, r)
                      | None => (1, s')
                      end
            end = (if String.eqb sign "-" then -1 else 1, digits)).
  { destruct (dropPrefix "+" s') as [r|] eqn:Hp.
    - exists "+", r. apply dropPrefix_some in Hp. auto.
    - destruct (dropPrefix "-" s') as [r|] eqn:Hm.
      + exists "-", r. apply dropPrefix_some in Hm. auto.
      + exists "", s'. auto. }
  destruct Hsign as (sign & digits & Hs' & Hsg & ->).
  destruct (takeDigits 0 0 digits) as [[v n] r] eqn:Ht.
  destruct n as [|n]; [discriminate |]. destruct r as [|x r]; [| discriminate].
  intros _. right. exists ind, sign, digits.
  destruct (takeDigits_digits _ _ _ _ Ht) as (ds & Hds & Hdd).
  rewrite Hs, Hs'. split; [reflexivity |]. split.
  - destruct Hin as [<- | [<- | []]]; auto.
  - split; [exact Hsg |]. rewrite Hds.
    replace (ds ++ "") with ds; [exact Hdd |].
    clear. induction ds as [|c ds IH]; [reflexivity |]. cbn. now rewrite <- IH.
Qed.

Lemma unsignedDecimal_spec (u : string) (m e : Z) :
  unsignedDecimal u = Some (m, e) -> StrUnsignedDecimalLiteral u.
Proof.
  unfold unsignedDecimal.
  destruct (takeDigits 0 0 u) as [[ip ni] r1] eqn:Hi.
  destruct (takeDigits_spec _ _ _ _ _ _ Hi) as (a & Hu & Ha & Hni).
  destruct (dropPrefix "." r1) as [r|] eqn:Hdot.
  - apply dropPrefix_some in Hdot.
    destruct (takeDigits ip 0 r) as [[m' nf] r2] eqn:Hf.
    destruct (takeDigits_spec _ _ _ _ _ _ Hf) as (b & Hr & Hb & Hnf).
    destruct (ni + nf)%nat eqn:Hn; [discriminate |].
    destruct (exponentPart r2) as [e'|] eqn:He; [| discriminate].
    intros _. apply exponentPart_spec in He. right.
    destruct a as [|c a].
    + right. left. exists b, r2. rewrite Hu, Hdot, Hr. split; [reflexivity |].
      split; [| exact He]. split; [| exact Hb].
      intros ->. cbn in Hni, Hnf. lia.
    + left. exists (String c a), b, r2. rewrite Hu, Hdot, Hr.
      split; [reflexivity |]. split; [split; [discriminate | exact Ha] |].
      split; [| exact He].
      destruct b as [|d b]; [now left | right; split; [discriminate | exact Hb]].
  - destruct (ni + 0)%nat eqn:Hn; [discriminate |].
    destruct (exponentPart r1) as [e'|] eqn:He; [| discriminate].
    intros _. apply exponentPart_spec in He. right. right. right.
    exists a, r1. split; [exact Hu |]. split; [| exact He].
    split; [| exact Ha]. intros ->. cbn in Hni. lia.
Qed.

Lemma radixLiteral_spec (base : Z) (r : string) :
  radixLiteral base r = NaN \/ (r <> "" /\ allOf (digitOfBase base) r = true).
Proof.
  unfold radixLiteral. destruct r as [|c r]; [now left |].
  destruct (radixDigits base 0 (String c r)) as [v|] eqn:Hr; [| now left].
  right. split; [discriminate | exact (radixDigits_spec _ _ _ _ Hr)].
Qed.

Lemma nonDecimal_spec (t : string) (x : number) :
  nonDecimal t = Some x -> x = NaN \/ NonDecimalIntegerLiteral t.
Proof.
  unfold nonDecimal.
  destruct (dropOne ["0x"; "0X"] t) as [r|] eqn:H16.
  { intros Hx. injection Hx as <-. destruct (dropOne_some _ _ _ H16) as (w & Hin & ->).
    destruct (radixLiteral_spec 16 r) as [-> | [Hne Hall]]; [now left | right].
    exists w, r, 16. repeat split; try assumption. left. split; [reflexivity |].
    destruct Hin as [<- | [<- | []]]; auto. }
  destruct (dropOne ["0o"; "0O"] t) as [r|] eqn:H8.
  { intros Hx. injection Hx as <-. destruct (dropOne_some _ _ _ H8) as (w & Hin & ->).
    destruct (radixLiteral_spec 8 r) as [-> | [Hne Hall]]; [now left | right].
    exists w, r, 8. repeat split; try assumption. right. left. split; [reflexivity |].
    destruct Hin as [<- | [<- | []]]; auto. }
  destruct (dropOne ["0b"; "0B"] t) as [r|] eqn:H2; [| discriminate].
  intros Hx. injection Hx as <-. destruct (dropOne_some _ _ _ H2) as (w & Hin & ->).
  destruct (radixLiteral_spec 2 r) as [-> | [Hne Hall]]; [now left | right].
  exists w, r, 2. repeat split; try assumption. right. right. split; [reflexivity |].
  destruct Hin as [<- | [<- | []]]; auto.
Qed.

(** A text that is not a numeric literal reads as NaN. *)
Lemma Number_not_literal (c : string) :
  trim c <> "" -> ~ StrNumericLiteral (trim c) -> Number c = NaN.
Proof.
  intros Hne Hnot. unfold Number.
  destruct (trim c) as [|a t] eqn:Ht; [contradiction |].
  destruct (nonDecimal (String a t)) as [x|] eqn:Hnd.
  { destruct (nonDecimal_spec _ _ Hnd) as [-> | Hlit]; [reflexivity |].
    exfalso. apply Hnot. now right. }
  assert (Hsign : exists sign u negative,
            String a t = sign ++ u /\ (sign = "" \/ sign = "+" \/ sign = "-") /\
            match dropPrefix "-" (String a t) with
            | Some r => (true, r)
            | None => match dropPrefix "+" (String a t) with
                      | Some r => (false, r)
                      | None => (false, String a t)
                      end
            end = (negative, u)).
  { destruct (dropPrefix "-" (String a t)) as [r|] eqn:Hm.
    - exists "-", r, true. apply dropPrefix_some in Hm. auto.
    - destruct (dropPrefix "+" (String a t)) as [r|] eqn:Hp.
      + exists "+", r, false. apply dropPrefix_some in Hp. auto.
      + exists "", (String a t), false. auto. }
  destruct Hsign as (sign & u & negative & Hs & Hsg & ->).
  destruct (String.eqb_spec u "Infinity") as [-> | Hinf].
  { exfalso. apply Hnot. left. exists sign, "Infinity". repeat split; auto. now left. }
  destruct (unsignedDecimal u) as [[m e]|] eqn:Hu; [| reflexivity].
  exfalso. apply Hnot. left. exists sign, u. repeat split; auto.
  exact (unsignedDecimal_spec _ _ _ Hu).
Qed.

(** ** [toFixed(1)] *)

(** [tenths m e] is the integer nearest to ten times [m * 2^e], the
    larger one of two: with the value written as the fraction [N / D],
    [n - 1/2 <= 10 N / D < n + 1/2]. *)
Lemma tenths_nearest (m : positive) (e : Z) :
  let n := tenths m e in
  2 ^ Z.max 0 (- e) * (2 * n - 1) <= 20 * (Z.pos m * 2 ^ Z.max 0 e)
    < 2 ^ Z.max 0 (- e) * (2 * n + 1).
Proof.
  cbv zeta. unfold tenths. destruct (Z.leb_spec 0 e) as [He | He].
  - rewrite (Z.max_r 0 e), (Z.max_l 0 (- e)) by lia.
    rewrite Z.pow_0_r. lia.
  - rewrite (Z.max_l 0 e), (Z.max_r 0 (- e)) by lia.
    rewrite Z.pow_0_r, Z.mul_1_r.
    assert (Hp : 0 < 2 ^ (- e)) by (apply Z.pow_pos_nonneg; lia).
    pose proof (Z.div_mod (20 * Z.pos m + 2 ^ (- e)) (2 * 2 ^ (- e)) ltac:(lia)).
    pose proof (Z.mod_pos_bound (20 * Z.pos m + 2 ^ (- e)) (2 * 2 ^ (- e)) ltac:(lia)).
    set (n := (20 * Z.pos m + 2 ^ (- e)) / (2 * 2 ^ (- e))) in *.
    nia.
Qed.

Lemma toFixed1_tenths (s : bool) (m : positive) (e : Z) :
  Z.pos m * 2 ^ Z.max 0 e < 10 ^ 21 * 2 ^ Z.max 0 (- e) ->
  toFixed1 (S754_finite s m e) =
  (if s then "-" else "") ++
  decimal (tenths m e / 10) ++ "." ++ decimal (tenths m e mod 10).
Proof.
  intros Hlt. unfold toFixed1.
  replace (atLeast1e21 m e) with false; [reflexivity |].
  symmetry. unfold atLeast1e21. destruct (Z.leb_spec 0 e) as [He | He].
  - rewrite (Z.max_r 0 e), (Z.max_l 0 (- e)), Z.pow_0_r in Hlt by lia.
    apply Z.leb_gt. lia.
  - rewrite (Z.max_l 0 e), (Z.max_r 0 (- e)), Z.pow_0_r in Hlt by lia.
    apply Z.leb_gt. lia.
Qed.

(** ** The summary *)

Lemma cellNumber_cellValue (r : row) (i : nat) : cellNumber r i = cellValue r i.
Proof.
  unfold cellNumber, cellValue. destruct (nth_error r i) as [[|a c]|]; reflexivity.
Qed.

Lemma fold_nadd_column (i : nat) (logs : list row) (acc : number) :
  fold_left nadd (map (fun r => cellValue r i) logs) acc =
  fold_left (fun t r => nadd t (cellNumber r i)) logs acc.
Proof.
  revert acc; induction logs as [|r logs IH]; intros acc; [reflexivity |].
  cbn [map fold_left]. now rewrite IH, cellNumber_cellValue.
Qed.

(** The nine totals of the loop are the sums of the columns 5 to 13. *)
Lemma sumRows_columns (logs : list row) :
  sumRows logs =
  {| kcal := columnTotal 5 logs; protein := columnTotal 6 logs;
     fat := columnTotal 7 logs; carbs := columnTotal 8 logs;
     vitaminB6 := columnTotal 9 logs; vitaminD := columnTotal 10 logs;
     magnesium := columnTotal 11 logs; iron := columnTotal 12 logs;
     zinc := columnTotal 13 logs |}.
Proof.
  unfold sumRows, columnTotal. rewrite !fold_nadd_column.
  change (ofZ 0) with (kcal zeroTotals) at 1.
  change (ofZ 0) with (protein zeroTotals) at 1.
  change (ofZ 0) with (fat zeroTotals) at 1.
  change (ofZ 0) with (carbs zeroTotals) at 1.
  change (ofZ 0) with (vitaminB6 zeroTotals) at 1.
  change (ofZ 0) with (vitaminD zeroTotals) at 1.
  change (ofZ 0) with (magnesium zeroTotals) at 1.
  change (ofZ 0) with (iron zeroTotals) at 1.
  change (ofZ 0) with (zinc zeroTotals) at 1.
  generalize zeroTotals as t.
  induction logs as [|r logs IH]; intros t.
  - destruct t. reflexivity.
  - cbn [fold_left]. rewrite IH. reflexivity.
Qed.

(** The text of the source is the report of the specification. *)
Lemma summaryText_report (start end_ : string) (logs : list row) (days : number) :
  summaryText start end_ (sumRows logs) days = reportText start end_ logs days.
Proof. rewrite sumRows_columns. reflexivity. Qed.

(** NaN absorbs. *)
Lemma nadd_NaN_l (x : number) : nadd NaN x = NaN.
Proof. reflexivity. Qed.

Lemma nadd_NaN_r (x : number) : nadd x NaN = NaN.
Proof. now destruct x. Qed.

Lemma ndiv_NaN_l (x : number) : ndiv NaN x = NaN.
Proof. reflexivity. Qed.

Lemma ndiv_NaN_r (x : number) : ndiv x NaN = NaN.
Proof. now destruct x. Qed.

Lemma fold_nadd_NaN (l : list number) : fold_left nadd l NaN = NaN.
Proof. induction l as [|x l IH]; [reflexivity |]. cbn [fold_left]. exact IH. Qed.

Lemma fold_nadd_with_NaN (l : list number) :
  In NaN l -> forall acc, fold_left nadd l acc = NaN.
Proof.
  induction l as [|x l IH]; intros Hin acc; [contradiction |].
  cbn [fold_left]. destruct Hin as [-> | Hin].
  - rewrite nadd_NaN_r. apply fold_nadd_NaN.
  - now apply IH.
Qed.

(** One cell that reads as NaN makes the total of its column NaN. *)
Lemma columnTotal_NaN (i : nat) (logs : list row) (r : row) :
  In r logs -> cellValue r i = NaN -> columnTotal i logs = NaN.
Proof.
  intros Hin Hnan. unfold columnTotal. apply fold_nadd_with_NaN.
  rewrite <- Hnan. now apply (in_map (fun r => cellValue r i)).
Qed.

(** *** ISO dates read back *)

Lemma nat_of_digit (n : Z) :
  nat_of_ascii (digitChar n) = (48 + Z.to_nat (n mod 10))%nat.
Proof.
  unfold digitChar. apply nat_ascii_embedding.
  pose proof (Z.mod_pos_bound n 10). lia.
Qed.

Lemma isDigit_digitChar (n : Z) : isDigit (digitChar n) = true.
Proof.
  unfold isDigit. rewrite nat_of_digit. pose proof (Z.mod_pos_bound n 10).
  apply andb_true_iff. split; apply Nat.leb_le; lia.
Qed.

Lemma digitVal_digitChar (n : Z) : digitVal (digitChar n) = n mod 10.
Proof.
  unfold digitVal. rewrite nat_of_digit. pose proof (Z.mod_pos_bound n 10). lia.
Qed.

Lemma decimal4 (y : Z) :
  0 <= y <= 9999 ->
  1000 * ((y / 1000) mod 10) + 100 * ((y / 100) mod 10) + 10 * ((y / 10) mod 10)
  + y mod 10 = y.
Proof.
  intros Hy.
  pose proof (Z.div_mod y 10 ltac:(lia)).
  pose proof (Z.div_mod (y / 10) 10 ltac:(lia)).
  pose proof (Z.div_mod (y / 10 / 10) 10 ltac:(lia)).
  pose proof (Z.mod_pos_bound y 10 ltac:(lia)).
  pose proof (Z.mod_pos_bound (y / 10) 10 ltac:(lia)).
  pose proof (Z.mod_pos_bound (y / 10 / 10) 10 ltac:(lia)).
  replace (y / 100) with (y / 10 / 10) by (rewrite Z.div_div by lia; reflexivity).
  replace (y / 1000) with (y / 10 / 10 / 10)
    by (rewrite !Z.div_div by lia; reflexivity).
  assert (y / 10 / 10 / 10 < 10).
  { apply Z.div_lt_upper_bound; [lia |]. apply Z.div_lt_upper_bound; [lia |].
    apply Z.div_lt_upper_bound; lia. }
  assert (0 <= y / 10 / 10 / 10) by (repeat apply Z.div_pos; lia).
  rewrite (Z.mod_small (y / 10 / 10 / 10) 10) by lia. lia.
Qed.

Lemma decimal2 (m : Z) : 0 <= m <= 99 -> 10 * ((m / 10) mod 10) + m mod 10 = m.
Proof.
  intros Hm.
  pose proof (Z.div_mod m 10 ltac:(lia)).
  assert (0 <= m / 10 < 10).
  { split; [apply Z.div_pos; lia | apply Z.div_lt_upper_bound; lia]. }
  rewrite (Z.mod_small (m / 10) 10) by lia. lia.
Qed.

(** The date string of a day in the years 0 to 9999 is read back as the
    midnight that starts the day. *)
Lemma parseIsoDate_isoDateOfDay (d : Z) :
  0 <= fst (fst (civilFromDays d)) <= 9999 ->
  parseIsoDate (isoDateOfDay d) = Some (ofZ (d * msPerDay)).
Proof.
  intros Hy. unfold isoDateOfDay.
  pose proof (civilFromDays_eta d) as Hc.
  destruct (civilFromDays_range d _ _ _ Hc) as [Hm Hd].
  pose proof (MakeDay_sameMonth d _ _ _ (snd (civilFromDays d)) Hc) as Hday.
  destruct (civilFromDays d) as [[y m] dd]. cbn [fst snd] in *.
  unfold isoYear.
  replace ((0 <=? y) && (y <=? 9999)) with true
    by (symmetry; apply andb_true_iff; split; apply Z.leb_le; lia).
  unfold pad4, pad2. cbn [String.append parseIsoDate forallb].
  rewrite !isDigit_digitChar, !digitVal_digitChar. cbn [andb].
  rewrite (decimal4 y Hy), (decimal2 m ltac:(lia)), (decimal2 dd ltac:(lia)).
  replace ((1 <=? m) && (m <=? 12) && (1 <=? dd) && (dd <=? 31)) with true.
  - rewrite Hday. unfold MakeDate. do 2 f_equal. lia.
  - symmetry. rewrite !andb_true_iff, !Z.leb_le. lia.
Qed.

Section SummaryProps.
Context `{Host}.

Lemma Date_parse_isoDateOfDay (d : Z) :
  0 <= fst (fst (civilFromDays d)) <= 9999 ->
  Date_parse (isoDateOfDay d) = ofZ (d * msPerDay).
Proof.
  intros Hy. unfold Date_parse. now rewrite parseIsoDate_isoDateOfDay.
Qed.

(** The number of days of a range of ISO dates. *)
Lemma daysOfRange_iso (ds de : Z) :
  0 <= fst (fst (civilFromDays ds)) <= 9999 ->
  0 <= fst (fst (civilFromDays de)) <= 9999 ->
  daysOfRange (isoDateOfDay ds) (isoDateOfDay de) = ofZ (de - ds + 1).
Proof.
  intros Hs He. unfold daysOfRange.
  rewrite (Date_parse_isoDateOfDay ds Hs), (Date_parse_isoDateOfDay de He).
  pose proof (day_of_year_bounds ds Hs). pose proof (day_of_year_bounds de He).
  change (2 ^ 53) with 9007199254740992 in *.
  rewrite nsub_ofZ by (unfold msPerDay; change (2 ^ 53) with 9007199254740992; lia).
  replace (de * msPerDay - ds * msPerDay) with ((de - ds) * msPerDay) by lia.
  rewrite ndiv_ofZ by (unfold msPerDay; change (2 ^ 53) with 9007199254740992; lia).
  apply nadd_ofZ; change (2 ^ 53) with 9007199254740992; lia.
Qed.

End SummaryProps.

(** ** The order of strings and [sort] *)

Lemma unitsLeb_refl (a : list Z) : unitsLeb a a = true.
Proof.
  induction a as [|x a IH]; [reflexivity |]. cbn [unitsLeb].
  rewrite Z.ltb_irrefl, Z.eqb_refl. exact IH.
Qed.

Lemma unitsLeb_total (a b : list Z) : unitsLeb a b = true \/ unitsLeb b a = true.
Proof.
  revert b; induction a as [|x a IH]; intros [|y b]; cbn [unitsLeb]; auto.
  destruct (Z.ltb_spec x y); [now left |].
  destruct (Z.ltb_spec y x); [now right |].
  replace (x =? y) with true by (symmetry; apply Z.eqb_eq; lia).
  replace (y =? x) with true by (symmetry; apply Z.eqb_eq; lia).
  apply IH.
Qed.

Lemma unitsLeb_trans (a b c : list Z) :
  unitsLeb a b = true -> unitsLeb b c = true -> unitsLeb a c = true.
Proof.
  revert b c; induction a as [|x a IH]; intros [|y b] [|z c]; cbn [unitsLeb];
    try reflexivity; try discriminate.
  destruct (Z.ltb_spec x y) as [Hxy | Hxy];
  destruct (Z.ltb_spec y z) as [Hyz | Hyz];
  destruct (Z.eqb_spec x y) as [Exy | Exy];
  destruct (Z.eqb_spec y z) as [Eyz | Eyz];
  try discriminate; intros H1 H2;
  destruct (Z.ltb_spec x z) as [Hxz | Hxz];
  try reflexivity; try lia.
  replace (x =? z) with true by (symmetry; apply Z.eqb_eq; lia).
  exact (IH b c H1 H2).
Qed.

Lemma strLeb_refl (a : string) : strLeb a a = true.
Proof. apply unitsLeb_refl. Qed.

Lemma strLeb_total (a b : string) : strLeb a b = true \/ strLeb b a = true.
Proof. apply unitsLeb_total. Qed.

Lemma strLeb_trans (a b c : string) :
  strLeb a b = true -> strLeb b c = true -> strLeb a c = true.
Proof. apply unitsLeb_trans. Qed.

(** Code units, not code points: an emoji (U+1F600, units D83D DE00)
    comes before the full-width digit U+FF13 and after the ideograph
    U+4E00. *)
Example strLeb_code_units :
  strLeb "😀" "３月" = true /\ strLeb "３月" "😀" = false /\
  strLeb "一" "😀" = true /\ strLeb "2024-03-10" "2024-03-9" = true /\
  strLeb "Z" "a" = true /\ strLeb "" "a" = true /\ strLeb "ab" "a" = false /\
  sortStrings ["３月"; "😀"; "2024-03-10"] = ["2024-03-10"; "😀"; "３月"].
Proof. vm_compute. repeat split. Qed.

Lemma insertSorted_In (x y : string) (l : list string) :
  In y (insertSorted x l) <-> y = x \/ In y l.
Proof.
  induction l as [|z l IH]; cbn [insertSorted In].
  - intuition.
  - destruct (strLeb x z); cbn [In]; rewrite ?IH; intuition.
Qed.

Lemma sortStrings_In (x : string) (l : list string) :
  In x (sortStrings l) <-> In x l.
Proof.
  induction l as [|y l IH]; [reflexivity |].
  cbn [sortStrings fold_right]. fold (sortStrings l).
  rewrite insertSorted_In, IH. cbn [In]. intuition.
Qed.

Lemma insertSorted_sorted (x : string) (l : list string) :
  StronglySorted strLe l -> StronglySorted strLe (insertSorted x l).
Proof.
  induction 1 as [|y l Hs IH Hall]; cbn [insertSorted].
  - constructor; constructor.
  - destruct (strLeb x y) eqn:Hxy.
    + constructor; [constructor; assumption |].
      constructor; [exact Hxy |].
      apply Forall_forall. intros z Hz. rewrite Forall_forall in Hall.
      exact (strLeb_trans _ _ _ Hxy (Hall z Hz)).
    + constructor; [assumption |].
      apply Forall_forall. intros z Hz. apply insertSorted_In in Hz.
      destruct Hz as [-> | Hz].
      * destruct (strLeb_total x y) as [H1 | H1]; [congruence | exact H1].
      * rewrite Forall_forall in Hall. now apply Hall.
Qed.

Lemma sortStrings_sorted (l : list string) : StronglySorted strLe (sortStrings l).
Proof.
  induction l as [|x l IH]; [constructor |].
  cbn [sortStrings fold_right]. now apply insertSorted_sorted.
Qed.

Lemma sorted_hd_least (l : list string) :
  StronglySorted strLe l -> forall x, In x l -> strLe (hd "" l) x.
Proof.
  intros Hs x Hx. destruct Hs as [|y l Hs Hall]; [contradiction |].
  cbn [hd]. destruct Hx as [<- | Hx]; [apply strLeb_refl |].
  rewrite Forall_forall in Hall. now apply Hall.
Qed.

Lemma sorted_last_greatest (l : list string) :
  StronglySorted strLe l -> forall x, In x l -> strLe x (last l "").
Proof.
  induction 1 as [|y l Hs IH Hall]; intros x Hx; [contradiction |].
  destruct l as [|z l].
  - destruct Hx as [<- | []]. apply strLeb_refl.
  - change (last (y :: z :: l) "") with (last (z :: l) "").
    destruct Hx as [<- | Hx]; [| now apply IH].
    rewrite Forall_forall in Hall.
    apply (strLeb_trans _ z); [apply Hall; now left | apply IH; now left].
Qed.

Lemma last_In (l : list string) : l <> [] -> In (last l "") l.
Proof.
  induction l as [|x [|y l] IH]; intros Hne; [contradiction | now left |].
  right. apply IH. discriminate.
Qed.

(** The first and the last string of the sorted list are the least and
    the greatest of the list. *)
Lemma sortStrings_bounds (l : list string) :
  l <> [] ->
  let lo := hd "" (sortStrings l) in
  let hi := last (sortStrings l) "" in
  In lo l /\ In hi l /\ forall x, In x l -> strLe lo x /\ strLe x hi.
Proof.
  intros Hne lo hi.
  assert (Hs : sortStrings l <> []).
  { destruct l as [|x l]; [contradiction |]. intros Hnil.
    assert (Hin : In x (sortStrings (x :: l))) by (apply sortStrings_In; now left).
    rewrite Hnil in Hin. contradiction. }
  split; [| split].
  - apply sortStrings_In. subst lo. destruct (sortStrings l); [contradiction | now left].
  - apply sortStrings_In. now apply last_In.
  - intros x Hx. apply sortStrings_In in Hx. split.
    + now apply sorted_hd_least; [apply sortStrings_sorted |].
    + now apply sorted_last_greatest; [apply sortStrings_sorted |].
Qed.

(** ** Date strings in string order *)

Lemma inRange_iff (start end_ : string) (r : row) :
  inRange start end_ r = true <->
  exists c, nth_error r 2 = Some c /\ strLe start c /\ strLe c end_.
Proof.
  unfold inRange, strLe. destruct (nth_error r 2) as [c|].
  - rewrite andb_true_iff. split.
    + intros Hc. now exists c.
    + intros [c' [Heq Hc]]. now injection Heq as ->.
  - split; [discriminate | intros [c [Heq _]]; discriminate].
Qed.

Lemma byteOf_digit (n : Z) : byteOf (digitChar n) = 48 + n mod 10.
Proof.
  pose proof (Z.mod_pos_bound n 10 ltac:(lia)).
  unfold byteOf, digitChar, ascii_of_nat. rewrite N_ascii_embedding by lia. lia.
Qed.

(** A byte below 128 is one code unit. *)
Lemma codeUnits_ascii (c : ascii) (s : string) :
  byteOf c < 128 -> codeUnits (String c s) = byteOf c :: codeUnits s.
Proof.
  intros Hc. cbn [codeUnits].
  now replace (byteOf c <? 128) with true by (symmetry; now apply Z.ltb_lt).
Qed.

Lemma strLeb_digits (x y : Z) (a b : string) :
  strLeb (String (digitChar x) a) (String (digitChar y) b) =
  if x mod 10 <? y mod 10 then true
  else if x mod 10 =? y mod 10 then strLeb a b else false.
Proof.
  pose proof (Z.mod_pos_bound x 10 ltac:(lia)).
  pose proof (Z.mod_pos_bound y 10 ltac:(lia)).
  unfold strLeb. rewrite !codeUnits_ascii by (rewrite byteOf_digit; lia).
  cbn [unitsLeb]. rewrite !byteOf_digit.
  destruct (Z.ltb_spec (x mod 10) (y mod 10));
  destruct (Z.ltb_spec (48 + x mod 10) (48 + y mod 10));
    try lia; try reflexivity.
  destruct (Z.eqb_spec (x mod 10) (y mod 10));
  destruct (Z.eqb_spec (48 + x mod 10) (48 + y mod 10));
    try lia; reflexivity.
Qed.

Lemma strLeb_same_head (c : ascii) (a b : string) :
  byteOf c < 128 -> strLeb (String c a) (String c b) = strLeb a b.
Proof.
  intros Hc. unfold strLeb. rewrite !codeUnits_ascii by assumption.
  cbn [unitsLeb]. now rewrite Z.ltb_irrefl, Z.eqb_refl.
Qed.

(** Date strings of years 0 to 9999 compare as their civil dates. *)
Lemma isoString_order (y1 m1 d1 y2 m2 d2 : Z) :
  0 <= y1 <= 9999 -> 0 <= y2 <= 9999 ->
  0 <= m1 <= 99 -> 0 <= m2 <= 99 -> 0 <= d1 <= 99 -> 0 <= d2 <= 99 ->
  strLeb (pad4 y1 ++ "-" ++ pad2 m1 ++ "-" ++ pad2 d1)
         (pad4 y2 ++ "-" ++ pad2 m2 ++ "-" ++ pad2 d2) = true <->
  (y1 < y2 \/ (y1 = y2 /\ (m1 < m2 \/ (m1 = m2 /\ d1 <= d2)))).
Proof.
  intros Hy1 Hy2 Hm1 Hm2 Hd1 Hd2. unfold pad4, pad2. cbn [String.append].
  rewrite !strLeb_digits, strLeb_same_head by (vm_compute; reflexivity).
  rewrite !strLeb_digits, strLeb_same_head by (vm_compute; reflexivity).
  rewrite !strLeb_digits. change (strLeb "" "") with true.
  pose proof (decimal4 y1 Hy1). pose proof (decimal4 y2 Hy2).
  pose proof (decimal2 m1 Hm1). pose proof (decimal2 m2 Hm2).
  pose proof (decimal2 d1 Hd1). pose proof (decimal2 d2 Hd2).
  pose proof (Z.mod_pos_bound (y1 / 1000) 10 ltac:(lia)).
  pose proof (Z.mod_pos_bound (y1 / 100) 10 ltac:(lia)).
  pose proof (Z.mod_pos_bound (y1 / 10) 10 ltac:(lia)).
  pose proof (Z.mod_pos_bound y1 10 ltac:(lia)).
  pose proof (Z.mod_pos_bound (y2 / 1000) 10 ltac:(lia)).
  pose proof (Z.mod_pos_bound (y2 / 100) 10 ltac:(lia)).
  pose proof (Z.mod_pos_bound (y2 / 10) 10 ltac:(lia)).
  pose proof (Z.mod_pos_bound y2 10 ltac:(lia)).
  pose proof (Z.mod_pos_bound (m1 / 10) 10 ltac:(lia)).
  pose proof (Z.mod_pos_bound m1 10 ltac:(lia)).
  pose proof (Z.mod_pos_bound (m2 / 10) 10 ltac:(lia)).
  pose proof (Z.mod_pos_bound m2 10 ltac:(lia)).
  pose proof (Z.mod_pos_bound (d1 / 10) 10 ltac:(lia)).
  pose proof (Z.mod_pos_bound d1 10 ltac:(lia)).
  pose proof (Z.mod_pos_bound (d2 / 10) 10 ltac:(lia)).
  pose proof (Z.mod_pos_bound d2 10 ltac:(lia)).
  repeat match goal with
  | |- context [?a <? ?b] => destruct (Z.ltb_spec a b)
  | |- context [?a =? ?b] => destruct (Z.eqb_spec a b)
  end; split; intros; try discriminate; try reflexivity; lia.
Qed.

Lemma isoDateOfDay_strLe (x y : Z) :
  0 <= fst (fst (civilFromDays x)) <= 9999 ->
  0 <= fst (fst (civilFromDays y)) <= 9999 ->
  (strLe (isoDateOfDay x) (isoDateOfDay y) <-> x <= y).
Proof.
  intros Hx Hy. unfold strLe, isoDateOfDay.
  pose proof (civilFromDays_range x _ _ _ (civilFromDays_eta x)) as [Hmx Hdx].
  pose proof (civilFromDays_range y _ _ _ (civilFromDays_eta y)) as [Hmy Hdy].
  assert (Hlt : x < y -> civilLt (civilFromDays x) (civilFromDays y))
    by apply civilFromDays_increasing.
  assert (Hgt : y < x -> civilLt (civilFromDays y) (civilFromDays x))
    by apply civilFromDays_increasing.
  assert (Heq : x = y -> civilFromDays x = civilFromDays y) by (now intros ->).
  destruct (civilFromDays x) as [[y1 m1] d1], (civilFromDays y) as [[y2 m2] d2].
  cbn [fst snd] in *. unfold isoYear.
  replace ((0 <=? y1) && (y1 <=? 9999)) with true
    by (symmetry; apply andb_true_iff; split; apply Z.leb_le; lia).
  replace ((0 <=? y2) && (y2 <=? 9999)) with true
    by (symmetry; apply andb_true_iff; split; apply Z.leb_le; lia).
  rewrite isoString_order by lia. unfold civilLt in *.
  destruct (Z.lt_trichotomy x y) as [Hc | [Hc | Hc]].
  - specialize (Hlt Hc). lia.
  - specialize (Heq Hc). injection Heq as -> -> ->. lia.
  - specialize (Hgt Hc). lia.
Qed.

Lemma inRange_isoDates (a b c : Z) (r : row) :
  0 <= fst (fst (civilFromDays a)) <= 9999 ->
  0 <= fst (fst (civilFromDays b)) <= 9999 ->
  0 <= fst (fst (civilFromDays c)) <= 9999 ->
  nth_error r 2 = Some (isoDateOfDay c) ->
  (inRange (isoDateOfDay a) (isoDateOfDay b) r = true <-> a <= c <= b).
Proof.
  intros Ha Hb Hc Hcell. rewrite inRange_iff. split.
  - intros [s [Hs [H1 H2]]]. rewrite Hcell in Hs. injection Hs as <-.
    apply isoDateOfDay_strLe in H1, H2; assumption || lia.
  - intros [H1 H2]. exists (isoDateOfDay c). split; [assumption |].
    split; apply isoDateOfDay_strLe; assumption.
Qed.

(** ** The sheets *)

Lemma getMealLogsByRange_ok (g : SheetsService) (start end_ : string)
    (rows : list row) :
  authClient g = None -> values_get g "Meal Log!A2:N" = inl rows ->
  getMealLogsByRange g start end_ =
  ([GetAuthClient; SheetsGet "Meal Log!A2:N"],
   Returned (if String.eqb start "ALL" && String.eqb end_ "ALL" then rows
             else filter (inRange start end_) rows)).
Proof.
  intros Ha Hg. unfold getMealLogsByRange, getAuthClient, valuesGet.
  rewrite Ha, Hg. now destruct (String.eqb start "ALL" && String.eqb end_ "ALL").
Qed.

(** The dates of the column: the non-empty first cells of its rows. *)
Lemma firstCells_In (col : list row) (d : string) :
  In d (firstCells col) <->
  d <> "" /\ exists r, In r col /\ nth_error r 0 = Some d.
Proof.
  unfold firstCells. rewrite in_flat_map. split.
  - intros (r & Hr & Hd). destruct r as [|c r]; [contradiction |].
    destruct (String.eqb_spec c "") as [-> | Hc]; [contradiction |].
    destruct Hd as [<- | []]. split; [exact Hc |]. now exists (c :: r).
  - intros (Hne & r & Hr & Hd). exists r. split; [exact Hr |].
    destruct r as [|c r]; [discriminate |]. cbn [nth_error] in Hd.
    injection Hd as ->.
    destruct (String.eqb_spec d "") as [-> | _]; [contradiction | now left].
Qed.

Lemma getMealLogDateRange_ok (g : SheetsService) (col : list row) :
  authClient g = None -> values_get g "Meal Log!C2:C" = inl col ->
  getMealLogDateRange g =
  ([GetAuthClient; SheetsGet "Meal Log!C2:C"],
   Returned (match firstCells col with
             | [] => None
             | _ :: _ =>
                 Some {| range_start := hd "" (sortStrings (firstCells col));
                         range_end := last (sortStrings (firstCells col)) "" |}
             end)).
Proof.
  intros Ha Hg. unfold getMealLogDateRange, getAuthClient, valuesGet.
  rewrite Ha, Hg. cbn [emit bind ret app].
  destruct (firstCells col); reflexivity.
Qed.

(** ** The summary claims *)

Lemma bind_returned {A B : Type} (t : list effect) (a : A) (f : A -> M B) :
  bind (t, Returned a) f = ((t ++ fst (f a))%list, snd (f a)).
Proof. unfold bind. now destruct (f a). Qed.

Lemma bind_ret_l {A B : Type} (a : A) (f : A -> M B) : bind (ret a) f = f a.
Proof. unfold bind, ret. now destruct (f a). Qed.

Lemma bind_emit {B : Type} (eff : effect) (f : unit -> M B) :
  bind (emit eff) f = (eff :: fst (f tt), snd (f tt)).
Proof. unfold bind, emit. now destruct (f tt). Qed.

Lemma bind_threw {A B : Type} (t : list effect) (e : exn) (f : A -> M B) :
  bind (t, Threw e) f = (t, Threw e).
Proof. reflexivity. Qed.

Lemma isoDateOfDay_not_ALL (d : Z) :
  0 <= fst (fst (civilFromDays d)) <= 9999 ->
  String.eqb (isoDateOfDay d) "ALL" = false.
Proof.
  intros Hy. unfold isoDateOfDay.
  destruct (civilFromDays d) as [[y m] dd]. cbn [fst] in Hy. unfold isoYear.
  replace ((0 <=? y) && (y <=? 9999)) with true
    by (symmetry; apply andb_true_iff; split; apply Z.leb_le; lia).
  unfold pad4. cbn [String.append String.eqb].
  destruct (Ascii.eqb_spec (digitChar (y / 1000)) "A") as [Heq | _]; [| reflexivity].
  exfalso. apply (f_equal nat_of_ascii) in Heq. rewrite nat_of_digit in Heq.
  pose proof (Z.mod_pos_bound (y / 1000) 10 ltac:(lia)).
  change (nat_of_ascii "A") with 65%nat in Heq. lia.
Qed.

Section SummaryClaims.
Context `{Host}.

Lemma replySummary_nonempty (env : Env) (replyToken : value) (logs : list row)
    (start end_ : string) :
  logs <> [] ->
  replySummary env replyToken logs start end_ =
  sendSummary env replyToken
    (reportText start end_ logs (daysOfRange start end_)).
Proof.
  destruct logs as [|r logs]; [contradiction |]. intros _.
  unfold replySummary. now rewrite summaryText_report.
Qed.

(** The end of the summary branch: the feedback call and, when it
    returned, the reply. *)
Lemma sendSummary_run (env : Env) (replyToken : value) (text : string) :
  let call := callOpenAIWithRetry (create env) (feedbackMessages text)
                summaryOptions in
  sendSummary env replyToken text =
    ((fst call ++
      match snd call with
      | Returned c =>
          [LineReply replyToken
             (text ++ nl ++ nl ++ "💡 フィードバック:" ++ nl ++ contentOr c "")]
      | Threw _ => []
      end)%list,
     match snd call with
     | Returned _ => Returned tt
     | Threw e => Threw e
     end).
Proof.
  cbv zeta. unfold sendSummary. fold (feedbackMessages text).
  destruct (callOpenAIWithRetry (create env) (feedbackMessages text) summaryOptions)
    as [t [c | e]]; cbn [fst snd].
  - reflexivity.
  - rewrite bind_threw, app_nil_r. reflexivity.
Qed.

(** A range whose rows are not all filtered out has its start not after
    its end. *)
Lemma inRange_nonempty (start end_ : string) (rows : list row) :
  filter (inRange start end_) rows <> [] -> strLe start end_.
Proof.
  intros Hne. destruct (filter (inRange start end_) rows) as [|r l] eqn:Hf;
    [contradiction |].
  assert (Hin : In r (filter (inRange start end_) rows)) by (rewrite Hf; now left).
  apply filter_In in Hin as [_ Hr]. apply inRange_iff in Hr as (c & _ & H1 & H2).
  exact (strLeb_trans _ _ _ H1 H2).
Qed.

(** C5 as amended.  For a concrete range the summary is made of the rows
    the range filter keeps.  Without such rows the only reply is the
    no-records text and the completion service is not called.  With such
    rows the text sent for feedback and shown in the reply is the report:
    per nutrient the sum of its column (a missing or empty cell counting
    0, every other cell what [Number] reads) and that sum divided by the
    day count, each printed by [toFixed(1)].  A cell that is not a numeric
    literal makes the total and the average of its column NaN.  For ISO
    dates the day count is (end - start in days) + 1, which is at least 1
    whenever a row was kept.  [toFixed(1)] of a finite number below 1e21
    prints the tenth nearest to its binary64 value. *)
Theorem C5_summary_aggregation (env : Env) (replyToken : value)
    (start end_ : string) (rows : list row) :
  authClient (sheets env) = None ->
  values_get (sheets env) "Meal Log!A2:N" = inl rows ->
  ~ (start = "ALL" /\ end_ = "ALL") ->
  let logs := filter (inRange start end_) rows in
  let days := daysOfRange start end_ in
  let text := reportText start end_ logs days in
  let call := callOpenAIWithRetry (create env) (feedbackMessages text)
                summaryOptions in
  let run := handleSummary env replyToken
               {| range_start := start; range_end := end_ |} in
  (logs = [] ->
   run = ([GetAuthClient; SheetsGet "Meal Log!A2:N";
           LineReply replyToken "その期間の記録はありません📭"], Returned tt)) /\
  (logs <> [] ->
   run = (([GetAuthClient; SheetsGet "Meal Log!A2:N"] ++ fst call ++
           match snd call with
           | Returned c =>
               [LineReply replyToken
                  (text ++ nl ++ nl ++ "💡 フィードバック:" ++ nl ++ contentOr c "")]
           | Threw _ => []
           end)%list,
          match snd call with
          | Returned _ => Returned tt
          | Threw e => Threw e
          end)) /\
  (forall i r c,
     In r logs -> nth_error r i = Some c -> trim c <> "" ->
     ~ StrNumericLiteral (trim c) ->
     columnTotal i logs = NaN /\
     forall label unit,
       reportLine logs days (label, i, unit) =
       label ++ ": NaN " ++ unit ++ "（平均 NaN " ++ unit ++ "/日）") /\
  (forall ds de,
     start = isoDateOfDay ds -> end_ = isoDateOfDay de ->
     0 <= fst (fst (civilFromDays ds)) <= 9999 ->
     0 <= fst (fst (civilFromDays de)) <= 9999 ->
     days = ofZ (de - ds + 1) /\ (logs <> [] -> 1 <= de - ds + 1)) /\
  (forall s m e,
     Z.pos m * 2 ^ Z.max 0 e < 10 ^ 21 * 2 ^ Z.max 0 (- e) ->
     let n := tenths m e in
     toFixed1 (S754_finite s m e) =
       (if s then "-" else "") ++ decimal (n / 10) ++ "." ++ decimal (n mod 10) /\
     2 ^ Z.max 0 (- e) * (2 * n - 1) <= 20 * (Z.pos m * 2 ^ Z.max 0 e)
       < 2 ^ Z.max 0 (- e) * (2 * n + 1)).
Proof.
  intros Ha Hg Hn logs days text call run.
  assert (Hnot : String.eqb start "ALL" && String.eqb end_ "ALL" = false).
  { apply andb_false_iff.
    destruct (String.eqb_spec start "ALL") as [Hs | Hs]; [| now left].
    destruct (String.eqb_spec end_ "ALL") as [He | He]; [| now right].
    exfalso. apply Hn. now split. }
  assert (Hfetch : fetchSummaryLogs env {| range_start := start; range_end := end_ |} =
                   ([GetAuthClient; SheetsGet "Meal Log!A2:N"],
                    Returned (logs, start, end_))).
  { unfold fetchSummaryLogs. cbn [range_start range_end]. rewrite Hnot.
    rewrite (getMealLogsByRange_ok _ _ _ rows Ha Hg), Hnot. reflexivity. }
  split; [| split; [| split; [| split]]].
  - intros Hempty. subst run. unfold handleSummary. rewrite Hfetch, bind_returned.
    rewrite Hempty. reflexivity.
  - intros Hne. subst run. unfold handleSummary. rewrite Hfetch, bind_returned.
    rewrite (replySummary_nonempty _ _ _ _ _ Hne).
    fold days. fold text. rewrite (sendSummary_run env replyToken text).
    cbn [fst snd]. fold call. reflexivity.
  - intros i r c Hin Hcell Hne Hlit.
    assert (Hnan : columnTotal i logs = NaN).
    { apply (columnTotal_NaN i logs r Hin). unfold cellValue. rewrite Hcell.
      destruct c as [|a c]; [now vm_compute in Hne |].
      now apply Number_not_literal. }
    split; [exact Hnan |]. intros label unit. unfold reportLine. rewrite Hnan.
    reflexivity.
  - intros ds de -> -> Hs He. split; [now apply daysOfRange_iso |].
    intros Hne. apply inRange_nonempty in Hne.
    apply (isoDateOfDay_strLe ds de Hs He) in Hne. lia.
  - intros s m e Hlt n. split; [now apply toFixed1_tenths | apply tenths_nearest].
Qed.

(** C4 as amended.  For the range ALL/ALL every row the store returns
    enters the totals.  The stored dates are the non-empty first cells of
    the rows of column C.  When there is one, the dates shown are the
    least and the greatest of them in the order of strings and the day
    count is computed from these two; for ISO dates they are the earliest
    and the latest stored day, and the count is the number of days from
    the one to the other.  When there is none, the dates shown stay ALL
    and ALL, and on a host that reads no date from the text ALL the day
    count and every average are NaN. *)
Theorem C4_all_history_summary (env : Env) (replyToken : value)
    (rows col : list row) :
  authClient (sheets env) = None ->
  values_get (sheets env) "Meal Log!A2:N" = inl rows ->
  values_get (sheets env) "Meal Log!C2:C" = inl col ->
  rows <> [] ->
  let dates := firstCells col in
  (forall d, In d dates <->
             d <> "" /\ exists r, In r col /\ nth_error r 0 = Some d) /\
  exists lo hi,
    (dates <> [] ->
     In lo dates /\ In hi dates /\
     forall d, In d dates -> strLe lo d /\ strLe d hi) /\
    (dates = [] -> lo = "ALL" /\ hi = "ALL") /\
    let days := daysOfRange lo hi in
    let text := reportText lo hi rows days in
    let call := callOpenAIWithRetry (create env) (feedbackMessages text)
                  summaryOptions in
    handleSummary env replyToken {| range_start := "ALL"; range_end := "ALL" |} =
      (([GetAuthClient; SheetsGet "Meal Log!A2:N";
         GetAuthClient; SheetsGet "Meal Log!C2:C"] ++ fst call ++
        match snd call with
        | Returned c =>
            [LineReply replyToken
               (text ++ nl ++ nl ++ "💡 フィードバック:" ++ nl ++ contentOr c "")]
        | Threw _ => []
        end)%list,
       match snd call with
       | Returned _ => Returned tt
       | Threw e => Threw e
       end) /\
    (forall dlo dhi,
       lo = isoDateOfDay dlo -> hi = isoDateOfDay dhi ->
       0 <= fst (fst (civilFromDays dlo)) <= 9999 ->
       0 <= fst (fst (civilFromDays dhi)) <= 9999 ->
       days = ofZ (dhi - dlo + 1) /\ 1 <= dhi - dlo + 1 /\
       forall d, 0 <= fst (fst (civilFromDays d)) <= 9999 ->
                 In (isoDateOfDay d) dates -> dlo <= d <= dhi) /\
    (dates = [] -> Date_parse_other "ALL" = NaN ->
     days = NaN /\
     forall label i unit,
       reportLine rows days (label, i, unit) =
       label ++ ": " ++ toFixed1 (columnTotal i rows) ++ " " ++ unit ++
       "（平均 NaN " ++ unit ++ "/日）").
Proof.
  intros Ha Hrows Hcol Hne dates.
  split; [intros d; apply firstCells_In |].
  assert (Hfetch : forall lo hi,
            match dates with
            | [] => Some (lo, hi) = Some ("ALL", "ALL")
            | _ :: _ => lo = hd "" (sortStrings dates) /\ hi = last (sortStrings dates) ""
            end ->
            fetchSummaryLogs env {| range_start := "ALL"; range_end := "ALL" |} =
            ([GetAuthClient; SheetsGet "Meal Log!A2:N";
              GetAuthClient; SheetsGet "Meal Log!C2:C"], Returned (rows, lo, hi))).
  { intros lo hi Hlohi. unfold fetchSummaryLogs. cbn [range_start range_end].
    change (String.eqb "ALL" "ALL" && String.eqb "ALL" "ALL") with true. cbv iota.
    rewrite (getMealLogsByRange_ok _ "ALL" "ALL" rows Ha Hrows).
    rewrite (getMealLogDateRange_ok _ col Ha Hcol).
    change (String.eqb "ALL" "ALL" && String.eqb "ALL" "ALL") with true. cbv iota.
    fold dates. destruct dates as [|c cs].
    - injection Hlohi as -> ->. reflexivity.
    - destruct Hlohi as [-> ->]. reflexivity. }
  assert (Hrun : forall lo hi,
            fetchSummaryLogs env {| range_start := "ALL"; range_end := "ALL" |} =
            ([GetAuthClient; SheetsGet "Meal Log!A2:N";
              GetAuthClient; SheetsGet "Meal Log!C2:C"], Returned (rows, lo, hi)) ->
            let days := daysOfRange lo hi in
            let text := reportText lo hi rows days in
            let call := callOpenAIWithRetry (create env) (feedbackMessages text)
                          summaryOptions in
            handleSummary env replyToken {| range_start := "ALL"; range_end := "ALL" |} =
              (([GetAuthClient; SheetsGet "Meal Log!A2:N";
                 GetAuthClient; SheetsGet "Meal Log!C2:C"] ++ fst call ++
                match snd call with
                | Returned c =>
                    [LineReply replyToken
                       (text ++ nl ++ nl ++ "💡 フィードバック:" ++ nl ++ contentOr c "")]
                | Threw _ => []
                end)%list,
               match snd call with
               | Returned _ => Returned tt
               | Threw e => Threw e
               end)).
  { intros lo hi Hf days text call. unfold handleSummary. rewrite Hf, bind_returned.
    rewrite (replySummary_nonempty _ _ _ _ _ Hne).
    fold days. fold text. rewrite (sendSummary_run env replyToken text).
    cbn [fst snd]. fold call. reflexivity. }
  destruct dates as [|c cs] eqn:Hdates.
  - exists "ALL", "ALL".
    split; [intros Hc; now contradiction Hc |].
    split; [intros _; now split |].
    split; [apply Hrun, Hfetch; reflexivity |].
    split.
    + intros dlo dhi Hlo _ Hy _. exfalso.
      pose proof (isoDateOfDay_not_ALL dlo Hy) as Hx. rewrite <- Hlo in Hx.
      discriminate.
    + intros _ Hall.
      assert (Hdays : daysOfRange "ALL" "ALL" = NaN).
      { unfold daysOfRange, Date_parse. cbn [parseIsoDate]. rewrite Hall. reflexivity. }
      split; [exact Hdays |]. intros label i unit. unfold reportLine.
      rewrite Hdays, ndiv_NaN_r. reflexivity.
  - set (lo := hd "" (sortStrings (c :: cs))).
    set (hi := last (sortStrings (c :: cs)) "").
    destruct (sortStrings_bounds (c :: cs) ltac:(discriminate)) as (Hlo & Hhi & Hall).
    fold lo in Hlo, Hall. fold hi in Hhi, Hall.
    exists lo, hi.
    split; [intros _; split; [exact Hlo | split; [exact Hhi | exact Hall]] |].
    split; [discriminate |].
    split; [apply Hrun, Hfetch; split; reflexivity |].
    split; [| discriminate].
    intros dlo dhi Elo Ehi Hylo Hyhi.
    split; [rewrite Elo, Ehi; now apply daysOfRange_iso |].
    assert (Hle : dlo <= dhi).
    { apply (isoDateOfDay_strLe dlo dhi Hylo Hyhi). rewrite <- Elo, <- Ehi.
      now apply Hall. }
    split; [lia |]. intros d Hyd Hd. destruct (Hall _ Hd) as [H1 H2].
    rewrite Elo in H1. rewrite Ehi in H2.
    apply (isoDateOfDay_strLe dlo d Hylo Hyd) in H1.
    apply (isoDateOfDay_strLe d dhi Hyd Hyhi) in H2. lia.
Qed.

End SummaryClaims.

(** C5 as stated fails: a cell that is not numeric is not counted as 0.
    Of two rows with the kcal cells abc and 500 the total shown is NaN,
    not 500.0. *)
Lemma C5_non_numeric_cell_is_NaN :
  let rows := [mealRow "2024-03-14" "abc"; mealRow "2024-03-15" "500"] in
  let run := @handleSummary asciiHost (quietEnv "OK" rows) (VStr "token-1")
               {| range_start := "2024-03-14"; range_end := "2024-03-15" |} in
  cellValue (mealRow "2024-03-14" "abc") 5 = NaN /\
  columnTotal 5 rows = NaN /\ columnTotal 5 rows <> ofZ 500 /\
  exists rest,
    repliesOf (fst run) =
    [ "2024-03-14 〜 2024-03-15 のサマリー" ++ nl ++
      "カロリー: NaN kcal（平均 NaN kcal/日）" ++ rest ].
Proof.
  vm_compute. split; [reflexivity |]. split; [reflexivity |].
  split; [discriminate |]. eexists. reflexivity.
Qed.

(** Rows with 500 and 700 kcal on 2024-03-14 and 2024-03-15, and a
    third outside the range: 1200.0 in total, 600.0 a day. *)
Lemma C5_summary_aggregation_witness :
  let rows := [mealRow "2024-03-14" "500"; mealRow "2024-03-15" "700";
               mealRow "2024-03-20" "900"] in
  let env := quietEnv "OK" rows in
  authClient (sheets env) = None /\
  values_get (sheets env) "Meal Log!A2:N" = inl rows /\
  ~ ("2024-03-14" = "ALL" /\ "2024-03-15" = "ALL") /\
  filter (inRange "2024-03-14" "2024-03-15") rows <> [] /\
  repliesOf (fst (@handleSummary asciiHost env (VStr "token-1")
                    {| range_start := "2024-03-14"; range_end := "2024-03-15" |})) =
  [ "2024-03-14 〜 2024-03-15 のサマリー" ++ nl ++
    "カロリー: 1200.0 kcal（平均 600.0 kcal/日）" ++ nl ++
    "タンパク質: 0.0 g（平均 0.0 g/日）" ++ nl ++
    "脂質: 0.0 g（平均 0.0 g/日）" ++ nl ++
    "炭水化物: 0.0 g（平均 0.0 g/日）" ++ nl ++
    "ビタミンB6: 0.0 mg（平均 0.0 mg/日）" ++ nl ++
    "ビタミンD: 0.0 μg（平均 0.0 μg/日）" ++ nl ++
    "マグネシウム: 0.0 mg（平均 0.0 mg/日）" ++ nl ++
    "鉄: 0.0 mg（平均 0.0 mg/日）" ++ nl ++
    "亜鉛: 0.0 mg（平均 0.0 mg/日）" ++ nl ++ nl ++
    "💡 フィードバック:" ++ nl ++ "OK" ].
Proof.
  intros rows env.
  assert (Ha : authClient (sheets env) = None) by reflexivity.
  assert (Hg : values_get (sheets env) "Meal Log!A2:N" = inl rows) by reflexivity.
  assert (Hn : ~ ("2024-03-14" = "ALL" /\ "2024-03-15" = "ALL"))
    by (intros [Hc _]; discriminate).
  assert (Hne : filter (inRange "2024-03-14" "2024-03-15") rows <> [])
    by (vm_compute; discriminate).
  split; [exact Ha |]. split; [exact Hg |]. split; [exact Hn |]. split; [exact Hne |].
  destruct (@C5_summary_aggregation asciiHost env (VStr "token-1")
              "2024-03-14" "2024-03-15" rows Ha Hg Hn) as (_ & Hrun & _).
  rewrite (Hrun Hne). vm_compute. reflexivity.
Defined.

(** The average is a binary64 quotient: 0.7 over two days is the number
    just below 0.35 and prints as 0.3. *)
Example summary_average_is_binary64 :
  let rows := [mealRow "2024-03-14" "0.7"; mealRow "2024-03-15" ""] in
  exists rest,
    repliesOf (fst (@handleSummary asciiHost (quietEnv "OK" rows) (VStr "token-1")
                      {| range_start := "2024-03-14"; range_end := "2024-03-15" |})) =
    [ "2024-03-14 〜 2024-03-15 のサマリー" ++ nl ++
      "カロリー: 0.7 kcal（平均 0.3 kcal/日）" ++ rest ].
Proof. vm_compute. eexists. reflexivity. Qed.

(** C4 as stated fails when the store holds rows but no meal date: the
    dates shown are ALL and ALL, and the average is NaN. *)
Lemma C4_no_stored_date_shows_ALL :
  let rows := [["2024-03-15"; "12:00"; ""; "昼食"; "サラダ"; "500"]] in
  let run := @handleSummary asciiHost (quietEnv "OK" rows) (VStr "token-1") allRange in
  values_get (sheets (quietEnv "OK" rows)) "Meal Log!C2:C" = inl [[""]] /\
  firstCells [[""]] = [] /\
  exists rest,
    repliesOf (fst run) =
    [ "ALL 〜 ALL のサマリー" ++ nl ++
      "カロリー: 500.0 kcal（平均 NaN kcal/日）" ++ rest ].
Proof.
  vm_compute. split; [reflexivity |]. split; [reflexivity |].
  eexists. reflexivity.
Qed.

(** Three stored meals, asked for with the range ALL/ALL: the summary
    runs from the earliest to the latest stored date, six days, and counts
    all three rows. *)
Lemma C4_all_history_summary_witness :
  let rows := [mealRow "2024-03-12" "500"; mealRow "2024-03-10" "700";
               mealRow "2024-03-15" "300"] in
  let col := [["2024-03-12"]; ["2024-03-10"]; ["2024-03-15"]] in
  let env := quietEnv "OK" rows in
  authClient (sheets env) = None /\
  values_get (sheets env) "Meal Log!A2:N" = inl rows /\
  values_get (sheets env) "Meal Log!C2:C" = inl col /\
  rows <> [] /\
  exists rest,
    repliesOf (fst (@handleSummary asciiHost env (VStr "token-1") allRange)) =
    [ "2024-03-10 〜 2024-03-15 のサマリー" ++ nl ++
      "カロリー: 1500.0 kcal（平均 250.0 kcal/日）" ++ rest ].
Proof.
  intros rows col env.
  assert (Ha : authClient (sheets env) = None) by reflexivity.
  assert (Hrows : values_get (sheets env) "Meal Log!A2:N" = inl rows) by reflexivity.
  assert (Hcol : values_get (sheets env) "Meal Log!C2:C" = inl col) by reflexivity.
  assert (Hne : rows <> []) by discriminate.
  split; [exact Ha |]. split; [exact Hrows |]. split; [exact Hcol |].
  split; [exact Hne |].
  destruct (@C4_all_history_summary asciiHost env (VStr "token-1") rows col
              Ha Hrows Hcol Hne) as (_ & lo & hi & Hbounds & _ & Hrun & _).
  destruct (Hbounds ltac:(discriminate)) as (Hlo & Hhi & Hall).
  assert (Elo : lo = "2024-03-10").
  { destruct (Hall "2024-03-10" ltac:(right; now left)) as [H1 _].
    destruct Hlo as [<- | [<- | [<- | []]]];
      [vm_compute in H1; discriminate | reflexivity |
       vm_compute in H1; discriminate]. }
  assert (Ehi : hi = "2024-03-15").
  { destruct (Hall "2024-03-15" ltac:(right; right; now left)) as [_ H2].
    destruct Hhi as [<- | [<- | [<- | []]]];
      [vm_compute in H2; discriminate | vm_compute in H2; discriminate |
       reflexivity]. }
  subst lo hi. unfold allRange. rewrite Hrun.
  vm_compute. eexists. reflexivity.
Defined.

(* ================================================================== *)
(** * Part III: further properties of the code                         *)
(* ================================================================== *)

(** ** The completion call with retry *)

Lemma delayMs_bounds (a : Z) : 0 <= a -> 500 <= delayMs a <= 2500.
Proof.
  intros Ha. unfold delayMs.
  assert (1 <= 2 ^ a) by (change 1 with (2 ^ 0); apply Z.pow_le_mono_r; lia).
  lia.
Qed.

Lemma retryLoop_bounded (create : nat -> completion + exn)
    (messages : list message) (opts : RetryOptions) (fuel : nat) :
  forall (a : Z) (lastErr : exn), 0 <= a ->
  let run := retryLoop fuel create messages opts a lastErr in
  (callsOf (fst run) <= Z.to_nat (maxRetries opts + 1 - a))%nat /\
  (length (delaysOf (fst run)) <= Z.to_nat (maxRetries opts - a))%nat /\
  Forall (fun d => 500 <= d <= 2500) (delaysOf (fst run)).
Proof.
  induction fuel as [|fuel IH]; intros a lastErr Ha; cbv zeta.
  - cbn. repeat split; [lia | lia | constructor].
  - rewrite retryLoop_S.
    destruct (a <=? maxRetries opts) eqn:Hle;
      [apply Z.leb_le in Hle | cbn; repeat split; [lia | lia | constructor]].
    destruct (create (Z.to_nat a)) as [r | e].
    { cbn. repeat split; [lia | lia | constructor]. }
    destruct (negb (isRetryable (statusOf e)) || (a =? maxRetries opts)) eqn:Hstop.
    { cbn. repeat split; [lia | lia | constructor]. }
    apply orb_false_iff in Hstop as [_ Hne]. apply Z.eqb_neq in Hne.
    specialize (IH (a + 1) e ltac:(lia)). cbv zeta in IH.
    destruct (retryLoop fuel create messages opts (a + 1) e) as [t o].
    cbn [fst] in IH. destruct IH as (Hc & Hd & Hall).
    assert (Hrun : fst (emit (ChatCompletionsCreate messages (temperature opts)
                               (max_tokens opts)) ;;
                        emit (Console console_error "[OPENAI][ERROR]") ;;
                        emit (SetTimeout (delayMs a)) ;; (t, o)) =
                   ChatCompletionsCreate messages (temperature opts) (max_tokens opts)
                   :: Console console_error "[OPENAI][ERROR]"
                   :: SetTimeout (delayMs a) :: t)
      by (destruct o; reflexivity).
    rewrite Hrun. cbn [callsOf delaysOf length].
    repeat split; [lia | lia |].
    constructor; [apply delayMs_bounds; lia | assumption].
Qed.

(** X1: whatever the completion service does, [callOpenAIWithRetry]
    calls it at most [maxRetries + 1] times and waits at most
    [maxRetries] times, each time between 500 and 2500 ms. *)
Theorem X1_retry_is_bounded (create : nat -> completion + exn)
    (messages : list message) (opts : RetryOptions) :
  let run := callOpenAIWithRetry create messages opts in
  (callsOf (fst run) <= Z.to_nat (maxRetries opts + 1))%nat /\
  (length (delaysOf (fst run)) <= Z.to_nat (maxRetries opts))%nat /\
  Forall (fun d => 500 <= d <= 2500) (delaysOf (fst run)).
Proof.
  pose proof (retryLoop_bounded create messages opts
                (Z.to_nat (maxRetries opts + 1)) 0 ThrownUndefined ltac:(lia)) as Hb.
  cbv zeta in *. unfold callOpenAIWithRetry.
  now rewrite !Z.sub_0_r in Hb.
Qed.

Lemma retryLoop_outcome (create : nat -> completion + exn)
    (messages : list message) (opts : RetryOptions) (fuel : nat) :
  forall (a : Z) (lastErr : exn), 0 <= a ->
  match snd (retryLoop fuel create messages opts a lastErr) with
  | Returned r => exists i, a <= Z.of_nat i <= maxRetries opts /\ create i = inl r
  | Threw e =>
      e = lastErr \/ exists i, a <= Z.of_nat i <= maxRetries opts /\ create i = inr e
  end.
Proof.
  induction fuel as [|fuel IH]; intros a lastErr Ha.
  - cbn. now left.
  - rewrite retryLoop_S.
    destruct (a <=? maxRetries opts) eqn:Hle;
      [apply Z.leb_le in Hle | cbn; now left].
    destruct (create (Z.to_nat a)) as [r | e] eqn:Hc.
    { cbn. exists (Z.to_nat a). split; [lia | assumption]. }
    destruct (negb (isRetryable (statusOf e)) || (a =? maxRetries opts)).
    { cbn. right. exists (Z.to_nat a). split; [lia | assumption]. }
    specialize (IH (a + 1) e ltac:(lia)).
    destruct (retryLoop fuel create messages opts (a + 1) e) as [t o].
    cbn [snd] in IH.
    assert (Hrun : snd (emit (ChatCompletionsCreate messages (temperature opts)
                               (max_tokens opts)) ;;
                        emit (Console console_error "[OPENAI][ERROR]") ;;
                        emit (SetTimeout (delayMs a)) ;; (t, o)) = o)
      by (destruct o; reflexivity).
    rewrite Hrun. destruct o as [r | e'].
    + destruct IH as [i [Hi Hci]]. exists i. split; [lia | assumption].
    + right. destruct IH as [-> | [i [Hi Hci]]].
      * exists (Z.to_nat a). split; [lia | assumption].
      * exists i. split; [lia | assumption].
Qed.

(** X2: with [maxRetries >= 0] the completion returned is one the
    service returned, and the error thrown is one the service threw, at an
    attempt not beyond [maxRetries]; nothing is made up. *)
Theorem X2_retry_outcome_is_the_services (create : nat -> completion + exn)
    (messages : list message) (opts : RetryOptions) :
  0 <= maxRetries opts ->
  match snd (callOpenAIWithRetry create messages opts) with
  | Returned r => exists i, Z.of_nat i <= maxRetries opts /\ create i = inl r
  | Threw e => exists i, Z.of_nat i <= maxRetries opts /\ create i = inr e
  end.
Proof.
  intros Hmax. unfold callOpenAIWithRetry.
  replace (Z.to_nat (maxRetries opts + 1))
    with (S (Z.to_nat (maxRetries opts))) by lia.
  rewrite retryLoop_S.
  replace (0 <=? maxRetries opts) with true by (symmetry; now apply Z.leb_le).
  change (Z.to_nat 0) with O.
  destruct (create O) as [r | e] eqn:Hc.
  { cbn. exists O. split; [lia | assumption]. }
  destruct (negb (isRetryable (statusOf e)) || (0 =? maxRetries opts)) eqn:Hstop.
  { cbn. exists O. split; [lia | assumption]. }
  apply orb_false_iff in Hstop as [_ Hne]. apply Z.eqb_neq in Hne.
  pose proof (retryLoop_outcome create messages opts
                (Z.to_nat (maxRetries opts)) 1 e ltac:(lia)) as Hnext.
  change (0 + 1) with 1.
  destruct (retryLoop (Z.to_nat (maxRetries opts)) create messages opts 1 e) as [t o].
  cbn [snd] in Hnext.
  replace (snd (emit (ChatCompletionsCreate messages (temperature opts)
                        (max_tokens opts)) ;;
                emit (Console console_error "[OPENAI][ERROR]") ;;
                emit (SetTimeout (delayMs 0)) ;; (t, o))) with o
    by (destruct o; reflexivity).
  destruct o as [r | e'].
  - destruct Hnext as [i [Hi Hci]]. exists i. split; [lia | assumption].
  - destruct Hnext as [-> | [i [Hi Hci]]].
    + exists O. split; [lia | assumption].
    + exists i. split; [lia | assumption].
Qed.

Lemma X2_retry_outcome_witness :
  0 <= maxRetries defaultOptions /\
  snd (callOpenAIWithRetry (failsThenSucceeds 1 rateLimited {| choice_content := None |})
         [] defaultOptions) = Returned {| choice_content := None |}.
Proof.
  split; [cbn; lia |].
  pose proof (X2_retry_outcome_is_the_services
                (failsThenSucceeds 1 rateLimited {| choice_content := None |})
                [] defaultOptions ltac:(cbn; lia)) as Hx.
  destruct (snd (callOpenAIWithRetry _ [] defaultOptions)) as [r | e] eqn:Hs.
  - destruct Hx as [i [_ Hi]]. unfold failsThenSucceeds in Hi.
    destruct (i <? 1)%nat; [discriminate | now injection Hi as <-].
  - vm_compute in Hs. discriminate.
Defined.

(** X3: with a negative [maxRetries] the loop body never runs: the
    service is not called and what is thrown is [undefined], the initial
    value of [lastErr]. *)
Theorem X3_retry_negative_budget (create : nat -> completion + exn)
    (messages : list message) (opts : RetryOptions) :
  maxRetries opts < 0 ->
  callOpenAIWithRetry create messages opts = ([], Threw ThrownUndefined).
Proof.
  intros Hneg. unfold callOpenAIWithRetry.
  destruct (Z.to_nat (maxRetries opts + 1)) as [|fuel]; [reflexivity |].
  rewrite retryLoop_S.
  now replace (0 <=? maxRetries opts) with false by (symmetry; apply Z.leb_gt; lia).
Qed.

Lemma X3_retry_negative_budget_witness :
  let opts := {| maxRetries := -1; temperature := 6 # 10; max_tokens := 250 |} in
  maxRetries opts < 0 /\
  callOpenAIWithRetry (fun _ => inl {| choice_content := Some "hi" |}) [] opts =
  ([], Threw ThrownUndefined).
Proof.
  intros opts. split; [cbn; lia |].
  apply X3_retry_negative_budget. cbn. lia.
Defined.

(** ** Classification and dates *)

Section MoreDateProps.
Context `{Host}.

(** X4: [detectMealType] answers with the first of Breakfast, Lunch,
    Dinner, Snack one of whose keywords occurs in the lower-cased text,
    and with null when none occurs; the label it returns is never the
    empty string. *)
Theorem X4_meal_type_priority (t : string) :
  detectMealType t = firstMealType mealTypeTable (toLowerCase t) /\
  (forall m, mealTypeLabel m <> "").
Proof.
  split; [| intros []; discriminate].
  unfold detectMealType, mealTypeTable. cbn [firstMealType].
  unfold includesAny. cbn [existsb]. rewrite !orb_false_r, !orb_assoc. reflexivity.
Qed.

(** X5: in every time zone of fixed offset, a text with a yesterday
    keyword and no today keyword gets the UTC date of the instant exactly
    24 hours before [now], across the ends of months and years as well. *)
Theorem X5_yesterday_is_one_day_back (text : string) (now : Z) :
  includes (toLowerCase text) "今日" || includes (toLowerCase text) "today" = false ->
  includes (toLowerCase text) "昨日" || includes (toLowerCase text) "yesterday" = true ->
  detectMealDate text now = isoDate (now - msPerDay) /\
  detectMealDate text now = isoDateOfDay (Day now - 1).
Proof.
  intros Htoday Hyesterday. unfold detectMealDate. cbv zeta.
  rewrite Htoday, Hyesterday, setDate_back. unfold isoDate.
  replace (now - 1 * msPerDay) with (now - msPerDay) by lia.
  split; [reflexivity |].
  replace (now - msPerDay) with (now - 1 * msPerDay) by lia.
  now rewrite Day_sub_days.
Qed.

End MoreDateProps.

Lemma X5_yesterday_witness :
  let text := "昨日の昼食はサラダ" in
  let now := 1709251200000 in
  includes (@toLowerCase asciiHostJST text) "今日"
    || includes (@toLowerCase asciiHostJST text) "today" = false /\
  includes (@toLowerCase asciiHostJST text) "昨日"
    || includes (@toLowerCase asciiHostJST text) "yesterday" = true /\
  isoDate now = "2024-03-01" /\
  @detectMealDate asciiHostJST text now = "2024-02-29".
Proof.
  intros text now.
  assert (H1 : includes (@toLowerCase asciiHostJST text) "今日"
               || includes (@toLowerCase asciiHostJST text) "today" = false)
    by (vm_compute; reflexivity).
  assert (H2 : includes (@toLowerCase asciiHostJST text) "昨日"
               || includes (@toLowerCase asciiHostJST text) "yesterday" = true)
    by (vm_compute; reflexivity).
  split; [exact H1 |]. split; [exact H2 |]. split; [vm_compute; reflexivity |].
  rewrite (proj2 (@X5_yesterday_is_one_day_back asciiHostJST text now H1 H2)).
  vm_compute. reflexivity.
Defined.

Section UtcDateRanges.
Context `{Host}.

(** X21: on a host whose local time is UTC, from the epoch on,
    [detectDateRange] answers in the fixed precedence: ALL/ALL for an
    entire-history phrase; for "last week" the seven days from today - 7
    to today - 1; for "this week" Monday of the current ISO week to today;
    for "this month" the first of the current month to today; and null
    otherwise. *)
Theorem X21_date_ranges_on_a_UTC_host (now : Z) (text : string) :
  LocalTZA = 0 -> 0 <= now ->
  let today := Day now in
  detectDateRange now text =
    (if includes text "これまで" || includes text "全期間" then
       Some {| range_start := "ALL"; range_end := "ALL" |}
     else if includes text "先週" then
       Some {| range_start := isoDateOfDay (today - 7);
               range_end := isoDateOfDay (today - 1) |}
     else if includes text "今週" then
       Some {| range_start := isoDateOfDay (mondayOfWeek today);
               range_end := isoDateOfDay today |}
     else if includes text "今月" then
       Some {| range_start := isoDateOfDay (firstOfMonth today);
               range_end := isoDateOfDay today |}
     else None) /\
  (isoWeekday (mondayOfWeek today) = 1 /\
   today - 6 <= mondayOfWeek today <= today) /\
  (civilFromDays (firstOfMonth today) =
     (fst (fst (civilFromDays today)), snd (fst (civilFromDays today)), 1) /\
   firstOfMonth today <= today).
Proof.
  intros Htz Hnow today. split; [| split].
  - unfold detectDateRange. cbv zeta.
    destruct (lastWeek_range now) as [Hs He]. cbv zeta in Hs, He.
    rewrite Hs, He, (thisWeek_start now Htz), (thisMonth_start now Htz Hnow).
    reflexivity.
  - apply mondayOfWeek_is_monday.
  - apply firstOfMonth_is_first.
Qed.

End UtcDateRanges.

Lemma X21_date_ranges_witness :
  let now := 1710504000000 in
  @LocalTZA asciiHost = 0 /\ 0 <= now /\
  @detectDateRange asciiHost now "先週のサマリーをください" =
    Some {| range_start := "2024-03-08"; range_end := "2024-03-14" |}.
Proof.
  split; [reflexivity |]. split; [lia |].
  rewrite (proj1 (@X21_date_ranges_on_a_UTC_host asciiHost 1710504000000
                    "先週のサマリーをください" eq_refl ltac:(lia))).
  vm_compute. reflexivity.
Defined.

(** Days from 1970-01-01 to 9999-12-31 lie in the years 0 to 9999. *)
Lemma year_of_day_bounds (d : Z) :
  0 <= d <= 2932896 -> 0 <= fst (fst (civilFromDays d)) <= 9999.
Proof.
  intros Hd. unfold civilFromDays.
  destruct (era_split d) as [Hr Hz].
  destruct (civilOfDoe ((d + 719468) mod 146097)) as [[yy mm] dd] eqn:Hc.
  destruct (civilOfDoe_facts _ Hr _ _ _ Hc) as (Hy & Hm & Hdd & Hday & _).
  cbn [fst]. set (era := (d + 719468) / 146097) in *.
  set (doe := (d + 719468) mod 146097) in *.
  assert (Hera : 4 <= era <= 24) by lia.
  unfold dayOfEra in Hday.
  destruct (mm <=? 2) eqn:Hm2; [apply Z.leb_le in Hm2 | apply Z.leb_gt in Hm2].
  - assert (Hmp : 306 <= (153 * (mm + 9) + 2) / 5)
      by (apply Z.div_le_lower_bound; lia).
    pose proof (Z.div_mod (yy - 1) 4 ltac:(lia)).
    pose proof (Z.mod_pos_bound (yy - 1) 4 ltac:(lia)).
    pose proof (Z.div_mod (yy - 1) 100 ltac:(lia)).
    pose proof (Z.mod_pos_bound (yy - 1) 100 ltac:(lia)).
    lia.
  - lia.
Qed.

Section RangeDayCounts.
Context `{Host}.

(** X6: on a UTC host, from 31 days after the epoch to the end of the
    year 9999, the day count the summary computes for a resolved range is
    7 for last week, the ISO weekday number of today (1 to 7) for this week
    and the day of the month of today (1 to 31) for this month. *)
Theorem X6_range_day_counts (now : Z) :
  LocalTZA = 0 -> 31 * msPerDay <= now < 253402300800000 ->
  let today := Day now in
  let count text :=
    match detectDateRange now text with
    | Some r => daysOfRange (range_start r) (range_end r)
    | None => NaN
    end in
  (forall text,
     includes text "これまで" || includes text "全期間" = false ->
     includes text "先週" = true -> count text = ofZ 7) /\
  (forall text,
     includes text "これまで" || includes text "全期間" = false ->
     includes text "先週" = false -> includes text "今週" = true ->
     count text = ofZ (isoWeekday today) /\ 1 <= isoWeekday today <= 7) /\
  (forall text,
     includes text "これまで" || includes text "全期間" = false ->
     includes text "先週" = false -> includes text "今週" = false ->
     includes text "今月" = true ->
     count text = ofZ (snd (civilFromDays today)) /\
     1 <= snd (civilFromDays today) <= 31).
Proof.
  intros Htz [Hlo Hhi] today count.
  assert (Htoday : 31 <= today <= 2932896).
  { subst today. unfold Day, msPerDay in *. split.
    - apply Z.div_le_lower_bound; lia.
    - apply Z.lt_succ_r. apply Z.div_lt_upper_bound; lia. }
  assert (Hyear : forall k, 0 <= k <= 31 ->
            0 <= fst (fst (civilFromDays (today - k))) <= 9999)
    by (intros k Hk; apply year_of_day_bounds; lia).
  destruct (lastWeek_range now) as [Hs He]. cbv zeta in Hs, He.
  pose proof (thisWeek_start now Htz) as Hw. cbv zeta in Hw.
  pose proof (thisMonth_start now Htz ltac:(unfold msPerDay in *; lia)) as Hmo.
  pose proof (Z.mod_pos_bound (today + 3) 7 ltac:(lia)) as Hmod.
  destruct (civilFromDays_range today _ _ _ (civilFromDays_eta today)) as [_ Hdom].
  split; [| split].
  - intros text Hall Hlast. subst count. unfold detectDateRange. cbv zeta.
    rewrite Hall, Hlast. cbn [range_start range_end]. rewrite Hs, He.
    fold today. rewrite daysOfRange_iso by (apply Hyear; lia). f_equal. lia.
  - intros text Hall Hlast Hweek. split; [| unfold isoWeekday; lia].
    subst count. unfold detectDateRange. cbv zeta.
    rewrite Hall, Hlast, Hweek. cbn [range_start range_end]. rewrite Hw.
    unfold isoDate. fold today. unfold mondayOfWeek.
    rewrite daysOfRange_iso.
    + f_equal. unfold isoWeekday. lia.
    + apply Hyear. lia.
    + replace today with (today - 0) by lia. apply Hyear. lia.
  - intros text Hall Hlast Hweek Hmonth. split; [| exact Hdom].
    subst count. unfold detectDateRange. cbv zeta.
    rewrite Hall, Hlast, Hweek, Hmonth. cbn [range_start range_end]. rewrite Hmo.
    unfold isoDate. fold today. unfold firstOfMonth.
    rewrite daysOfRange_iso.
    + f_equal. lia.
    + apply Hyear. lia.
    + replace today with (today - 0) by lia. apply Hyear. lia.
Qed.

End RangeDayCounts.

Lemma X6_range_day_counts_witness :
  let now := 1710504000000 in
  @LocalTZA asciiHost = 0 /\ 31 * msPerDay <= now < 253402300800000 /\
  match @detectDateRange asciiHost now "先週の食事のサマリー" with
  | Some r => @daysOfRange asciiHost (range_start r) (range_end r)
  | None => NaN
  end = ofZ 7.
Proof.
  intros now.
  assert (Hb : 31 * msPerDay <= now < 253402300800000)
    by (subst now; unfold msPerDay; lia).
  split; [reflexivity |]. split; [exact Hb |].
  apply (proj1 (@X6_range_day_counts asciiHost now eq_refl Hb));
    vm_compute; reflexivity.
Defined.

(** ** The event handler *)

Lemma repliesOf_app (t1 t2 : list effect) :
  repliesOf (t1 ++ t2) = (repliesOf t1 ++ repliesOf t2)%list.
Proof.
  induction t1 as [|x t1 IH]; [reflexivity |].
  destruct x; cbn [app repliesOf]; rewrite IH; reflexivity.
Qed.

Lemma appendsOf_app (t1 t2 : list effect) :
  appendsOf (t1 ++ t2) = (appendsOf t1 ++ appendsOf t2)%list.
Proof.
  induction t1 as [|x t1 IH]; [reflexivity |].
  destruct x; cbn [app appendsOf]; rewrite IH; reflexivity.
Qed.

(** The retrying call only calls the completion service, logs and
    waits. *)
Lemma retryLoop_quiet (create : nat -> completion + exn)
    (messages : list message) (opts : RetryOptions) (fuel : nat) :
  forall (a : Z) (lastErr : exn),
  let run := retryLoop fuel create messages opts a lastErr in
  repliesOf (fst run) = [] /\ appendsOf (fst run) = [].
Proof.
  induction fuel as [|fuel IH]; intros a lastErr; cbv zeta.
  - split; reflexivity.
  - rewrite retryLoop_S. destruct (a <=? maxRetries opts); [| split; reflexivity].
    destruct (create (Z.to_nat a)) as [r | e]; [split; reflexivity |].
    destruct (negb (isRetryable (statusOf e)) || (a =? maxRetries opts));
      [split; reflexivity |].
    specialize (IH (a + 1) e). cbv zeta in IH.
    destruct (retryLoop fuel create messages opts (a + 1) e) as [t [r | e']];
      cbn [fst] in IH; exact IH.
Qed.

Lemma callOpenAIWithRetry_quiet (create : nat -> completion + exn)
    (messages : list message) (opts : RetryOptions) :
  repliesOf (fst (callOpenAIWithRetry create messages opts)) = [] /\
  appendsOf (fst (callOpenAIWithRetry create messages opts)) = [].
Proof. apply retryLoop_quiet. Qed.

Lemma takeNumeric_all (s : string) :
  forallb isNumeric (list_ascii_of_string (takeNumeric s)) = true.
Proof.
  induction s as [|c s IH]; [reflexivity |]. cbn [takeNumeric].
  destruct (isNumeric c) eqn:Hc; [| reflexivity].
  cbn [list_ascii_of_string forallb]. now rewrite Hc.
Qed.

Lemma fieldAt_numeric (label s v : string) :
  fieldAt label s = Some v -> isNumericString v = true.
Proof.
  unfold fieldAt. destruct (dropPrefix label s) as [r|]; [| discriminate].
  destruct (dropOne _ r) as [r2|]; [| discriminate].
  destruct (takeNumeric _) as [|a b] eqn:Ht; [discriminate |].
  intros Hv. injection Hv as <-. unfold isNumericString.
  rewrite <- Ht at 2. now rewrite takeNumeric_all.
Qed.

Lemma matchField_numeric (label s v : string) :
  matchField label s = Some v -> isNumericString v = true.
Proof.
  induction s as [|c s IH]; cbn [matchField].
  - destruct (fieldAt label "") as [w|] eqn:Hf; [| discriminate].
    intros Hv. injection Hv as <-. exact (fieldAt_numeric _ _ _ Hf).
  - destruct (fieldAt label (String c s)) as [w|] eqn:Hf; [| exact IH].
    intros Hv. injection Hv as <-. exact (fieldAt_numeric _ _ _ Hf).
Qed.

Lemma nutrientCell_shape (label text : string) :
  isNutrientCell (nutrientCell label text) = true.
Proof.
  unfold nutrientCell.
  destruct (matchField label text) as [v|] eqn:Hm; [| reflexivity].
  exact (matchField_numeric _ _ _ Hm).
Qed.

Section HandlerProps.
Context `{Host}.

(** X7: an event that is null throws in its handler and leaves only the
    error line of its task; any other event that is not a message event
    with a text message leaves nothing at all. *)
Theorem X7_other_events_are_ignored (env : Env) (event : value) :
  (event = VNull \/ event = VUndefined ->
   eventTask env event = ([Console console_error "[LINE][EVENT][ERR]"], Returned tt)) /\
  (event <> VNull -> event <> VUndefined ->
   isStr (optProp event "type") "message"
     && isStr (optProp (optProp event "message") "type") "text" = false ->
   eventTask env event = ([], Returned tt)).
Proof.
  split.
  - intros [-> | ->]; reflexivity.
  - intros Hnull Hundef Hkind. unfold eventTask, handleEvent.
    destruct event; try contradiction; try reflexivity.
    cbn [prop optProp] in *. unfold bind at 1. cbn [ret app].
    destruct (isStr (lookupField fields "type") "message"); [| reflexivity].
    cbn [andb] in Hkind. rewrite Hkind. reflexivity.
Qed.

(** X8: the conversation branch never throws and ends with exactly one
    reply, whatever the completion service does: the first 1000 code units
    of the answer, the please-repeat text when the answer has no content,
    the internal-error text when the call failed. *)
Theorem X8_chat_always_replies (env : Env) (replyToken : value) (userText : string) :
  let call := callOpenAIWithRetry (create env) (chatMessages userText) chatOptions in
  let text :=
    match snd call with
    | Returned c =>
        match choice_content c with
        | Some s => slice0 1000 s
        | None => "すみません、もう一度お願いします。"
        end
    | Threw _ => "内部エラーが発生しました。時間をおいて再試行してください。"
    end in
  handleChat env replyToken userText =
    ((fst call ++ [LineReply replyToken text])%list, Returned tt) /\
  repliesOf (fst (handleChat env replyToken userText)) = [text].
Proof.
  cbv zeta. unfold handleChat. fold (chatMessages userText).
  pose proof (callOpenAIWithRetry_quiet (create env) (chatMessages userText)
                chatOptions) as [Hq _].
  destruct (callOpenAIWithRetry (create env) (chatMessages userText) chatOptions)
    as [t [c | e]]; cbn [fst snd] in *.
  - cbn [bind ret tryCatch replyToLine emit app fst].
    rewrite !app_nil_r. split; [reflexivity |].
    now rewrite repliesOf_app, Hq.
  - cbn [bind ret tryCatch replyToLine emit app fst].
    rewrite !app_nil_r. split; [reflexivity |].
    now rewrite repliesOf_app, Hq.
Qed.

(** X9: when the nutrient estimate arrives and the sheet accepts the
    row, the meal branch appends exactly one row of 14 cells to the meal
    log and then sends exactly one reply, which echoes the estimate.  The
    cells are the log date, the log time, the meal date, the meal type,
    the text, and for each of the nine nutrients what the estimate says of
    it (a string of digits and dots, or the number 0).  For a text of the
    category meal the meal type is the label of the first kind of meal
    whose keyword the text contains. *)
Theorem X9_meal_log_row (env : Env) (replyToken : value) (userText : string)
    (c : completion) :
  let call := callOpenAIWithRetry (create env) (nutritionMessages userText)
                nutritionOptions in
  snd call = Returned c ->
  authClient (sheets env) = None ->
  values_append (sheets env) "Meal Log!A2" = None ->
  let now := clock env 1 in
  let typeCell :=
    match firstMealType mealTypeTable (toLowerCase userText) with
    | Some m => CStr (mealTypeLabel m)
    | None => CNull
    end in
  let nutrients :=
    map (fun label => nutrientCell label (contentOr c ""))
      ["カロリー"; "タンパク質"; "脂質"; "炭水化物"; "ビタミンB6"; "ビタミンD";
       "マグネシウム"; "鉄"; "亜鉛"] in
  handleMeal env replyToken userText =
    ((fst call ++
      [ GetAuthClient;
        SheetsAppend "Meal Log!A2"
          ([ CStr (isoDate now); CStr (timeHHMM now);
             CStr (detectMealDate userText now); typeCell; CStr userText ]
           ++ nutrients);
        LineReply replyToken ("記録しました📊" ++ nl ++ contentOr c "") ])%list,
     Returned tt) /\
  (detectLogCategory userText = Some meal ->
   exists m, typeCell = CStr (mealTypeLabel m) /\
             In (mealTypeLabel m) ["朝食"; "昼食"; "夕食"; "間食"]) /\
  length nutrients = 9%nat /\
  Forall (fun x => isNutrientCell x = true) nutrients.
Proof.
  intros call Hcall Hauth Happend now typeCell nutrients.
  assert (Htable : detectMealType userText =
                   firstMealType mealTypeTable (toLowerCase userText)).
  { unfold detectMealType, firstMealType, mealTypeTable, includesAny.
    cbn [existsb]. rewrite !orb_false_r.
    repeat match goal with
    | |- context [includes ?a ?b] => destruct (includes a b); cbn [orb]
    end; reflexivity. }
  split; [| split; [| split]].
  - unfold handleMeal. fold (nutritionMessages userText). fold call.
    destruct call as [t o]. cbn [snd] in Hcall. subst o.
    rewrite bind_returned. cbn [fst].
    unfold appendMealLog, getAuthClient, valuesAppend, replyToLine.
    rewrite Hauth, Happend, Htable. reflexivity.
  - intros Hmeal. apply detectLogCategory_meal in Hmeal. rewrite Htable in Hmeal.
    subst typeCell. destruct (firstMealType mealTypeTable (toLowerCase userText))
      as [m|]; [| contradiction].
    exists m. split; [reflexivity |]. destruct m; cbn; auto.
  - reflexivity.
  - apply Forall_forall. intros x Hx. apply in_map_iff in Hx as [label [<- _]].
    apply nutrientCell_shape.
Qed.

(** X10: when the completion call fails, the meal branch and the end of
    the summary branch throw its error on: no row is appended and no
    reply is sent. *)
Theorem X10_failed_completion_is_silent (env : Env) (replyToken : value)
    (userText text : string) (e : exn) :
  (snd (callOpenAIWithRetry (create env) (nutritionMessages userText)
          nutritionOptions) = Threw e ->
   let run := handleMeal env replyToken userText in
   snd run = Threw e /\ repliesOf (fst run) = [] /\ appendsOf (fst run) = []) /\
  (snd (callOpenAIWithRetry (create env)
          [ {| msg_role := system; msg_content := feedbackPrompt |};
            {| msg_role := user; msg_content := text |} ] summaryOptions) = Threw e ->
   let run := sendSummary env replyToken text in
   snd run = Threw e /\ repliesOf (fst run) = [] /\ appendsOf (fst run) = []).
Proof.
  split.
  - intros Hcall. cbv zeta. unfold handleMeal. fold (nutritionMessages userText).
    pose proof (callOpenAIWithRetry_quiet (create env) (nutritionMessages userText)
                  nutritionOptions) as [Hr Ha].
    destruct (callOpenAIWithRetry _ (nutritionMessages userText) nutritionOptions)
      as [t o]. cbn [fst snd] in *. subst o. rewrite bind_threw. now cbn [fst snd].
  - intros Hcall. cbv zeta. unfold sendSummary.
    pose proof (callOpenAIWithRetry_quiet (create env)
                  [ {| msg_role := system; msg_content := feedbackPrompt |};
                    {| msg_role := user; msg_content := text |} ]
                  summaryOptions) as [Hr Ha].
    destruct (callOpenAIWithRetry _ _ summaryOptions) as [t o].
    cbn [fst snd] in *. subst o. rewrite bind_threw. now cbn [fst snd].
Qed.

Lemma handleEvent_text (env : Env) (fields : list (string * value)) (s : string) :
  lookupField fields "type" = VStr "message" ->
  optProp (lookupField fields "message") "type" = VStr "text" ->
  optProp (lookupField fields "message") "text" = VStr s ->
  trim s <> "" ->
  handleEvent env (VObj fields) =
  (emit (Console console_log "[LINE][USERID]") ;;
   let userText := trim s in
   let replyToken := lookupField fields "replyToken" in
   match detectLogCategory userText, detectDateRange (clock env 0) userText with
   | Some meal, Some r => handleSummary env replyToken r
   | Some meal, None => handleMeal env replyToken userText
   | Some exercise, _ =>
       handleSimple env replyToken userText appendExerciseLog "運動を記録しました💪"
   | Some meditation, _ =>
       handleSimple env replyToken userText appendMeditationLog "瞑想を記録しました🧘"
   | Some journal, _ =>
       handleSimple env replyToken userText appendJournalLog "ジャーナルを記録しました✍️"
   | None, _ => handleChat env replyToken userText
   end).
Proof.
  intros Htype Hmtype Htext Htrim. unfold handleEvent. cbn [prop optProp].
  unfold ret at 1. rewrite bind_returned, Htype.
  change (isStr (VStr "message") "message") with true. cbn [negb].
  rewrite Hmtype. change (isStr (VStr "text") "text") with true. cbn [negb].
  rewrite Htext, !bind_emit, bind_ret_l.
  apply String.eqb_neq in Htrim. rewrite Htrim. reflexivity.
Qed.

(** X11: a text message classified as exercise, meditation or journal
    is logged without any call of the completion service: one row of log
    date, log time and the trimmed text goes to the sheet of its category,
    and one acknowledgement is sent; when the append throws, no reply is
    sent and the task only logs the error. *)
Theorem X11_plain_logs (env : Env) (fields : list (string * value)) (s : string)
    (cat : Category) :
  lookupField fields "type" = VStr "message" ->
  optProp (lookupField fields "message") "type" = VStr "text" ->
  optProp (lookupField fields "message") "text" = VStr s ->
  trim s <> "" ->
  detectLogCategory (trim s) = Some cat -> cat <> meal ->
  authClient (sheets env) = None ->
  let now := clock env 1 in
  let logged :=
    [ Console console_log "[LINE][USERID]"; GetAuthClient;
      SheetsAppend (sheetOf cat)
        [CStr (isoDate now); CStr (timeHHMM now); CStr (trim s)] ] in
  (values_append (sheets env) (sheetOf cat) = None ->
   eventTask env (VObj fields) =
   ((logged ++ [LineReply (lookupField fields "replyToken")
                  (ackOf cat ++ nl ++ trim s)])%list, Returned tt)) /\
  (forall e, values_append (sheets env) (sheetOf cat) = Some e ->
   eventTask env (VObj fields) =
   ((logged ++ [Console console_error "[LINE][EVENT][ERR]"])%list, Returned tt)).
Proof.
  intros Htype Hmtype Htext Htrim Hcat Hmeal Hauth now logged.
  assert (Hrun : forall range ack append,
            append = (fun g r => getAuthClient g ;; valuesAppend g range r) ->
            handleSimple env (lookupField fields "replyToken") (trim s) append ack =
            match values_append (sheets env) range with
            | None =>
                ([GetAuthClient;
                  SheetsAppend range [CStr (isoDate now); CStr (timeHHMM now);
                                      CStr (trim s)];
                  LineReply (lookupField fields "replyToken") (ack ++ nl ++ trim s)],
                 Returned tt)
            | Some e =>
                ([GetAuthClient;
                  SheetsAppend range [CStr (isoDate now); CStr (timeHHMM now);
                                      CStr (trim s)]],
                 Threw e)
            end).
  { intros range ack append ->. unfold handleSimple, getAuthClient, valuesAppend.
    rewrite Hauth. fold now.
    destruct (values_append (sheets env) range); reflexivity. }
  unfold eventTask.
  rewrite (handleEvent_text env fields s Htype Hmtype Htext Htrim). cbv zeta.
  rewrite Hcat.
  destruct cat; [contradiction | | |]; cbn [sheetOf ackOf];
    match goal with
    | |- context [handleSimple _ _ _ ?f ?a] =>
        rewrite (Hrun _ a f eq_refl)
    end;
    (split; [intros -> | intros e ->]);
    destruct (detectDateRange (clock env 0) (trim s)); reflexivity.
Qed.

(** X12: [POST] answers 200, 401 or 500, and it runs the tasks of the
    events only when it answers 200; without the channel secret it
    answers 500. *)
Theorem X12_tasks_only_when_accepted (secret : option string) (envs : nat -> Env)
    (req : Request) :
  let h := POST secret envs req in
  (status (response h) = 200 \/ status (response h) = 401 \/
   status (response h) = 500) /\
  (status (response h) <> 200 -> taskEffects h = []) /\
  (secret = None -> status (response h) = 500).
Proof.
  cbv zeta. destruct secret as [s|]; [| cbn; repeat split; auto].
  destruct (signatureInvalid s
              (match x_line_signature req with Some x => x | None => "" end)
              (bodyText req)) eqn:Hinv.
  - assert (Hne : x_line_signature req <> Some (hmacBase64 s (bodyText req))).
    { intros Heq. apply signatureInvalid_false in Heq. congruence. }
    rewrite (POST_rejected s envs req Hne). cbn. repeat split; auto; discriminate.
  - apply signatureInvalid_false in Hinv.
    destruct (JSON_parse (bodyText req)) as [j|] eqn:Hj.
    + rewrite (POST_accepted s envs req j Hinv Hj).
      destruct j; cbn; repeat split; auto; try discriminate; intros Hc; contradiction.
    + rewrite (POST_unparsable s envs req Hinv Hj). cbn.
      repeat split; auto; discriminate.
Qed.

End HandlerProps.

Lemma X7_other_events_witness :
  let event := VObj [("type", VStr "follow"); ("replyToken", VStr "token-1")] in
  event <> VNull /\ event <> VUndefined /\
  isStr (optProp event "type") "message"
    && isStr (optProp (optProp event "message") "type") "text" = false /\
  @eventTask asciiHost (quietEnv "" []) event = ([], Returned tt).
Proof.
  intros event.
  assert (H1 : event <> VNull) by discriminate.
  assert (H2 : event <> VUndefined) by discriminate.
  assert (H3 : isStr (optProp event "type") "message"
               && isStr (optProp (optProp event "message") "type") "text" = false)
    by reflexivity.
  split; [exact H1 |]. split; [exact H2 |]. split; [exact H3 |].
  exact (proj2 (@X7_other_events_are_ignored asciiHost (quietEnv "" []) event)
           H1 H2 H3).
Defined.

Lemma X9_meal_log_row_witness :
  let answer := "カロリー: 350 kcal" ++ nl ++ "タンパク質：20.5 g" in
  let env := quietEnv answer [] in
  let userText := "昨日の昼食はサラダ" in
  snd (callOpenAIWithRetry (create env) (nutritionMessages userText) nutritionOptions)
    = Returned {| choice_content := Some answer |} /\
  authClient (sheets env) = None /\
  values_append (sheets env) "Meal Log!A2" = None /\
  @handleMeal asciiHost env (VStr "token-1") userText =
    ([ ChatCompletionsCreate (nutritionMessages userText) (6 # 10) 250;
       GetAuthClient;
       SheetsAppend "Meal Log!A2"
         [ CStr "2024-03-15"; CStr "12:00"; CStr "2024-03-14"; CStr "昼食";
           CStr userText; CStr "350"; CStr "20.5"; CNum 0; CNum 0; CNum 0;
           CNum 0; CNum 0; CNum 0; CNum 0 ];
       LineReply (VStr "token-1") ("記録しました📊" ++ nl ++ answer) ],
     Returned tt).
Proof.
  intros answer env userText.
  assert (H1 : snd (callOpenAIWithRetry (create env) (nutritionMessages userText)
                      nutritionOptions) = Returned {| choice_content := Some answer |})
    by reflexivity.
  assert (H2 : authClient (sheets env) = None) by reflexivity.
  assert (H3 : values_append (sheets env) "Meal Log!A2" = None) by reflexivity.
  split; [exact H1 |]. split; [exact H2 |]. split; [exact H3 |].
  rewrite (proj1 (@X9_meal_log_row asciiHost env (VStr "token-1") userText _
                    H1 H2 H3)).
  vm_compute. reflexivity.
Defined.

Lemma X10_failed_completion_witness :
  let env := failingEnv unauthorized in
  snd (callOpenAIWithRetry (create env) (nutritionMessages "朝食は卵") nutritionOptions)
    = Threw unauthorized /\
  snd (@handleMeal asciiHost env (VStr "token-1") "朝食は卵") = Threw unauthorized /\
  repliesOf (fst (@handleMeal asciiHost env (VStr "token-1") "朝食は卵")) = [] /\
  appendsOf (fst (@handleMeal asciiHost env (VStr "token-1") "朝食は卵")) = [].
Proof.
  intros env.
  assert (H1 : snd (callOpenAIWithRetry (create env) (nutritionMessages "朝食は卵")
                      nutritionOptions) = Threw unauthorized) by reflexivity.
  split; [exact H1 |].
  exact (proj1 (@X10_failed_completion_is_silent asciiHost env (VStr "token-1")
                  "朝食は卵" "" unauthorized) H1).
Defined.

Lemma X11_plain_logs_witness :
  let env := quietEnv "" [] in
  let fields := textEventFields " 30分走った " in
  trim " 30分走った " = "30分走った" /\
  @detectLogCategory asciiHost "30分走った" = Some exercise /\
  @eventTask asciiHost env (VObj fields) =
  ([ Console console_log "[LINE][USERID]"; GetAuthClient;
     SheetsAppend "Exercise Log!A2"
       [CStr "2024-03-15"; CStr "12:00"; CStr "30分走った"];
     LineReply (VStr "token-1") ("運動を記録しました💪" ++ nl ++ "30分走った") ],
   Returned tt).
Proof.
  intros env fields.
  assert (Htrim : trim " 30分走った " = "30分走った") by (vm_compute; reflexivity).
  assert (Hcat : @detectLogCategory asciiHost "30分走った" = Some exercise)
    by (vm_compute; reflexivity).
  split; [exact Htrim |]. split; [exact Hcat |].
  pose proof (@X11_plain_logs asciiHost env fields " 30分走った " exercise
                eq_refl eq_refl eq_refl) as Hx.
  rewrite Htrim in Hx.
  specialize (Hx ltac:(discriminate) Hcat ltac:(discriminate) eq_refl).
  cbv zeta in Hx. destruct Hx as [Hok _]. rewrite (Hok eq_refl).
  vm_compute. reflexivity.
Defined.

Lemma X12_tasks_only_when_accepted_witness :
  let req := {| x_line_signature := Some "forged";
                bodyText := envelopeJson [textEventJson "朝食は卵"] |} in
  let h := @POST asciiHost (Some "secret") (fun _ => quietEnv "" []) req in
  status (response h) <> 200 /\ status (response h) = 401 /\ taskEffects h = [].
Proof.
  intros req h.
  assert (H401 : status (response h) = 401) by (vm_compute; reflexivity).
  assert (Hne : status (response h) <> 200) by (rewrite H401; discriminate).
  split; [exact Hne |]. split; [exact H401 |].
  exact (proj1 (proj2 (@X12_tasks_only_when_accepted asciiHost (Some "secret")
                         (fun _ => quietEnv "" []) req)) Hne).
Defined.

(** ** The sheets *)

(** X13: when the sheet answers, [getMealLogsByRange] reads the range
    A2:N once and returns, for ALL/ALL, every row, and otherwise exactly
    the rows, in sheet order, whose meal-date cell exists and lies between
    start and end in the order of strings, which is the order of their
    UTF-16 code units. *)
Theorem X13_rows_of_a_range (g : SheetsService) (start end_ : string)
    (rows : list row) :
  authClient g = None -> values_get g "Meal Log!A2:N" = inl rows ->
  exists result,
    getMealLogsByRange g start end_ =
      ([GetAuthClient; SheetsGet "Meal Log!A2:N"], Returned result) /\
    (start = "ALL" /\ end_ = "ALL" -> result = rows) /\
    (~ (start = "ALL" /\ end_ = "ALL") ->
     result =
       filter (fun r => match nth_error r 2 with
                        | Some c => unitsLeb (codeUnits start) (codeUnits c)
                                    && unitsLeb (codeUnits c) (codeUnits end_)
                        | None => false
                        end) rows /\
     forall r, In r result <->
               In r rows /\
               exists c, nth_error r 2 = Some c /\ strLe start c /\ strLe c end_).
Proof.
  intros Ha Hg. eexists. split; [apply (getMealLogsByRange_ok g _ _ rows Ha Hg) |].
  split.
  - intros [-> ->]. reflexivity.
  - intros Hnot.
    replace (String.eqb start "ALL" && String.eqb end_ "ALL") with false.
    + split; [reflexivity |]. intros r. now rewrite filter_In, inRange_iff.
    + symmetry. apply andb_false_iff.
      destruct (String.eqb_spec start "ALL") as [Hs | Hs]; [| now left].
      destruct (String.eqb_spec end_ "ALL") as [He | He]; [| now right].
      exfalso. apply Hnot. now split.
Qed.

(** Rows of three days, a row without a meal date, and a row whose date
    cell is an emoji: between the ideograph 一 (U+4E00) and the full-width
    ７ (U+FF17) lies, in code units, the emoji (its first unit is U+D83D),
    and no date. *)
Lemma X13_rows_of_a_range_witness :
  let rows := [mealRow "2024-03-12" "500"; ["2024-03-13"; "08:00"];
               mealRow "2024-03-20" "700"; mealRow "2024-03-14" "300";
               mealRow "😀" "1"] in
  let g := sheets (quietEnv "" rows) in
  authClient g = None /\ values_get g "Meal Log!A2:N" = inl rows /\
  ~ ("2024-03-12" = "ALL" /\ "2024-03-14" = "ALL") /\
  ~ ("一" = "ALL" /\ "７" = "ALL") /\
  getMealLogsByRange g "2024-03-12" "2024-03-14" =
    ([GetAuthClient; SheetsGet "Meal Log!A2:N"],
     Returned [mealRow "2024-03-12" "500"; mealRow "2024-03-14" "300"]) /\
  getMealLogsByRange g "一" "７" =
    ([GetAuthClient; SheetsGet "Meal Log!A2:N"], Returned [mealRow "😀" "1"]).
Proof.
  intros rows g.
  assert (Ha : authClient g = None) by reflexivity.
  assert (Hg : values_get g "Meal Log!A2:N" = inl rows) by reflexivity.
  assert (Hn : ~ ("2024-03-12" = "ALL" /\ "2024-03-14" = "ALL"))
    by (intros [Hc _]; discriminate).
  assert (Hn2 : ~ ("一" = "ALL" /\ "７" = "ALL"))
    by (intros [Hc _]; discriminate).
  split; [exact Ha |]. split; [exact Hg |]. split; [exact Hn |].
  split; [exact Hn2 |]. split.
  - destruct (X13_rows_of_a_range g "2024-03-12" "2024-03-14" rows Ha Hg)
      as (result & Hrun & _ & Hfilter).
    rewrite Hrun. destruct (Hfilter Hn) as [-> _]. vm_compute. reflexivity.
  - destruct (X13_rows_of_a_range g "一" "７" rows Ha Hg)
      as (result & Hrun & _ & Hfilter).
    rewrite Hrun. destruct (Hfilter Hn2) as [-> _]. vm_compute. reflexivity.
Defined.

(** X14: when the sheet answers, [getMealLogDateRange] reads column C
    once and returns null when the column holds no non-empty cell;
    otherwise the start it returns is a least and the end a greatest
    non-empty cell of the column in the order of strings (that of their
    UTF-16 code units), so start is not after end. *)
Theorem X14_date_range_of_the_log (g : SheetsService) (col : list row) :
  authClient g = None -> values_get g "Meal Log!C2:C" = inl col ->
  let dates := firstCells col in
  (forall d, In d dates <->
             d <> "" /\ exists r, In r col /\ nth_error r 0 = Some d) /\
  (dates = [] ->
   getMealLogDateRange g =
     ([GetAuthClient; SheetsGet "Meal Log!C2:C"], Returned None)) /\
  (dates <> [] ->
   exists lo hi,
     getMealLogDateRange g =
       ([GetAuthClient; SheetsGet "Meal Log!C2:C"],
        Returned (Some {| range_start := lo; range_end := hi |})) /\
     In lo dates /\ In hi dates /\ lo <> "" /\ hi <> "" /\
     (forall d, In d dates -> strLe lo d /\ strLe d hi) /\
     strLe lo hi).
Proof.
  intros Ha Hg dates.
  pose proof (getMealLogDateRange_ok g col Ha Hg) as Hrun. fold dates in Hrun.
  assert (Hnonempty : forall c, In c dates -> c <> "").
  { intros c Hc. unfold dates, firstCells in Hc.
    apply in_flat_map in Hc as [r [_ Hr]].
    destruct r as [|x r]; [contradiction |].
    destruct (String.eqb_spec x ""); [contradiction |].
    destruct Hr as [<- | []]. assumption. }
  split; [intros d; apply firstCells_In |]. split.
  - intros Hd. rewrite Hd in Hrun. exact Hrun.
  - intros Hd. destruct dates as [|c cs] eqn:Hdates; [contradiction |].
    destruct (sortStrings_bounds (c :: cs) ltac:(discriminate)) as (Hlo & Hhi & Hall).
    exists (hd "" (sortStrings (c :: cs))), (last (sortStrings (c :: cs)) "").
    split; [exact Hrun |]. split; [exact Hlo |]. split; [exact Hhi |].
    split; [now apply Hnonempty |]. split; [now apply Hnonempty |].
    split; [exact Hall |]. now apply Hall.
Qed.

(** A column with a date, an empty row, an empty cell, the full-width
    ３月 (first unit U+FF13) and an emoji (first unit U+D83D): the date is
    least, and ３月 is greatest although its code point is below the
    emoji's. *)
Lemma X14_date_range_witness :
  let col := [["３月"]; []; ["2024-03-10"]; [""]; ["😀"]] in
  let g := {| authClient := None; values_get := fun _ => inl col;
              values_append := fun _ => None |} in
  authClient g = None /\ values_get g "Meal Log!C2:C" = inl col /\
  firstCells col <> [] /\
  getMealLogDateRange g =
    ([GetAuthClient; SheetsGet "Meal Log!C2:C"],
     Returned (Some {| range_start := "2024-03-10"; range_end := "３月" |})).
Proof.
  intros col g.
  assert (Ha : authClient g = None) by reflexivity.
  assert (Hg : values_get g "Meal Log!C2:C" = inl col) by reflexivity.
  assert (Hne : firstCells col <> []) by (vm_compute; discriminate).
  split; [exact Ha |]. split; [exact Hg |]. split; [exact Hne |].
  destruct (proj2 (proj2 (X14_date_range_of_the_log g col Ha Hg)) Hne)
    as (lo & hi & Hrun & Hlo & Hhi & _ & _ & Hall & _).
  rewrite Hrun.
  assert (Elo : lo = "2024-03-10").
  { destruct (Hall "2024-03-10" ltac:(vm_compute; tauto)) as [H1 _].
    vm_compute in Hlo. destruct Hlo as [<- | [<- | [<- | []]]];
      [vm_compute in H1; discriminate | reflexivity |
       vm_compute in H1; discriminate]. }
  assert (Ehi : hi = "３月").
  { destruct (Hall "３月" ltac:(vm_compute; tauto)) as [_ H2].
    vm_compute in Hhi. destruct Hhi as [<- | [<- | [<- | []]]];
      [reflexivity | vm_compute in H2; discriminate |
       vm_compute in H2; discriminate]. }
  now rewrite Elo, Ehi.
Defined.

(** X15: when [getAuthClient] throws, none of the seven sheet functions
    sends a request to the sheet: each throws the same error on after the
    authentication attempt alone. *)
Theorem X15_no_request_without_auth (g : SheetsService) (e : exn)
    (r : list cell) (date start end_ : string) :
  authClient g = Some e ->
  appendMealLog g r = ([GetAuthClient], Threw e) /\
  appendExerciseLog g r = ([GetAuthClient], Threw e) /\
  appendMeditationLog g r = ([GetAuthClient], Threw e) /\
  appendJournalLog g r = ([GetAuthClient], Threw e) /\
  getMealLogsByDate g date = ([GetAuthClient], Threw e) /\
  getMealLogsByRange g start end_ = ([GetAuthClient], Threw e) /\
  getMealLogDateRange g = ([GetAuthClient], Threw e).
Proof.
  intros Ha.
  unfold appendMealLog, appendExerciseLog, appendMeditationLog, appendJournalLog,
    getMealLogsByDate, getMealLogsByRange, getMealLogDateRange, getAuthClient.
  rewrite Ha. repeat split.
Qed.

Lemma X15_no_request_without_auth_witness :
  let g := {| authClient := Some unauthorized; values_get := fun _ => inl [];
              values_append := fun _ => None |} in
  authClient g = Some unauthorized /\
  getMealLogDateRange g = ([GetAuthClient], Threw unauthorized).
Proof.
  intros g. split; [reflexivity |].
  apply (X15_no_request_without_auth g unauthorized [] "" "" "" eq_refl).
Defined.

(** X16: when the sheet answers, [getMealLogsByDate] reads the range
    A2:N once and returns exactly the rows whose meal-date cell is the
    date asked for, in the order and as often as the sheet has them; a row
    too short to have that cell is never returned. *)
Theorem X16_rows_of_a_date (g : SheetsService) (date : string) (rows : list row) :
  authClient g = None -> values_get g "Meal Log!A2:N" = inl rows ->
  let dated r := match nth_error r 2 with
                 | Some c => String.eqb c date
                 | None => false
                 end in
  getMealLogsByDate g date =
    ([GetAuthClient; SheetsGet "Meal Log!A2:N"], Returned (filter dated rows)) /\
  (forall r, In r (filter dated rows) <-> In r rows /\ nth_error r 2 = Some date) /\
  (forall before r after,
     rows = (before ++ r :: after)%list -> nth_error r 2 = Some date ->
     filter dated rows = (filter dated before ++ r :: filter dated after)%list).
Proof.
  intros Ha Hg dated.
  assert (Hdated : forall r, dated r = true <-> nth_error r 2 = Some date).
  { intros r. unfold dated. destruct (nth_error r 2) as [c|].
    - rewrite String.eqb_eq. split; congruence.
    - split; discriminate. }
  split; [| split].
  - unfold getMealLogsByDate, getAuthClient, valuesGet. rewrite Ha, Hg. reflexivity.
  - intros r. now rewrite filter_In, Hdated.
  - intros before r after -> Hr. rewrite filter_app. cbn [filter].
    now rewrite (proj2 (Hdated r) Hr).
Qed.

Lemma X16_rows_of_a_date_witness :
  let rows := [mealRow "2024-03-12" "500"; ["2024-03-12"];
               mealRow "2024-03-14" "300"; mealRow "2024-03-12" "200"] in
  let g := sheets (quietEnv "" rows) in
  authClient g = None /\ values_get g "Meal Log!A2:N" = inl rows /\
  getMealLogsByDate g "2024-03-12" =
    ([GetAuthClient; SheetsGet "Meal Log!A2:N"],
     Returned [mealRow "2024-03-12" "500"; mealRow "2024-03-12" "200"]).
Proof.
  intros rows g.
  assert (Ha : authClient g = None) by reflexivity.
  assert (Hg : values_get g "Meal Log!A2:N" = inl rows) by reflexivity.
  split; [exact Ha |]. split; [exact Hg |].
  rewrite (proj1 (X16_rows_of_a_date g "2024-03-12" rows Ha Hg)).
  vm_compute. reflexivity.
Defined.

(** ** The reminder *)

(** X17: the reminder answers 400 and pushes nothing when the recipient
    is not configured (unset or empty); otherwise it answers 200 after
    exactly one push to the recipient, of the morning text exactly for type
    morning, of the night text exactly for type night, and of the default
    text for every other or missing type. *)
Theorem X17_reminder (USER_ID type : option string) :
  let run := reminderGET USER_ID type in
  (USER_ID = None \/ USER_ID = Some "" ->
   fst run = [] /\ exists b, snd run = Returned {| status := 400; body := b |}) /\
  (forall userId, USER_ID = Some userId -> userId <> "" ->
   exists text b,
     run = ([LinePush userId text], Returned {| status := 200; body := b |}) /\
     (text = morningMessage <-> type = Some "morning") /\
     (text = nightMessage <-> type = Some "night") /\
     (text = defaultMessage <-> type <> Some "morning" /\ type <> Some "night")).
Proof.
  cbv zeta. split.
  - intros [-> | ->]; (split; [reflexivity | eexists; reflexivity]).
  - intros userId -> Hne. destruct userId as [|c u]; [contradiction |].
    unfold reminderGET, pushToLine.
    destruct type as [t|].
    + destruct (String.eqb_spec t "morning") as [-> | Hm].
      * eexists; eexists. split; [reflexivity |].
        repeat split; try reflexivity; try discriminate;
          intros; try congruence.
        destruct H as [Hc _]. contradiction.
      * destruct (String.eqb_spec t "night") as [-> | Hn].
        -- eexists; eexists. split; [reflexivity |].
           repeat split; try reflexivity; try discriminate;
             intros; try congruence.
           destruct H as [_ Hc]. contradiction.
        -- eexists; eexists. split; [reflexivity |].
           repeat split; try reflexivity; try discriminate;
             intros; try congruence.
    + eexists; eexists. split; [reflexivity |].
      repeat split; try reflexivity; try discriminate.
Qed.

Lemma X17_reminder_witness :
  Some "U1" = Some "U1" /\ "U1" <> "" /\
  reminderGET (Some "U1") (Some "Morning") =
  ([LinePush "U1" defaultMessage],
   Returned {| status := 200;
               body := JsonBody (VObj [("ok", VBool true); ("type", VStr "Morning")]) |}).
Proof.
  split; [reflexivity |]. split; [discriminate |].
  destruct (proj2 (X17_reminder (Some "U1") (Some "Morning")) "U1" eq_refl
              ltac:(discriminate)) as (text & b & Hrun & _).
  clear Hrun. reflexivity.
Defined.

(** ** The nutrient report *)

Lemma concat_empty_cons (w : string) (ws : list string) :
  String.concat "" (w :: ws) = w ++ String.concat "" ws.
Proof.
  destruct ws as [|x ws]; cbn [String.concat].
  - clear. induction w as [|c w IH]; [reflexivity |]. cbn. now rewrite <- IH.
  - reflexivity.
Qed.

Lemma whiteSpaceRun_nil : whiteSpaceRun "".
Proof. exists []. split; [constructor | reflexivity]. Qed.

Lemma whiteSpaceRun_cons (w s : string) :
  In w whiteSpace -> whiteSpaceRun s -> whiteSpaceRun (w ++ s).
Proof.
  intros Hw (ws & Hall & ->). exists (w :: ws). split; [now constructor |].
  now rewrite concat_empty_cons.
Qed.

(** What [dropAll] removes is a run of white space. *)
Lemma dropAll_run (fuel : nat) :
  forall s, exists gap, whiteSpaceRun gap /\ s = gap ++ dropAll fuel whiteSpace s.
Proof.
  induction fuel as [|fuel IH]; intros s; cbn [dropAll].
  - exists "". split; [apply whiteSpaceRun_nil | reflexivity].
  - destruct (dropOne whiteSpace s) as [r|] eqn:Hd.
    + destruct (dropOne_some _ _ _ Hd) as [w [Hw ->]].
      destruct (IH r) as (gap & Hgap & Hr). exists (w ++ gap).
      split; [now apply whiteSpaceRun_cons |].
      now rewrite string_app_assoc, <- Hr.
    + exists "". split; [apply whiteSpaceRun_nil | reflexivity].
Qed.

(** [takeNumeric] stops before a character that is no digit and no dot. *)
Lemma takeNumeric_split (s : string) :
  exists rest, s = takeNumeric s ++ rest /\ startsNumeric rest = false.
Proof.
  induction s as [|c s (rest & IH & Hrest)]; [now exists "" |]. cbn [takeNumeric].
  destruct (isNumeric c) eqn:Hc.
  - exists rest. split; [| exact Hrest]. cbn [String.append]. now rewrite <- IH.
  - exists (String c s). split; [reflexivity | exact Hc].
Qed.

Lemma fieldAt_sound (label s v : string) :
  fieldAt label s = Some v ->
  exists colon gap rest,
    s = label ++ colon ++ gap ++ v ++ rest /\
    (colon = ":" \/ colon = "：") /\ whiteSpaceRun gap /\ startsNumeric rest = false.
Proof.
  unfold fieldAt. destruct (dropPrefix label s) as [r|] eqn:Hp; [| discriminate].
  destruct (dropOne _ r) as [r2|] eqn:Hc; [| discriminate].
  destruct (takeNumeric _) as [|a b] eqn:Ht; [discriminate |].
  intros Hv. injection Hv as <-.
  apply dropPrefix_some in Hp. destruct (dropOne_some _ _ _ Hc) as [colon [Hin Hr]].
  destruct (dropAll_run (String.length r2) r2) as (gap & Hrun & Hgap).
  destruct (takeNumeric_split (dropAll (String.length r2) whiteSpace r2))
    as (rest & Hrest & Hstop).
  exists colon, gap, rest. split; [| split; [| split; assumption]].
  - rewrite Hp, Hr, Hgap at 1. rewrite Hrest at 1. now rewrite Ht.
  - destruct Hin as [<- | [<- | []]]; [now left | now right].
Qed.

Lemma matchField_sound (label : string) (text v : string) :
  matchField label text = Some v ->
  exists pre colon gap rest,
    text = pre ++ label ++ colon ++ gap ++ v ++ rest /\
    (colon = ":" \/ colon = "：") /\ whiteSpaceRun gap /\ startsNumeric rest = false.
Proof.
  revert v. induction text as [|c text IH]; intros v; cbn [matchField].
  - destruct (fieldAt label "") as [w|] eqn:Hf; [| discriminate].
    intros Hv. injection Hv as <-.
    destruct (fieldAt_sound _ _ _ Hf) as (colon & gap & rest & Hs).
    now exists "", colon, gap, rest.
  - destruct (fieldAt label (String c text)) as [w|] eqn:Hf.
    + intros Hv. injection Hv as <-.
      destruct (fieldAt_sound _ _ _ Hf) as (colon & gap & rest & Hs).
      now exists "", colon, gap, rest.
    + intros Hv. destruct (IH v Hv) as (pre & colon & gap & rest & Hs & Hrest).
      exists (String c pre), colon, gap, rest. split; [| exact Hrest].
      cbn [String.append]. now rewrite <- Hs.
Qed.

Lemma dropPrefix_app (p s : string) : dropPrefix p (p ++ s) = Some s.
Proof.
  induction p as [|a p IH]; [reflexivity |]. cbn [String.append dropPrefix].
  now rewrite Ascii.eqb_refl.
Qed.

(** The encodings of white space are no prefixes of one another. *)
Lemma dropOne_whiteSpace_item (w s : string) :
  In w whiteSpace -> dropOne whiteSpace (w ++ s) = Some s.
Proof.
  intros Hw. unfold whiteSpace in Hw. cbn [map bytes] in Hw.
  repeat (destruct Hw as [<- | Hw]; [reflexivity |]). contradiction.
Qed.

Lemma dropOne_whiteSpace_numeric (c : ascii) (s : string) :
  isNumeric c = true -> dropOne whiteSpace (String c s) = None.
Proof.
  destruct c as [[] [] [] [] [] [] [] []]; intros Hc;
    try discriminate Hc; reflexivity.
Qed.

Lemma concat_length (ws : list string) :
  Forall (fun w => In w whiteSpace) ws ->
  (length ws <= String.length (String.concat "" ws))%nat.
Proof.
  induction 1 as [|w ws Hw Hall IH]; [cbn; lia |].
  rewrite concat_empty_cons. cbn [length].
  assert (Hlen : forall a b, String.length (a ++ b) = (String.length a + String.length b)%nat).
  { clear. induction a as [|c a IH]; intros b; [reflexivity |]. cbn. now rewrite IH. }
  rewrite Hlen.
  assert (1 <= String.length w)%nat.
  { unfold whiteSpace in Hw. cbn [map bytes] in Hw.
    repeat (destruct Hw as [<- | Hw]; [cbn; lia |]). contradiction. }
  lia.
Qed.

Lemma dropAll_whiteSpaceRun (ws : list string) :
  Forall (fun w => In w whiteSpace) ws ->
  forall fuel z, (length ws <= fuel)%nat -> dropOne whiteSpace z = None ->
  dropAll fuel whiteSpace (String.concat "" ws ++ z) = z.
Proof.
  induction 1 as [|w ws Hw Hall IH]; intros fuel z Hfuel Hz.
  - cbn [String.concat String.append]. destruct fuel; cbn [dropAll]; [reflexivity |].
    now rewrite Hz.
  - rewrite concat_empty_cons, string_app_assoc.
    destruct fuel as [|fuel]; [cbn in Hfuel; lia |]. cbn [dropAll].
    rewrite (dropOne_whiteSpace_item w _ Hw). apply IH; [cbn in Hfuel; lia | exact Hz].
Qed.

Lemma takeNumeric_exact (v rest : string) :
  forallb isNumeric (list_ascii_of_string v) = true -> startsNumeric rest = false ->
  takeNumeric (v ++ rest) = v.
Proof.
  induction v as [|c v IH]; intros Hv Hrest.
  - cbn [String.append]. destruct rest as [|c rest]; [reflexivity |].
    cbn [takeNumeric]. cbn [startsNumeric] in Hrest. now rewrite Hrest.
  - cbn [list_ascii_of_string forallb] in Hv. apply andb_true_iff in Hv as [Hc Hv].
    cbn [String.append takeNumeric]. rewrite Hc. now rewrite IH.
Qed.

Lemma append_length (a b : string) :
  String.length (a ++ b) = (String.length a + String.length b)%nat.
Proof. induction a as [|c a IH]; [reflexivity |]. cbn. now rewrite IH. Qed.

Lemma fieldAt_complete (label colon gap v rest : string) :
  (colon = ":" \/ colon = "：") -> whiteSpaceRun gap ->
  isNumericString v = true -> startsNumeric rest = false ->
  fieldAt label (label ++ colon ++ gap ++ v ++ rest) = Some v.
Proof.
  intros Hcolon (ws & Hws & ->) Hv Hrest. unfold fieldAt.
  rewrite dropPrefix_app.
  assert (Hc : dropOne [":"; "："] (colon ++ String.concat "" ws ++ v ++ rest) =
               Some (String.concat "" ws ++ v ++ rest))
    by (destruct Hcolon as [-> | ->]; reflexivity).
  rewrite Hc.
  unfold isNumericString in Hv. apply andb_true_iff in Hv as [Hne Hnum].
  destruct v as [|c v]; [discriminate |].
  assert (Hc0 : isNumeric c = true).
  { cbn [list_ascii_of_string forallb] in Hnum. now apply andb_true_iff in Hnum as [Hc0 _]. }
  rewrite dropAll_whiteSpaceRun.
  - rewrite (takeNumeric_exact (String c v) rest Hnum Hrest). reflexivity.
  - exact Hws.
  - rewrite append_length. pose proof (concat_length ws Hws). lia.
  - cbn [String.append]. now apply dropOne_whiteSpace_numeric.
Qed.

(** Two ways to split a string: the shorter first part starts the longer. *)
Lemma app_eq_prefix (a x b y : string) :
  a ++ x = b ++ y -> (String.length b <= String.length a)%nat ->
  exists q, a = b ++ q.
Proof.
  revert b; induction a as [|c a IH]; intros [|d b] Heq Hlen.
  - now exists "".
  - cbn in Hlen. lia.
  - now exists (String c a).
  - cbn [String.append] in Heq. injection Heq as -> Heq.
    destruct (IH b Heq ltac:(cbn in Hlen; lia)) as [q ->]. now exists q.
Qed.

Lemma matchField_complete (label pre colon gap v rest : string) :
  (colon = ":" \/ colon = "：") -> whiteSpaceRun gap ->
  isNumericString v = true -> startsNumeric rest = false ->
  (forall p q, pre ++ label = p ++ label ++ q -> q = "") ->
  matchField label (pre ++ label ++ colon ++ gap ++ v ++ rest) = Some v.
Proof.
  intros Hcolon Hgap Hv Hrest. induction pre as [|c pre IH]; intros Hfirst.
  - cbn [String.append].
    pose proof (fieldAt_complete label colon gap v rest Hcolon Hgap Hv Hrest) as Hf.
    destruct (label ++ colon ++ gap ++ v ++ rest) as [|x s]; cbn [matchField];
      now rewrite Hf.
  - cbn [String.append matchField].
    replace (fieldAt label (String c (pre ++ label ++ colon ++ gap ++ v ++ rest)))
      with (@None string).
    + apply IH. intros p q Hpq. apply (Hfirst (String c p) q).
      cbn [String.append]. now rewrite Hpq.
    + symmetry. unfold fieldAt.
      destruct (dropPrefix label (String c (pre ++ label ++ colon ++ gap ++ v ++ rest)))
        as [r|] eqn:Hp; [| reflexivity].
      exfalso. apply dropPrefix_some in Hp.
      assert (Heq : (String c pre ++ label) ++ colon ++ gap ++ v ++ rest = label ++ r).
      { rewrite <- Hp. cbn [String.append]. now rewrite string_app_assoc. }
      destruct (app_eq_prefix _ _ _ _ Heq) as [q Hq].
      { rewrite append_length. lia. }
      pose proof (Hfirst "" q Hq) as Hq0. subst q.
      apply (f_equal String.length) in Hq. rewrite !append_length in Hq.
      cbn in Hq. lia.
Qed.

(** X18: the value [matchField] takes for a label is a non-empty run of
    digits and dots, as long as it goes, that follows an occurrence of the
    label, a half-width or full-width colon and then white space only;
    where the first occurrence of the label in the text is followed in
    this way, that run is the value taken and written to the row; a text
    in which the label is never followed by a colon gives the cell 0. *)
Theorem X18_nutrient_field (label text : string) :
  (forall v, matchField label text = Some v ->
     isNumericString v = true /\
     exists pre colon gap rest,
       text = pre ++ label ++ colon ++ gap ++ v ++ rest /\
       (colon = ":" \/ colon = "：") /\ whiteSpaceRun gap /\
       startsNumeric rest = false) /\
  (forall pre colon gap v rest,
     text = pre ++ label ++ colon ++ gap ++ v ++ rest ->
     (colon = ":" \/ colon = "：") -> whiteSpaceRun gap ->
     isNumericString v = true -> startsNumeric rest = false ->
     (forall p q, pre ++ label = p ++ label ++ q -> q = "") ->
     matchField label text = Some v /\ nutrientCell label text = CStr v) /\
  (includes text (label ++ ":") = false -> includes text (label ++ "：") = false ->
   nutrientCell label text = CNum 0).
Proof.
  split; [| split].
  - intros v Hv. split; [exact (matchField_numeric _ _ _ Hv) |].
    now apply matchField_sound.
  - intros pre colon gap v rest -> Hcolon Hgap Hv Hrest Hfirst.
    assert (Hm : matchField label (pre ++ label ++ colon ++ gap ++ v ++ rest) = Some v)
      by now apply matchField_complete.
    split; [exact Hm |]. unfold nutrientCell. now rewrite Hm.
  - intros H1 H2. unfold nutrientCell.
    destruct (matchField label text) as [v|] eqn:Hm; [| reflexivity].
    exfalso.
    destruct (matchField_sound _ _ _ Hm) as (pre & colon & gap & rest & Hs & Hc & _).
    destruct Hc as [-> | ->].
    + assert (Hin : includes text (label ++ ":") = true).
      { apply includes_app. exists pre, (gap ++ v ++ rest).
        rewrite Hs at 1. now rewrite !string_app_assoc. }
      congruence.
    + assert (Hin : includes text (label ++ "：") = true).
      { apply includes_app. exists pre, (gap ++ v ++ rest).
        rewrite Hs at 1. now rewrite !string_app_assoc. }
      congruence.
Qed.

Lemma app_nil_unique (a q : string) : a ++ q = a -> q = "".
Proof.
  intros Hq. apply (f_equal String.length) in Hq. rewrite append_length in Hq.
  destruct q; [reflexivity | cbn in Hq; lia].
Qed.

Lemma occursOnlyAtEnd_spec (label s : string) :
  occursOnlyAtEnd label s = true -> forall p q, s = p ++ label ++ q -> q = "".
Proof.
  induction s as [|c s IH]; intros Hocc p q Hs.
  - destruct p as [|d p]; [| discriminate]. cbn [String.append] in Hs.
    destruct label as [|d l]; [| discriminate]. now cbn [String.append] in Hs.
  - cbn [occursOnlyAtEnd] in Hocc. apply andb_true_iff in Hocc as [Hhere Htail].
    destruct p as [|d p].
    + cbn [String.append] in Hs.
      assert (Hst : startsWith label (String c s) = true)
        by (apply startsWith_app; now exists q).
      rewrite Hst in Hhere. cbn [negb orb] in Hhere. apply String.eqb_eq in Hhere.
      rewrite Hhere in Hs. symmetry in Hs. now apply app_nil_unique in Hs.
    + cbn [String.append] in Hs. injection Hs as _ Hs. exact (IH Htail p q Hs).
Qed.

Lemma X18_nutrient_field_witness :
  let text := "カロリー: 約350" ++ nl ++ "カロリー：  12.5 kcal" in
  let pre := "推定値です。" ++ nl in
  let answer := pre ++ "鉄" ++ "：" ++ " " ++ "2.5" ++ "mg" in
  matchField "カロリー" text = Some "12.5" /\
  (exists pre colon gap rest,
     text = pre ++ "カロリー" ++ colon ++ gap ++ "12.5" ++ rest /\
     (colon = ":" \/ colon = "：") /\ whiteSpaceRun gap /\ startsNumeric rest = false) /\
  whiteSpaceRun " " /\ isNumericString "2.5" = true /\ startsNumeric "mg" = false /\
  (forall p q, pre ++ "鉄" = p ++ "鉄" ++ q -> q = "") /\
  nutrientCell "鉄" answer = CStr "2.5" /\
  includes text ("鉄" ++ ":") = false /\ includes text ("鉄" ++ "：") = false /\
  nutrientCell "鉄" text = CNum 0.
Proof.
  intros text pre answer.
  assert (Hm : matchField "カロリー" text = Some "12.5") by (vm_compute; reflexivity).
  assert (Hgap : whiteSpaceRun " ").
  { exists [" "]. split; [| reflexivity]. constructor; [| constructor].
    vm_compute. tauto. }
  assert (Hv : isNumericString "2.5" = true) by (vm_compute; reflexivity).
  assert (Hrest : startsNumeric "mg" = false) by (vm_compute; reflexivity).
  assert (Hfirst : forall p q, pre ++ "鉄" = p ++ "鉄" ++ q -> q = "")
    by (apply occursOnlyAtEnd_spec; vm_compute; reflexivity).
  assert (H1 : includes text ("鉄" ++ ":") = false) by (vm_compute; reflexivity).
  assert (H2 : includes text ("鉄" ++ "：") = false) by (vm_compute; reflexivity).
  split; [exact Hm |].
  split; [exact (proj2 (proj1 (X18_nutrient_field "カロリー" text) "12.5" Hm)) |].
  split; [exact Hgap |]. split; [exact Hv |]. split; [exact Hrest |].
  split; [exact Hfirst |].
  split; [exact (proj2 (proj1 (proj2 (X18_nutrient_field "鉄" answer))
                          pre "：" " " "2.5" "mg" eq_refl (or_intror eq_refl)
                          Hgap Hv Hrest Hfirst)) |].
  split; [exact H1 |]. split; [exact H2 |].
  exact (proj2 (proj2 (X18_nutrient_field "鉄" text)) H1 H2).
Defined.

(** ** The order of ISO dates *)

(** X19: for days of the years 0 to 9999 the date strings the program
    writes are ordered, as strings, like the days they name; so the
    comparisons of the range filter select the rows whose meal date lies
    between the first and the last day of the range. *)
Theorem X19_iso_dates_order_like_days (a b : Z) :
  0 <= fst (fst (civilFromDays a)) <= 9999 ->
  0 <= fst (fst (civilFromDays b)) <= 9999 ->
  (strLe (isoDateOfDay a) (isoDateOfDay b) <-> a <= b) /\
  (forall (c : Z) (r : row),
     0 <= fst (fst (civilFromDays c)) <= 9999 ->
     nth_error r 2 = Some (isoDateOfDay c) ->
     (inRange (isoDateOfDay a) (isoDateOfDay b) r = true <-> a <= c <= b)).
Proof.
  intros Ha Hb. split; [now apply isoDateOfDay_strLe |].
  intros c r Hc Hcell. now apply inRange_isoDates.
Qed.

Lemma X19_iso_dates_order_witness :
  (0 <= fst (fst (civilFromDays 19782)) <= 9999) /\
  (0 <= fst (fst (civilFromDays 19783)) <= 9999) /\
  isoDateOfDay 19782 = "2024-02-29" /\ isoDateOfDay 19783 = "2024-03-01" /\
  strLe (isoDateOfDay 19782) (isoDateOfDay 19783).
Proof.
  assert (Ha : 0 <= fst (fst (civilFromDays 19782)) <= 9999)
    by (apply year_of_day_bounds; lia).
  assert (Hb : 0 <= fst (fst (civilFromDays 19783)) <= 9999)
    by (apply year_of_day_bounds; lia).
  split; [exact Ha |]. split; [exact Hb |].
  split; [vm_compute; reflexivity |]. split; [vm_compute; reflexivity |].
  apply (proj1 (X19_iso_dates_order_like_days 19782 19783 Ha Hb)). lia.
Defined.

(** ** From the phrase to the rows *)

Section LastWeekRows.
Context `{Host}.

(** X20: in every time zone of fixed offset, from 7 days after the epoch
    to the end of the year 9999, a summary request with 先週 (and no
    entire-history phrase) reads the meal log once and keeps, of the rows
    whose meal date is an ISO date of the years 0 to 9999, exactly those of
    the seven days from today - 7 to today - 1. *)
Theorem X20_last_week_rows (env : Env) (now : Z) (text : string) (rows : list row) :
  7 * msPerDay <= now < 253402300800000 ->
  includes text "これまで" || includes text "全期間" = false ->
  includes text "先週" = true ->
  authClient (sheets env) = None ->
  values_get (sheets env) "Meal Log!A2:N" = inl rows ->
  exists r logs,
    detectDateRange now text = Some r /\
    fetchSummaryLogs env r =
      ([GetAuthClient; SheetsGet "Meal Log!A2:N"],
       Returned (logs, isoDateOfDay (Day now - 7), isoDateOfDay (Day now - 1))) /\
    forall (row : row) (d : Z),
      0 <= fst (fst (civilFromDays d)) <= 9999 ->
      nth_error row 2 = Some (isoDateOfDay d) ->
      (In row logs <-> In row rows /\ Day now - 7 <= d <= Day now - 1).
Proof.
  intros [Hlo Hhi] Hall Hlast Hauth Hget.
  assert (Htoday : 7 <= Day now <= 2932896).
  { unfold Day, msPerDay in *. split.
    - apply Z.div_le_lower_bound; lia.
    - apply Z.lt_succ_r. apply Z.div_lt_upper_bound; lia. }
  assert (Hy7 : 0 <= fst (fst (civilFromDays (Day now - 7))) <= 9999)
    by (apply year_of_day_bounds; lia).
  assert (Hy1 : 0 <= fst (fst (civilFromDays (Day now - 1))) <= 9999)
    by (apply year_of_day_bounds; lia).
  destruct (lastWeek_range now) as [Hs He]. cbv zeta in Hs, He.
  exists {| range_start := isoDateOfDay (Day now - 7);
            range_end := isoDateOfDay (Day now - 1) |},
         (filter (inRange (isoDateOfDay (Day now - 7)) (isoDateOfDay (Day now - 1))) rows).
  split; [| split].
  - unfold detectDateRange. cbv zeta. now rewrite Hall, Hlast, Hs, He.
  - unfold fetchSummaryLogs. cbn [range_start range_end].
    rewrite (isoDateOfDay_not_ALL _ Hy7). cbn [andb].
    rewrite (getMealLogsByRange_ok _ _ _ rows Hauth Hget).
    rewrite (isoDateOfDay_not_ALL _ Hy7). reflexivity.
  - intros row d Hd Hcell. rewrite filter_In.
    rewrite (inRange_isoDates _ _ d row Hy7 Hy1 Hd Hcell). reflexivity.
Qed.

End LastWeekRows.

Lemma X20_last_week_rows_witness :
  let rows := [mealRow "2024-03-07" "100"; mealRow "2024-03-08" "200";
               mealRow "2024-03-14" "300"; mealRow "2024-03-15" "400"] in
  let env := quietEnv "" rows in
  let now := 1710504000000 in
  let text := "先週の食事のサマリー" in
  7 * msPerDay <= now < 253402300800000 /\
  includes text "これまで" || includes text "全期間" = false /\
  includes text "先週" = true /\
  authClient (sheets env) = None /\
  values_get (sheets env) "Meal Log!A2:N" = inl rows /\
  exists r,
    @detectDateRange asciiHostJST now text = Some r /\
    snd (fetchSummaryLogs env r) =
      Returned ([mealRow "2024-03-08" "200"; mealRow "2024-03-14" "300"],
                "2024-03-08", "2024-03-14").
Proof.
  intros rows env now text.
  assert (H1 : 7 * msPerDay <= now < 253402300800000)
    by (subst now; unfold msPerDay; lia).
  assert (H2 : includes text "これまで" || includes text "全期間" = false)
    by (vm_compute; reflexivity).
  assert (H3 : includes text "先週" = true) by (vm_compute; reflexivity).
  assert (H4 : authClient (sheets env) = None) by reflexivity.
  assert (H5 : values_get (sheets env) "Meal Log!A2:N" = inl rows) by reflexivity.
  split; [exact H1 |]. split; [exact H2 |]. split; [exact H3 |].
  split; [exact H4 |]. split; [exact H5 |].
  destruct (@X20_last_week_rows asciiHostJST env now text rows H1 H2 H3 H4 H5)
    as (r & logs & Hr & Hfetch & _).
  exists r. split; [exact Hr |].
  assert (Hr' : @detectDateRange asciiHostJST now text =
                Some {| range_start := "2024-03-08"; range_end := "2024-03-14" |})
    by (vm_compute; reflexivity).
  rewrite Hr' in Hr. injection Hr as <-. vm_compute. reflexivity.
Defined.
